(** * pathfinder: the career recommendation engine

    A shallow embedding of [backend/recommender.py], the catalog of
    [backend/database.py], the result records of [backend/models.py] and
    the learning-path endpoint of [backend/main.py], followed by the
    properties the specification states about them.

    A second part embeds what surrounds the engine: the catalog's search
    and the other endpoints, the skill and education extraction of
    [backend/parser.py] with the patterns of [re] it uses, and the pure
    parts of the dashboard ([frontend/components]): the sidebar's
    comma-separated fields and the timeline of a learning path.

    Conventions of the embedding:
    - a Python [str] is a [string]; [str.lower] maps the ASCII letters
      [A]..[Z] to [a]..[z] and leaves every other byte alone;
      the embedding of strings is exact on ASCII text, which the catalog
      and the parser's vocabulary are: beyond it Python lower-cases,
      strips and finds word boundaries by the Unicode tables, so the
      properties of the second part that depend on those classes are
      stated for ASCII text ([is_ascii]);
    - a Python [int] is a [Z]; a Python [float] is a binary64 [float] of
      the kernel, so that every score evaluates to the very double the
      interpreter computes;
    - a Python [set] is the list of its distinct elements; only its
      iteration goes through [set_iter], an order the language leaves
      unspecified (for strings it changes with the hash seed);
    - a Python [dict] is an association list in insertion order. *)

From Stdlib Require Import ZArith Floats Ascii String.
From Stdlib Require OrderedTypeEx.
From stdpp Require Import base list strings gmap sets sorting.

Local Open Scope string_scope.
Local Open Scope list_scope.
Local Open Scope Z_scope.

(** ** Python strings *)

Module Str.

(** One character of [str.lower]. *)
Definition lower_ascii (c : ascii) : ascii :=
  let n := nat_of_ascii c in
  if ((65 <=? n)%nat && (n <=? 90)%nat)%bool then ascii_of_nat (n + 32) else c.

(** [s.lower()] on ASCII text: the letters [A]..[Z] become [a]..[z].
    Other bytes are left alone, where Python would also lower-case the
    letters beyond ASCII. *)
Fixpoint lower (s : string) : string :=
  match s with
  | EmptyString => EmptyString
  | String c t => String (lower_ascii c) (lower t)
  end.

(** [a in b] on strings: [a] occurs in [b] as a contiguous substring. *)
Fixpoint contains (a b : string) : bool :=
  String.prefix a b ||
  match b with
  | EmptyString => false
  | String _ t => contains a t
  end.

(** [s.replace(' ', r)] *)
Fixpoint replace_space (r s : string) : string :=
  match s with
  | EmptyString => EmptyString
  | String c t =>
      if Ascii.eqb c " "%char then r +:+ replace_space r t
      else String c (replace_space r t)
  end.

End Str.

(** ** Python numbers *)

Module Num.

(** The exact value of an [int] as an unrounded binary number. *)
Definition Z2SF (n : Z) : spec_float :=
  match n with
  | Z0 => S754_zero false
  | Zpos p => S754_finite false p 0
  | Zneg p => S754_finite true p 0
  end.

(** [float(n)]: the double nearest to the integer. *)
Definition of_int (n : Z) : float :=
  SF2Prim (binary_normalize prec emax n 0 false).

(** [m / n] on two [int]s: true division, the correctly rounded
    quotient (the divisor is never zero where the engine divides). *)
Definition truediv (m n : Z) : float :=
  SF2Prim (SFdiv prec emax (Z2SF m) (Z2SF n)).

(** Nearest integer to [n / d] for [d > 0], ties to the even one. *)
Definition round_half_even (n d : Z) : Z :=
  let q := n / d in
  match 2 * (n mod d) ?= d with
  | Lt => q
  | Gt => q + 1
  | Eq => if Z.even q then q else q + 1
  end.

(** [round(x, 2)] on a [float]: the exact binary value of [x] is
    rounded, ties to even, to a decimal with two digits after the point,
    and that decimal is read back as the nearest double.  Infinities and
    NaN round to themselves. *)
Definition round2 (x : float) : float :=
  match Prim2SF x with
  | S754_finite s m e =>
      let k := match e with
               | Zneg p => round_half_even (100 * Zpos m) (2 ^ Zpos p)
               | _ => 100 * Zpos m * 2 ^ e
               end in
      match k with
      | Z0 => if s then (-0)%float else 0%float
      | _ => SF2Prim (SFdiv prec emax (Z2SF (if s then - k else k)) (Z2SF 100))
      end
  | _ => x
  end.

(** [min(x, 100)]: the first argument unless the second is smaller. *)
Definition min_100 (x : float) : float :=
  if (100 <? x)%float then 100%float else x.

(** A binary number that is zero, positive or plus infinity: neither NaN
    nor negative. *)
Definition sf_nonneg (x : spec_float) : bool :=
  match x with
  | S754_zero _ => true
  | S754_infinity s => negb s
  | S754_finite s _ _ => negb s
  | S754_nan => false
  end.

Definition is_nonneg (x : float) : Prop := sf_nonneg (Prim2SF x) = true.

(** The bounds [ge=0, le=100] the result model declares for a score. *)
Definition in_score_range (x : float) : bool :=
  ((0 <=? x)%float && (x <=? 100)%float)%bool.

End Num.

(** ** Python lists, sets and dicts *)

Module Py.

(** [l[:n]]: the first [n] items, or all but the last [-n] when [n] is
    negative. *)
Definition slice_to {A} (n : Z) (l : list A) : list A :=
  if 0 <=? n then take (Z.to_nat n) l
  else take (length l - Z.to_nat (- n))%nat l.

(** [len(l)] *)
Definition len {A} (l : list A) : Z := Z.of_nat (length l).

(** A set of strings: its distinct elements, in the order they were
    first added. *)
Abbreviation pyset := (list string) (only parsing).

Definition set_add (x : string) (s : pyset) : pyset :=
  if decide (x ∈ s) then s else s ++ [x].

(** [{f(x) for x in l}] *)
Definition set_comp (f : string → string) (l : list string) : pyset :=
  foldl (λ s x, set_add (f x) s) [] l.

(** [x in s] *)
Definition set_in (x : string) (s : pyset) : bool := bool_decide (x ∈ s).

(** [a & b] *)
Definition set_and (a b : pyset) : pyset := filter (λ x, x ∈ b) a.

(** The order in which [for x in s] visits a set.  Python promises only
    that every element is visited once. *)
Class SetOrder := {
  set_iter : pyset → list string;
  set_iter_perm : ∀ s, set_iter s ≡ₚ s
}.

(** A dict with string keys: the items in insertion order. *)
Abbreviation dict V := (list (string * V)) (only parsing).

(** [d[k] = v]: a present key keeps its place and takes the new value,
    a new key goes to the end. *)
Fixpoint dict_set {V} (k : string) (v : V) (d : dict V) : dict V :=
  match d with
  | [] => [(k, v)]
  | (k', v') :: d' =>
      if decide (k = k') then (k', v) :: d' else (k', v') :: dict_set k v d'
  end.

(** [{key(x): x for x in l}] *)
Definition dict_comp (key : string → string) (l : list string) : dict string :=
  foldl (λ d x, dict_set (key x) x d) [] l.

(** [d.get(k)] *)
Fixpoint dict_get {V} (k : string) (d : dict V) : option V :=
  match d with
  | [] => None
  | (k', v) :: d' => if decide (k = k') then Some v else dict_get k d'
  end.

(** [k in d] *)
Definition dict_in {V} (k : string) (d : dict V) : bool :=
  bool_decide (k ∈ d.*1).

(** [[d[k] for k in ks if cond(k)]]: the subscript of an absent key
    would raise [KeyError]; every comprehension of the engine guards it
    with a membership test or iterates the keys of [d] itself. *)
Definition select_values {V} (d : dict V) (cond : string → bool)
    (ks : list string) : list V :=
  omap (λ k, if cond k then dict_get k d else None) ks.

End Py.

(** ** Stable sort, best key first

    [list.sort(key=..., reverse=True)] is stable: items whose keys compare
    equal keep their order.  The embedding is the insertion sort that
    places each item, taken left to right, behind every item already
    placed whose key is not smaller. *)

Section StableSort.
Context {A : Type} (lt : A → A → bool).

Fixpoint insert_desc (x : A) (l : list A) : list A :=
  match l with
  | [] => [x]
  | y :: l' => if lt y x then x :: y :: l' else y :: insert_desc x l'
  end.

Definition sort_desc (l : list A) : list A :=
  foldl (λ acc x, insert_desc x acc) [] l.

(** No item is smaller than a later one. *)
Definition descending : list A → Prop :=
  StronglySorted (λ a b, lt a b = false).

End StableSort.

(** ** Data model ([backend/models.py], [backend/database.py]) *)

(** One entry of [CAREER_DATABASE].  [industry] is the one key the engine
    tests for before it reads it; the others it subscripts directly. *)
Record career_details := {
  required_skills : list string;
  nice_to_have : list string;
  description : string;
  avg_salary : string;
  growth_outlook : string;
  education_required : string;
  industry : option (list string)
}.

(** The request model.  Its declaration asks for at least one skill
    ([min_items=1]); the engine itself takes any list. *)
Record StudentProfile := {
  skills : list string;
  interests : list string;
  education_level : string;
  gpa : option float;
  experience_years : option Z
}.

(** The result model.  The descriptive fields are renamed where a field
    of [career_details] has the name already.  The declaration bounds
    [match_score] by [ge=0, le=100]; [match_score_range] below shows that
    every score the engine builds is within these bounds, so that
    building the record never fails. *)
Record CareerRecommendation := {
  career : string;
  match_score : float;
  matching_skills : list string;
  skills_to_learn : list string;
  rec_description : string;
  salary_info : string;
  rec_growth_outlook : string
}.

(** The dict [analyze_skills_gap] returns for a known career (its keys
    [required_skills] and [nice_to_have] are [gap_required_skills] and
    [gap_nice_to_have] here). *)
Record gap_analysis := {
  target_career : string;
  current_skills : list string;
  gap_required_skills : list string;
  gap_nice_to_have : list string;
  missing_required : list string;
  missing_nice : list string;
  matching_required : list string;
  matching_nice : list string;
  completion_percentage : float;
  priority_skills : list string
}.

(** [analyze_skills_gap] returns either the dict [{"error": msg}] or the
    analysis; callers tell them apart by the key ["error"]. *)
Inductive gap_result :=
  | GapError (error : string)
  | GapOk (analysis : gap_analysis).

Inductive difficulty := beginner | intermediate | advanced.

Record resource := {
  res_type : string;
  res_name : string;
  platform : string;
  url : string
}.

Record learning_module := {
  order : Z;
  skill : string;
  module_difficulty : difficulty;
  estimated_weeks : Z;
  resources : list resource
}.

(** The body of the [/learning-path] response. *)
Record learning_path_response := {
  lp_target_career : string;
  learning_path : list learning_module;
  total_weeks : Z;
  total_skills : Z
}.

(** What an endpoint answers: a body, or an [HTTPException]. *)
Inductive http (A : Type) :=
  | Http200 (body : A)
  | HttpError (status_code : Z) (detail : string).
Arguments Http200 {A} body.
Arguments HttpError {A} status_code detail.

(** ** The engine ([backend/recommender.py], class [CareerRecommender]) *)

Section Engine.
Import Str Num Py.
Context {iteration : SetOrder}.
(** [self.career_db] *)
Context (career_db : dict career_details).

Definition calculate_skill_match_score (user_skills career_skills
    nice_to_have : list string) : float :=
  match career_skills with
  | [] => 0%float
  | _ =>
      let user_skills_lower := set_comp lower user_skills in
      let required_lower := set_comp lower career_skills in
      let nice_lower := set_comp lower nice_to_have in
      let required_matches := len (set_and user_skills_lower required_lower) in
      let required_score :=
        (truediv required_matches (len required_lower) * 70)%float in
      let nice_score :=
        match nice_to_have with
        | [] => 0%float
        | _ =>
            let nice_matches := len (set_and user_skills_lower nice_lower) in
            (truediv nice_matches (len nice_lower) * 30)%float
        end in
      let total_score := (required_score + nice_score)%float in
      round2 total_score
  end.

(** One turn of the loop over the interests: the name test, then the
    loop over the industry tags. *)
Definition interest_step (career_lower : string)
    (details : career_details) (boost : Z) (interest : string) : Z :=
  let boost := if contains interest career_lower then boost + 5 else boost in
  match industry details with
  | Some tags =>
      foldl (λ boost ind,
               if contains interest (lower ind) then boost + 3 else boost)
            boost tags
  | None => boost
  end.

Definition calculate_interest_boost (interests : list string)
    (career_name : string) (details : career_details) : Z :=
  match interests with
  | [] => 0
  | _ =>
      let interests_lower := map lower interests in
      let career_lower := lower career_name in
      let boost := foldl (interest_step career_lower details) 0 interests_lower in
      Z.min boost 10
  end.

Definition calculate_experience_match (user_experience : Z)
    (details : career_details) : Z :=
  if user_experience =? 0 then 0
  else if user_experience <? 2 then 2
  else if user_experience <? 5 then 5
  else 8.

(** The body of the loop of [recommend_careers] for one catalog item. *)
Definition recommendation_for (profile : StudentProfile)
    (item : string * career_details) : CareerRecommendation :=
  let '(career, details) := item in
  let skill_score :=
    calculate_skill_match_score (skills profile)
      (required_skills details) (nice_to_have details) in
  let interest_boost :=
    calculate_interest_boost (interests profile) career details in
  let experience_boost :=
    calculate_experience_match (default 0 (experience_years profile)) details in
  let final_score :=
    min_100 (skill_score + of_int interest_boost + of_int experience_boost)%float in
  let user_skills_lower := set_comp lower (skills profile) in
  let required_lower := dict_comp lower (required_skills details) in
  let matching_skills :=
    select_values required_lower (λ skill, dict_in skill required_lower)
      (set_iter user_skills_lower) in
  let skills_to_learn :=
    filter (λ skill, lower skill ∉ user_skills_lower) (required_skills details) in
  {| career := career;
     match_score := final_score;
     matching_skills := matching_skills;
     skills_to_learn := slice_to 5 skills_to_learn;
     rec_description := description details;
     salary_info := avg_salary details;
     rec_growth_outlook := growth_outlook details |}.

(** The list before it is sorted: one recommendation per catalog item,
    in the iteration order of the catalog. *)
Definition all_recommendations (profile : StudentProfile)
    : list CareerRecommendation :=
  map (recommendation_for profile) career_db.

Definition score_lt (a b : CareerRecommendation) : bool :=
  (match_score a <? match_score b)%float.

Definition recommend_careers (profile : StudentProfile) (top_n : Z)
    : list CareerRecommendation :=
  let recommendations := all_recommendations profile in
  let recommendations := sort_desc score_lt recommendations in
  slice_to top_n recommendations.

(** The default of the parameter [top_n]. *)
Definition default_top_n : Z := 10.

Definition analyze_skills_gap (profile : StudentProfile)
    (target_career : string) : gap_result :=
  match dict_get target_career career_db with
  | None => GapError "Career not found"
  | Some details =>
      let user_skills_lower := set_comp lower (skills profile) in
      let required_skills := required_skills details in
      let nice_to_have := nice_to_have details in
      let required_lower := dict_comp lower required_skills in
      let nice_lower := dict_comp lower nice_to_have in
      let missing_required :=
        select_values required_lower
          (λ skill, negb (set_in skill user_skills_lower)) required_lower.*1 in
      let missing_nice :=
        select_values nice_lower
          (λ skill, negb (set_in skill user_skills_lower)) nice_lower.*1 in
      let matching_required :=
        select_values required_lower (λ skill, dict_in skill required_lower)
          (set_iter user_skills_lower) in
      let matching_nice :=
        select_values nice_lower (λ skill, dict_in skill nice_lower)
          (set_iter user_skills_lower) in
      let completion :=
        match required_skills with
        | [] => 0%float
        | _ => (truediv (len matching_required) (len required_skills) * 100)%float
        end in
      let priority_skills :=
        slice_to 3 missing_required ++ slice_to 2 missing_nice in
      GapOk {| target_career := target_career;
               current_skills := skills profile;
               gap_required_skills := required_skills;
               gap_nice_to_have := nice_to_have;
               missing_required := missing_required;
               missing_nice := missing_nice;
               matching_required := matching_required;
               matching_nice := matching_nice;
               completion_percentage := round2 completion;
               priority_skills := priority_skills |}
  end.

Definition _get_learning_resources (skill : string) : list resource :=
  [ {| res_type := "Course";
       res_name := skill +:+ " Complete Course";
       platform := "Coursera";
       url := "https://www.coursera.org/search?query=" +:+ replace_space "%20" skill |};
    {| res_type := "Documentation";
       res_name := "Official " +:+ skill +:+ " Docs";
       platform := "Official Website";
       url := "#" |};
    {| res_type := "Practice";
       res_name := skill +:+ " Exercises";
       platform := "LeetCode/HackerRank";
       url := "https://leetcode.com" |} ].

(** The table [skill_time_estimates]. *)
Definition skill_time_estimates (d : difficulty) : Z :=
  match d with
  | beginner => 8
  | intermediate => 12
  | advanced => 16
  end.

(** The [if]/[elif] of the module loop; [skill in [...]] compares the
    strings as they are spelled. *)
Definition estimate_difficulty (skill : string) : difficulty :=
  if bool_decide (skill ∈ ["Python"; "JavaScript"; "HTML"; "CSS"; "Git"])
  then beginner
  else if bool_decide (skill ∈ ["Machine Learning"; "Deep Learning"; "System Design"])
  then advanced
  else intermediate.

(** The body of the loop over [enumerate(priority_skills, 1)]; [i] is
    the position counted from zero. *)
Definition module_for (i : nat) (skill : string) : learning_module :=
  let difficulty := estimate_difficulty skill in
  {| order := Z.of_nat i + 1;
     skill := skill;
     module_difficulty := difficulty;
     estimated_weeks := skill_time_estimates difficulty;
     resources := _get_learning_resources skill |}.

Definition get_learning_path (profile : StudentProfile)
    (target_career : string) : list learning_module :=
  match analyze_skills_gap profile target_career with
  | GapError _ => []
  | GapOk gap => imap module_for (priority_skills gap)
  end.

(** ** The two endpoints of [backend/main.py] that wrap the engine *)

(** [sum(xs)] *)
Definition sum (xs : list Z) : Z := foldl Z.add 0 xs.

Definition skills_gap_endpoint (profile : StudentProfile)
    (target_career : string) : http gap_analysis :=
  match analyze_skills_gap profile target_career with
  | GapError error => HttpError 404 error
  | GapOk analysis => Http200 analysis
  end.

Definition learning_path_endpoint (profile : StudentProfile)
    (target_career : string) : http learning_path_response :=
  let path := get_learning_path profile target_career in
  match path with
  | [] => HttpError 404 "Career not found or no learning path needed"
  | _ =>
      Http200 {| lp_target_career := target_career;
                 learning_path := path;
                 total_weeks := sum (map estimated_weeks path);
                 total_skills := len path |}
  end.

End Engine.

(** ** The catalog ([backend/database.py]) *)

(** [CAREER_DATABASE]: a dict literal with twelve distinct keys, so its
    items are the entries in the order they are written. *)
Definition CAREER_DATABASE : Py.dict career_details := [
  ("Data Scientist",
   {| required_skills :=
        ["Python"; "Machine Learning"; "Statistics"; "SQL";
         "Data Visualization"; "Pandas"; "NumPy"; "Scikit-learn";
         "Deep Learning"; "Data Analysis"];
      nice_to_have :=
        ["TensorFlow"; "PyTorch"; "Spark"; "AWS"; "R"; "Tableau"];
      description := "Analyze complex data to help companies make data-driven decisions";
      avg_salary := "$120,000 - $160,000";
      growth_outlook := "22% (Much faster than average)";
      education_required :=
        "Bachelor's or Master's in Computer Science, Statistics, or related field";
      industry :=
        Some ["Technology"; "Finance"; "Healthcare"; "E-commerce"] |});
  ("Software Engineer",
   {| required_skills :=
        ["Python"; "Java"; "Algorithms"; "Data Structures";
         "System Design"; "Git"; "Testing"; "Debugging"; "API";
         "Databases"];
      nice_to_have :=
        ["Docker"; "Kubernetes"; "AWS"; "Microservices"; "CI/CD"];
      description := "Design, develop, and maintain software applications and systems";
      avg_salary := "$110,000 - $150,000";
      growth_outlook := "25% (Much faster than average)";
      education_required :=
        "Bachelor's in Computer Science or related field";
      industry :=
        Some ["Technology"; "Finance"; "Healthcare"; "Entertainment"] |});
  ("Machine Learning Engineer",
   {| required_skills :=
        ["Python"; "Machine Learning"; "Deep Learning"; "TensorFlow";
         "PyTorch"; "MLOps"; "Docker"; "Kubernetes"; "Cloud";
         "Algorithms"];
      nice_to_have :=
        ["Spark"; "AWS"; "Azure"; "Model Optimization"; "Edge Computing"];
      description := "Build and deploy machine learning models at scale in production";
      avg_salary := "$140,000 - $180,000";
      growth_outlook := "21% (Much faster than average)";
      education_required :=
        "Bachelor's or Master's in CS, ML, or related field";
      industry :=
        Some ["Technology"; "AI Companies"; "Research"; "Autonomous Vehicles"] |});
  ("Full Stack Developer",
   {| required_skills :=
        ["JavaScript"; "React"; "Node.js"; "HTML"; "CSS"; "SQL"; "Git";
         "API"; "REST"; "Express"];
      nice_to_have :=
        ["TypeScript"; "Next.js"; "MongoDB"; "Docker"; "AWS"];
      description := "Develop both front-end and back-end of web applications";
      avg_salary := "$100,000 - $140,000";
      growth_outlook := "23% (Much faster than average)";
      education_required :=
        "Bachelor's in Computer Science or self-taught with portfolio";
      industry :=
        Some ["Technology"; "Startups"; "E-commerce"; "Media"] |});
  ("Data Engineer",
   {| required_skills :=
        ["Python"; "SQL"; "Spark"; "Kafka"; "ETL"; "Data Pipelines";
         "AWS"; "Airflow"; "Databases"; "Big Data"];
      nice_to_have :=
        ["Snowflake"; "Databricks"; "Kubernetes"; "Terraform"];
      description := "Build and maintain data infrastructure and pipelines";
      avg_salary := "$115,000 - $155,000";
      growth_outlook := "20% (Much faster than average)";
      education_required :=
        "Bachelor's in Computer Science or Data Engineering";
      industry :=
        Some ["Technology"; "Finance"; "E-commerce"; "Healthcare"] |});
  ("DevOps Engineer",
   {| required_skills :=
        ["Linux"; "Docker"; "Kubernetes"; "CI/CD"; "AWS"; "Jenkins";
         "Terraform"; "Ansible"; "Git"; "Monitoring"];
      nice_to_have :=
        ["Python"; "Shell"; "Azure"; "GCP"; "Security"];
      description := "Automate and optimize software development and deployment processes";
      avg_salary := "$110,000 - $145,000";
      growth_outlook := "20% (Much faster than average)";
      education_required :=
        "Bachelor's in Computer Science or System Administration";
      industry :=
        Some ["Technology"; "Cloud Services"; "Finance"; "All Industries"] |});
  ("Frontend Developer",
   {| required_skills :=
        ["JavaScript"; "React"; "HTML"; "CSS"; "TypeScript"; "Git";
         "Responsive Design"; "API"; "Testing"];
      nice_to_have :=
        ["Vue.js"; "Angular"; "Redux"; "Webpack";
         "Performance Optimization"];
      description := "Create user interfaces and experiences for web applications";
      avg_salary := "$90,000 - $130,000";
      growth_outlook := "23% (Much faster than average)";
      education_required :=
        "Bachelor's in CS or self-taught with strong portfolio";
      industry :=
        Some ["Technology"; "Design Agencies"; "E-commerce"; "Media"] |});
  ("Backend Developer",
   {| required_skills :=
        ["Python"; "Java"; "Node.js"; "SQL"; "API"; "REST"; "Databases";
         "System Design"; "Git"; "Security"];
      nice_to_have :=
        ["Microservices"; "GraphQL"; "Docker"; "AWS"; "Caching"];
      description := "Develop server-side logic and database management";
      avg_salary := "$105,000 - $140,000";
      growth_outlook := "22% (Much faster than average)";
      education_required :=
        "Bachelor's in Computer Science";
      industry :=
        Some ["Technology"; "Finance"; "SaaS"; "E-commerce"] |});
  ("Cloud Architect",
   {| required_skills :=
        ["AWS"; "Azure"; "GCP"; "System Design"; "Networking";
         "Security"; "Docker"; "Kubernetes"; "Terraform"; "Microservices"];
      nice_to_have :=
        ["Multi-Cloud"; "Cost Optimization"; "Compliance"; "Serverless"];
      description := "Design and oversee cloud computing strategies";
      avg_salary := "$135,000 - $175,000";
      growth_outlook := "19% (Much faster than average)";
      education_required :=
        "Bachelor's + Cloud Certifications";
      industry :=
        Some ["Technology"; "Consulting"; "Enterprise"; "All Industries"] |});
  ("AI Research Scientist",
   {| required_skills :=
        ["Machine Learning"; "Deep Learning"; "Python"; "Mathematics";
         "Research"; "PyTorch"; "TensorFlow"; "NLP"; "Computer Vision";
         "Statistics"];
      nice_to_have :=
        ["Publications"; "PhD"; "Reinforcement Learning"; "Transformers"];
      description := "Conduct cutting-edge research in artificial intelligence";
      avg_salary := "$150,000 - $200,000+";
      growth_outlook := "24% (Much faster than average)";
      education_required :=
        "Master's or PhD in CS, AI, or related field";
      industry :=
        Some ["Research Labs"; "Big Tech"; "AI Startups"; "Academia"] |});
  ("Business Analyst",
   {| required_skills :=
        ["Data Analysis"; "Excel"; "SQL"; "Business Intelligence";
         "Communication"; "Problem Solving"; "Requirements Gathering";
         "Analytics"];
      nice_to_have :=
        ["Python"; "Tableau"; "Power BI"; "Agile"; "Project Management"];
      description := "Bridge business needs and technical solutions through data analysis";
      avg_salary := "$80,000 - $110,000";
      growth_outlook := "14% (Faster than average)";
      education_required :=
        "Bachelor's in Business, Economics, or related field";
      industry :=
        Some ["Consulting"; "Finance"; "Technology"; "Healthcare"] |});
  ("Product Manager",
   {| required_skills :=
        ["Product Strategy"; "Communication"; "Agile"; "User Research";
         "Analytics"; "Roadmap Planning"; "Stakeholder Management";
         "Problem Solving"];
      nice_to_have :=
        ["Technical Background"; "SQL"; "A/B Testing"; "Design Thinking"];
      description := "Define product vision and strategy, working with engineering and design";
      avg_salary := "$120,000 - $160,000";
      growth_outlook := "18% (Much faster than average)";
      education_required :=
        "Bachelor's in any field + product experience";
      industry :=
        Some ["Technology"; "SaaS"; "E-commerce"; "Finance"] |})
].

(** [get_all_careers()] *)
Definition get_all_careers : list string := CAREER_DATABASE.*1.

(** [get_career_details(career_name)] *)
Definition get_career_details (career_name : string) : option career_details :=
  Py.dict_get career_name CAREER_DATABASE.

(** The profile of the specification's end-to-end example. *)
Definition example_profile : StudentProfile :=
  {| skills := ["Python"; "SQL"; "Machine Learning"; "Statistics"; "Pandas"];
     interests := [];
     education_level := "Bachelor's";
     gpa := None;
     experience_years := Some 3 |}.

(** A profile without skills and with three years of experience. *)
Definition no_skills_profile : StudentProfile :=
  {| skills := [];
     interests := [];
     education_level := "Bachelor's";
     gpa := None;
     experience_years := Some 3 |}.

(** A profile with two skills that two careers of the catalog list in
    opposite orders. *)
Definition cloud_profile : StudentProfile :=
  {| skills := ["AWS"; "Docker"];
     interests := [];
     education_level := "Bachelor's";
     gpa := None;
     experience_years := None |}.

(** ** Two iteration orders a set may take *)

(** The elements in the order they were added. *)
Definition insertion_order : Py.SetOrder :=
  {| Py.set_iter := λ s, s;
     Py.set_iter_perm := λ s, Permutation_refl s |}.

(** The elements in the opposite order. *)
Definition reverse_order : Py.SetOrder :=
  {| Py.set_iter := λ s, reverse s;
     Py.set_iter_perm := λ s, reverse_Permutation s |}.

(** * The specification's formulas

    The definitions of this part follow the words of the specification;
    the theorems below compare them with the engine. *)

Section SpecFormulas.
Import Str Num.

(** A list of skills as the set the specification compares: the
    skills without regard to letter case. *)
Definition ci_set (l : list string) : gset string := list_to_set (lower <$> l).

(** [|a ∩ b|], case-insensitively. *)
Definition overlap (a b : list string) : Z :=
  Z.of_nat (size (ci_set a ∩ ci_set b)).

(** [|a|], case-insensitively. *)
Definition ci_size (a : list string) : Z := Z.of_nat (size (ci_set a)).

(** [requiredScore = (|skills ∩ required| / |required|) * 70] *)
Definition requiredScore_spec (user required : list string) : float :=
  (truediv (overlap user required) (ci_size required) * 70)%float.

(** [niceScore = (|skills ∩ niceToHave| / |niceToHave|) * 30] if
    [niceToHave] is non-empty, else 0. *)
Definition niceScore_spec (user nice : list string) : float :=
  match nice with
  | [] => 0%float
  | _ => (truediv (overlap user nice) (ci_size nice) * 30)%float
  end.

(** [skillMatch]: 0 if [required] is empty, else the sum of the two
    scores rounded to two decimals. *)
Definition skillMatch_spec (user required nice : list string) : float :=
  match required with
  | [] => 0%float
  | _ => round2 (requiredScore_spec user required + niceScore_spec user nice)%float
  end.

(** What one interest earns: 5 if it occurs in the career name, and 3
    for every industry tag it occurs in, all compared in lower case. *)
Definition interest_points (name : string) (tags : list string)
    (interest : string) : Z :=
  (if contains (lower interest) (lower name) then 5 else 0)
  + 3 * Z.of_nat (length (filter (λ tag, contains (lower interest) (lower tag) = true) tags)).

(** [interestBoost]: 0 if there is no interest, else the points of all
    the interests together, capped at 10. *)
Definition interestBoost_spec (interests : list string) (name : string)
    (tags : list string) : Z :=
  match interests with
  | [] => 0
  | _ => Z.min (sum (interest_points name tags <$> interests)) 10
  end.

End SpecFormulas.

(** * More of the code

    The rest of the backend that the engine's callers reach, and the pure
    parts of the dashboard that prepare the engine's input and lay out
    its output. *)

(** ** More of Python's strings *)

(** [s.isascii()]: every byte is below 128.  On such text [str.lower],
    [str.strip] and the classes [\w] and [\b] of [re] are what [Str.lower],
    [Text.strip] and [Re.is_word] compute; beyond it Python goes by the
    Unicode tables, so the properties that depend on these classes are
    stated for ASCII text. *)
Definition is_ascii (s : string) : bool :=
  forallb (λ c, (nat_of_ascii c <? 128)%nat) (list_ascii_of_string s).

Module Text.

(** [c.isspace()] on the ASCII characters: tab, line feed, vertical tab,
    form feed, carriage return, the four separators [0x1c]..[0x1f] and
    the space.  Python also strips the spaces beyond ASCII, such as the
    no-break space; what rests on this class is stated for ASCII
    text. *)
Definition is_space (c : ascii) : bool :=
  let n := nat_of_ascii c in
  (((9 <=? n)%nat && (n <=? 13)%nat) || ((28 <=? n)%nat && (n <=? 32)%nat))%bool.

(** [s.lstrip()] *)
Fixpoint lstrip (s : string) : string :=
  match s with
  | EmptyString => EmptyString
  | String c t => if is_space c then lstrip t else s
  end.

(** [s.rstrip()] *)
Fixpoint rstrip (s : string) : string :=
  match s with
  | EmptyString => EmptyString
  | String c t =>
      match rstrip t with
      | EmptyString => if is_space c then EmptyString else String c EmptyString
      | t' => String c t'
      end
  end.

(** [s.strip()] *)
Definition strip (s : string) : string := rstrip (lstrip s).

(** [s.split(sep)] for a separator of one character: the pieces between
    the separators, empty pieces included, at least one piece. *)
Fixpoint split_on (sep : ascii) (s : string) : list string :=
  match s with
  | EmptyString => [EmptyString]
  | String c t =>
      if Ascii.eqb c sep then EmptyString :: split_on sep t
      else match split_on sep t with
           | piece :: pieces => String c piece :: pieces
           | [] => [String c EmptyString]
           end
  end.

(** [sep.join(l)] *)
Fixpoint join (sep : string) (l : list string) : string :=
  match l with
  | [] => EmptyString
  | [x] => x
  | x :: rest => x +:+ sep +:+ join sep rest
  end.

End Text.

(** ** The patterns of [re] the parser uses

    The parser searches lower-cased text for patterns made of four
    pieces: the word boundary [\b], a literal character, an optional
    literal character ([\.?]) and a repeated character class
    ([['s]*]).  [search] tries every start and every way to match, as
    the backtracking of [re.search] does, so it finds a match if there
    is one. *)

Module Re.

Inductive atom :=
  | Bound
  | Lit (c : ascii)
  | OptLit (c : ascii)
  | StarOf (cs : list ascii).

Abbreviation regex := (list atom) (only parsing).

(** [\w] on the ASCII characters: letters, digits and the underscore.
    On a [str] Python's [re] also counts the letters and digits beyond
    ASCII as word characters; what rests on this class is stated for
    ASCII text. *)
Definition is_word (c : ascii) : bool :=
  let n := nat_of_ascii c in
  (((48 <=? n)%nat && (n <=? 57)%nat) || ((65 <=? n)%nat && (n <=? 90)%nat)
   || ((97 <=? n)%nat && (n <=? 122)%nat) || (n =? 95)%nat)%bool.

Definition is_word_opt (c : option ascii) : bool :=
  match c with
  | Some c => is_word c
  | None => false
  end.

Definition first_char (s : string) : option ascii :=
  match s with
  | EmptyString => None
  | String c _ => Some c
  end.

(** [\b] between the character before (if any) and the rest of the text:
    a word character on exactly one side. *)
Definition at_boundary (prev : option ascii) (s : string) : bool :=
  xorb (is_word_opt prev) (is_word_opt (first_char s)).

(** Does the pattern match at the start of [s], [prev] being the
    character before it? *)
Fixpoint match_here (p : regex) (prev : option ascii) (s : string) {struct p} : bool :=
  match p with
  | [] => true
  | Bound :: p' => at_boundary prev s && match_here p' prev s
  | Lit c :: p' =>
      match s with
      | String d t => Ascii.eqb c d && match_here p' (Some d) t
      | EmptyString => false
      end
  | OptLit c :: p' =>
      match s with
      | String d t => Ascii.eqb c d && match_here p' (Some d) t
      | EmptyString => false
      end
      || match_here p' prev s
  | StarOf cs :: p' =>
      (fix star (prev : option ascii) (s : string) {struct s} : bool :=
         match_here p' prev s
         || match s with
            | String d t => existsb (Ascii.eqb d) cs && star (Some d) t
            | EmptyString => false
            end) prev s
  end.

Fixpoint search_from (p : regex) (prev : option ascii) (s : string) {struct s} : bool :=
  match_here p prev s
  || match s with
     | String d t => search_from p (Some d) t
     | EmptyString => false
     end.

(** [re.search(p, s)] as a truth value. *)
Definition search (p : regex) (s : string) : bool := search_from p None s.

(** [re.escape(s)]: the pattern that matches [s] itself. *)
Definition escape (s : string) : regex := Lit <$> list_ascii_of_string s.

(** [r'\b' + p + r'\b'] *)
Definition word (p : regex) : regex := Bound :: p ++ [Bound].

(** The character that stands before the position reached by reading
    [w], when [prev] stands before [w]. *)
Fixpoint last_of (prev : option ascii) (w : string) : option ascii :=
  match w with
  | EmptyString => prev
  | String c t => last_of (Some c) t
  end.

(** What [\bw\b] is to find: [w] stands in [t] with a word boundary
    before it and a word boundary after it. *)
Definition occurs_as_word (w t : string) : Prop :=
  ∃ pre post,
    t = pre +:+ w +:+ post
    ∧ at_boundary (last_of None pre) (w +:+ post) = true
    ∧ at_boundary (last_of None (pre +:+ w)) post = true.

End Re.

(** ** The catalog's search and the remaining endpoints
       ([backend/database.py], [backend/main.py]) *)

(** [search_careers_by_skill(skill)] *)
Definition search_careers_by_skill (skill : string) : list string :=
  let skill_lower := Str.lower skill in
  (filter (λ item : string * career_details,
             let all_skills := required_skills item.2 ++ nice_to_have item.2 in
             existsb (λ s, Str.contains skill_lower (Str.lower s)) all_skills = true)
          CAREER_DATABASE).*1.

Section Endpoints.
Import Py.
Context {iteration : SetOrder}.
Context (career_db : dict career_details).

(** [POST /recommend-careers]: the engine with its default [top_n]. *)
Definition recommend_careers_endpoint (profile : StudentProfile)
    : list CareerRecommendation :=
  recommend_careers career_db profile default_top_n.

End Endpoints.

(** [GET /careers]: the names and their number. *)
Definition list_careers : list string * Z :=
  (get_all_careers, Py.len get_all_careers).

(** [GET /careers/{career_name}] *)
Definition get_career_info (career_name : string) : http (string * career_details) :=
  match get_career_details career_name with
  | None => HttpError 404 ("Career '" +:+ career_name +:+ "' not found")
  | Some details => Http200 (career_name, details)
  end.

(** ** The resume parser ([backend/parser.py], class [ResumeParser]) *)

Definition SKILLS_DATABASE : Py.dict (list string) := [
  ("programming",
   ["Python"; "Java"; "JavaScript"; "C++"; "C#"; "C"; "Ruby"; "PHP";
    "Swift"; "Kotlin"; "Go"; "Rust"; "TypeScript"; "R"; "MATLAB";
    "Scala"; "Perl"; "Shell"; "Bash"; "Dart"; "Objective-C"]);
  ("web",
   ["HTML"; "CSS"; "React"; "Angular"; "Vue.js"; "Vue"; "Node.js";
    "Express"; "Django"; "Flask"; "FastAPI"; "Spring"; "ASP.NET";
    "jQuery"; "Bootstrap"; "Tailwind"; "Next.js"; "Nuxt.js"; "Redux";
    "Webpack"; "Sass"; "SCSS"; "Less"]);
  ("databases",
   ["SQL"; "MySQL"; "PostgreSQL"; "MongoDB"; "Redis"; "Cassandra";
    "Oracle"; "SQLite"; "MariaDB"; "DynamoDB"; "Firebase";
    "Elasticsearch"; "Neo4j"; "CouchDB"]);
  ("cloud_devops",
   ["AWS"; "Azure"; "GCP"; "Docker"; "Kubernetes"; "Jenkins"; "Git";
    "GitHub"; "GitLab"; "CI/CD"; "Terraform"; "Ansible"; "Linux";
    "Unix"; "Nginx"; "Apache"; "CloudFormation"; "Heroku"]);
  ("data_ml",
   ["Machine Learning"; "Deep Learning"; "Data Analysis";
    "Data Science"; "TensorFlow"; "PyTorch"; "Scikit-learn"; "Keras";
    "Pandas"; "NumPy"; "Matplotlib"; "Seaborn"; "Jupyter"; "NLP";
    "Computer Vision"; "MLOps"; "XGBoost"; "LightGBM"; "NLTK";
    "SpaCy"; "OpenCV"]);
  ("analytics",
   ["Statistics"; "Probability"; "Excel"; "Power BI"; "Tableau";
    "Plotly"; "Data Visualization"; "Business Intelligence";
    "Analytics"; "Looker"; "Google Analytics"; "Qlik"]);
  ("other",
   ["Algorithms"; "Data Structures"; "System Design"; "API"; "REST";
    "GraphQL"; "Microservices"; "Agile"; "Scrum"; "Testing";
    "Debugging"; "OOP"; "Functional Programming"; "Design Patterns";
    "Security"; "Blockchain"; "IoT"; "AR/VR"])].

(** [get_all_skills()] *)
Definition get_all_skills : list string := concat SKILLS_DATABASE.*2.

(** The inner loop of [extract_skills]: the skill goes to the list of the
    first category that holds it. *)
Definition category_of (skill : string) : option string :=
  fst <$> List.find (λ item : string * list string, bool_decide (skill ∈ item.2))
            SKILLS_DATABASE.

Definition categorize (skill : string) (skills_by_category : Py.dict (list string))
    : Py.dict (list string) :=
  match category_of skill with
  | Some category =>
      Py.dict_set category
        (default [] (Py.dict_get category skills_by_category) ++ [skill])
        skills_by_category
  | None => skills_by_category
  end.

(** One turn of the loop over the vocabulary. *)
Definition extract_step (text_lower : string)
    (state : list string * Py.dict (list string)) (skill : string)
    : list string * Py.dict (list string) :=
  let skill_lower := Str.lower skill in
  let pattern := Re.word (Re.escape skill_lower) in
  if Re.search pattern text_lower
  then (state.1 ++ [skill], categorize skill state.2)
  else state.

(** One turn of the loop that drops the repeats. *)
Definition unique_step (state : list string * list string) (skill : string)
    : list string * list string :=
  if decide (Str.lower skill ∈ state.1) then state
  else (Py.set_add (Str.lower skill) state.1, state.2 ++ [skill]).

Definition extract_skills (text : string) : list string * Py.dict (list string) :=
  match text with
  | EmptyString => ([], [])
  | _ =>
      let text_lower := Str.lower text in
      let found := foldl (extract_step text_lower) ([], []) get_all_skills in
      let unique_skills := (foldl unique_step ([], []) found.1).2 in
      (unique_skills, found.2)
  end.

(** The test of the loop over the vocabulary, for a text that is not
    empty. *)
Definition skill_found (text skill : string) : bool :=
  Re.search (Re.word (Re.escape (Str.lower skill))) (Str.lower text).

(** A vocabulary cut down to the skills with a property, category by
    category, without the categories that are left empty. *)
Definition found_in (m : string → Prop) `{∀ s, Decision (m s)}
    (db : Py.dict (list string)) : Py.dict (list string) :=
  filter (λ item, item.2 ≠ [])
    ((λ item : string * list string, (item.1, filter m item.2)) <$> db).

Definition found_by_category (text : string) : Py.dict (list string) :=
  found_in (λ skill, skill_found text skill = true) SKILLS_DATABASE.

(** The entry of a category in the dict: none while no skill of the
    category was found. *)
Definition category_entry (c : string) (l : list string)
    : Py.dict (list string) :=
  match l with
  | [] => []
  | _ => [(c, l)]
  end.

(** The dict [education_patterns], each pattern under its source text. *)
Definition education_patterns : list (Re.regex * string) :=
  let lit := Re.escape in
  [ (* \bphd\b *)
    (Re.word (lit "phd"), "PhD");
    (* \bdoctorate\b *)
    (Re.word (lit "doctorate"), "PhD");
    (* \bmaster[\'s]*\b *)
    (Re.word (lit "master" ++ [Re.StarOf ["'"%char; "s"%char]]), "Master's");
    (* \bm\.?s\.?\b *)
    (Re.word [Re.Lit "m"; Re.OptLit "."; Re.Lit "s"; Re.OptLit "."], "Master's");
    (* \bmsc\b *)
    (Re.word (lit "msc"), "Master's");
    (* \bm\.?tech\b *)
    (Re.word ([Re.Lit "m"; Re.OptLit "."] ++ lit "tech"), "Master's");
    (* \bmba\b *)
    (Re.word (lit "mba"), "MBA");
    (* \bbachelor[\'s]*\b *)
    (Re.word (lit "bachelor" ++ [Re.StarOf ["'"%char; "s"%char]]), "Bachelor's");
    (* \bb\.?s\.?\b *)
    (Re.word [Re.Lit "b"; Re.OptLit "."; Re.Lit "s"; Re.OptLit "."], "Bachelor's");
    (* \bbsc\b *)
    (Re.word (lit "bsc"), "Bachelor's");
    (* \bb\.?tech\b *)
    (Re.word ([Re.Lit "b"; Re.OptLit "."] ++ lit "tech"), "Bachelor's");
    (* \bb\.?e\.?\b *)
    (Re.word [Re.Lit "b"; Re.OptLit "."; Re.Lit "e"; Re.OptLit "."], "Bachelor's") ].

(** [sorted(l)] on strings: ascending by code points, stable.  It is the
    stable sort above under the reversed order. *)
Definition sorted_strings (l : list string) : list string :=
  sort_desc (λ a b, String.ltb b a) l.

(** Does one of the patterns of the degree match? *)
Definition degree_found (text degree : string) : bool :=
  existsb (λ item : list Re.atom * string,
             String.eqb item.2 degree && Re.search item.1 (Str.lower text))
          education_patterns.

Section Education.
Import Py.
Context {iteration : SetOrder}.

Definition extract_education (text : string) : list string :=
  let text_lower := Str.lower text in
  let education :=
    foldl (λ education (item : Re.regex * string),
             if Re.search item.1 text_lower
             then set_add item.2 education else education)
          [] education_patterns in
  sorted_strings (set_iter education).

End Education.

(** ** The dashboard ([frontend/components]) *)

(** [[s.strip() for s in text.split(',') if s.strip()]] *)
Definition comma_separated (text : string) : list string :=
  filter (λ s, s ≠ EmptyString) (Text.strip <$> Text.split_on "," text).

(** The profile [render_sidebar] prepares from its input fields: none
    for a blank skills field. *)
Definition prepare_profile (skills_input interests_input education : string)
    (gpa : float) (experience_years : Z) : option StudentProfile :=
  match Text.strip skills_input with
  | EmptyString => None
  | _ =>
      Some {| skills := comma_separated skills_input;
              interests := comma_separated interests_input;
              education_level := education;
              gpa := Some gpa;
              experience_years := Some experience_years |}
  end.

(** The text the skills field starts with after a resume was parsed. *)
Definition default_skills (extracted_skills : list string) : string :=
  Text.join ", " extracted_skills.

(** One bar of the timeline of [create_timeline_chart]. *)
Record timeline_bar := {
  bar_skill : string;
  bar_start : Z;
  bar_finish : Z;
  bar_duration : Z;
  bar_difficulty : difficulty
}.

(** The loop of [create_timeline_chart]: each module starts in the week
    the one before it ends. *)
Definition timeline_step (state : Z * list timeline_bar) (module : learning_module)
    : Z * list timeline_bar :=
  let start_week := state.1 in
  let end_week := start_week + estimated_weeks module in
  (end_week,
   state.2 ++ [ {| bar_skill := skill module;
                   bar_start := start_week;
                   bar_finish := end_week;
                   bar_duration := estimated_weeks module;
                   bar_difficulty := module_difficulty module |} ]).

Definition timeline_data (learning_path : list learning_module) : list timeline_bar :=
  (foldl timeline_step (0, []) learning_path).2.

(** * Facts about the Python containers *)

Section SetFacts.
Import Py.
Implicit Types (s : pyset) (l : list string) (f : string → string).

Lemma elem_of_set_add x y s : y ∈ set_add x s ↔ y = x ∨ y ∈ s.
Proof.
  unfold set_add. destruct (decide (x ∈ s)) as [Hin|Hout].
  - split; [by right | intros [-> | ?]; done].
  - rewrite elem_of_app, list_elem_of_singleton. tauto.
Qed.

Lemma NoDup_set_add x s : NoDup s → NoDup (set_add x s).
Proof.
  intros Hs. unfold set_add. destruct (decide (x ∈ s)) as [Hin|Hout]; [done|].
  apply NoDup_app. split_and!; [done | | apply NoDup_singleton].
  intros y Hy ->%list_elem_of_singleton. done.
Qed.

(** The comprehension over [l], started from a set already built. *)
Lemma elem_of_set_comp_from f l s y :
  y ∈ foldl (λ s x, set_add (f x) s) s l ↔ y ∈ s ∨ ∃ x, x ∈ l ∧ y = f x.
Proof.
  revert s. induction l as [|a l IH]; intros s; simpl.
  - split; [by left | intros [?|(x & Hx & _)]; [done | by apply elem_of_nil in Hx]].
  - rewrite IH, elem_of_set_add. split.
    + intros [[-> | ?] | (x & Hx & ->)].
      * right. exists a. split; [left | done].
      * by left.
      * right. exists x. split; [by right | done].
    + intros [? | (x & Hx & ->)]; [left; by right |].
      apply elem_of_cons in Hx as [-> | Hx]; [left; by left |].
      right. by exists x.
Qed.

Lemma elem_of_set_comp f l y : y ∈ set_comp f l ↔ ∃ x, x ∈ l ∧ y = f x.
Proof.
  unfold set_comp. rewrite elem_of_set_comp_from. split; [|by right].
  intros [Hnil | ?]; [by apply elem_of_nil in Hnil | done].
Qed.

Lemma NoDup_set_comp f l : NoDup (set_comp f l).
Proof.
  unfold set_comp. generalize (NoDup_nil_2 (A:=string)).
  generalize (@nil string). induction l as [|a l IH]; intros s Hs; simpl; [done|].
  apply IH. by apply NoDup_set_add.
Qed.

Lemma set_comp_nil f : set_comp f [] = [].
Proof. reflexivity. Qed.

Lemma set_comp_cons_pos f a l : (0 < length (set_comp f (a :: l)))%nat.
Proof.
  assert (Hin : f a ∈ set_comp f (a :: l)).
  { apply elem_of_set_comp. exists a. split; [left | done]. }
  destruct (set_comp f (a :: l)); [by apply elem_of_nil in Hin | simpl; lia].
Qed.

Lemma set_in_true x s : set_in x s = true ↔ x ∈ s.
Proof. unfold set_in. apply bool_decide_eq_true. Qed.

Lemma set_in_false x s : set_in x s = false ↔ x ∉ s.
Proof. unfold set_in. apply bool_decide_eq_false. Qed.

Lemma elem_of_set_and x a b : x ∈ set_and a b ↔ x ∈ a ∧ x ∈ b.
Proof. unfold set_and. by rewrite list_elem_of_filter, (comm and). Qed.

Lemma NoDup_set_and a b : NoDup a → NoDup (set_and a b).
Proof. unfold set_and. apply NoDup_filter. Qed.

(** The length of a duplicate-free list is the size of the finite set
    of its elements. *)
Lemma length_NoDup_size l :
  NoDup l → length l = size (list_to_set l : gset string).
Proof. intros Hl. by rewrite size_list_to_set. Qed.

Lemma set_comp_to_gset f l :
  (list_to_set (set_comp f l) : gset string) = list_to_set (f <$> l).
Proof.
  apply set_eq. intros y.
  rewrite !elem_of_list_to_set, elem_of_set_comp, list_elem_of_fmap.
  split; intros (x & H1 & H2); exists x; by split.
Qed.

Lemma set_and_to_gset a b :
  (list_to_set (set_and a b) : gset string) = list_to_set a ∩ list_to_set b.
Proof.
  apply set_eq. intros y.
  rewrite elem_of_intersection, !elem_of_list_to_set. apply elem_of_set_and.
Qed.

End SetFacts.

(** * The skill-match score *)

Section SkillMatch.
Import Str Num Py.

Lemma len_set_comp l : len (set_comp lower l) = ci_size l.
Proof.
  unfold len, ci_size, ci_set.
  by rewrite (length_NoDup_size _ (NoDup_set_comp lower l)), set_comp_to_gset.
Qed.

Lemma len_set_and_comp a b :
  len (set_and (set_comp lower a) (set_comp lower b)) = overlap a b.
Proof.
  unfold len, overlap, ci_set.
  rewrite length_NoDup_size by apply NoDup_set_and, NoDup_set_comp.
  by rewrite set_and_to_gset, !set_comp_to_gset.
Qed.

(** C1.  [calculate_skill_match_score] is the specification's
    [skillMatch]: 0 when the required list is empty, otherwise
    [round((|user ∩ required| / |required|) * 70 + niceScore, 2)] over
    case-insensitive sets, where [niceScore] is
    [(|user ∩ nice| / |nice|) * 30] for a non-empty nice-to-have list and
    0 for an empty one, whatever the user's skills are. *)
Theorem calculate_skill_match_score_spec (user required nice : list string) :
  calculate_skill_match_score user required nice
    = skillMatch_spec user required nice
  ∧ calculate_skill_match_score user [] nice = 0%float
  ∧ niceScore_spec user [] = 0%float
  ∧ calculate_skill_match_score user required []
    = match required with
      | [] => 0%float
      | _ => round2 (truediv (overlap user required) (ci_size required) * 70 + 0)%float
      end.
Proof.
  assert (Hmain : ∀ n, calculate_skill_match_score user required n
                       = skillMatch_spec user required n).
  { intros n. unfold calculate_skill_match_score, skillMatch_spec,
      requiredScore_spec, niceScore_spec.
    destruct required as [|r required]; [done|].
    rewrite !len_set_and_comp, !len_set_comp. by destruct n. }
  split_and!; [apply Hmain | done | done |].
  rewrite Hmain. by destruct required.
Qed.

End SkillMatch.

(** * The interest boost *)

Section InterestBoost.
Import Str Num Py.

Lemma sum_from (xs : list Z) (a : Z) : foldl Z.add a xs = a + sum xs.
Proof.
  unfold sum. revert a. induction xs as [|x xs IH]; intros a; simpl; [lia|].
  rewrite (IH (a + x)), (IH (0 + x)). lia.
Qed.

Lemma sum_cons (x : Z) (xs : list Z) : sum (x :: xs) = x + sum xs.
Proof. unfold sum at 1. simpl. apply sum_from. Qed.

Lemma sum_nil : sum [] = 0.
Proof. reflexivity. Qed.

(** The loop over the industry tags adds 3 per tag the interest occurs
    in. *)
Lemma industry_loop (interest : string) (tags : list string) (boost : Z) :
  foldl (λ boost ind, if contains interest (lower ind) then boost + 3 else boost)
        boost tags
  = boost + 3 * Z.of_nat (length (filter (λ tag, contains interest (lower tag) = true) tags)).
Proof.
  revert boost. induction tags as [|t tags IH]; intros boost; simpl; [lia|].
  rewrite IH, filter_cons.
  destruct (contains interest (lower t)) eqn:Ht.
  - rewrite decide_True by done. simpl length. lia.
  - rewrite decide_False by done. lia.
Qed.

Lemma interest_step_points name details boost interest :
  interest_step (lower name) details boost (lower interest)
  = boost + interest_points name (default [] (industry details)) interest.
Proof.
  unfold interest_step, interest_points.
  destruct (industry details) as [tags|]; simpl.
  - rewrite industry_loop. destruct (contains _ (lower name)); lia.
  - destruct (contains _ (lower name)); lia.
Qed.

Lemma interest_loop name details interests boost :
  foldl (interest_step (lower name) details) boost (map lower interests)
  = boost + sum (interest_points name (default [] (industry details)) <$> interests).
Proof.
  revert boost. induction interests as [|i interests IH]; intros boost.
  - simpl. rewrite sum_nil. lia.
  - simpl. rewrite IH, interest_step_points, sum_cons. unfold fmap. lia.
Qed.

Lemma interest_boost_eq interests name details :
  calculate_interest_boost interests name details
  = interestBoost_spec interests name (default [] (industry details)).
Proof.
  unfold calculate_interest_boost, interestBoost_spec.
  destruct interests as [|i interests]; [done|].
  by rewrite interest_loop, Z.add_0_l.
Qed.

Lemma interest_points_nonneg name tags interest :
  0 ≤ interest_points name tags interest.
Proof. unfold interest_points. destruct (contains _ (lower name)); lia. Qed.

Lemma sum_points_nonneg name tags interests :
  0 ≤ sum (interest_points name tags <$> interests).
Proof.
  induction interests as [|x l IH]; simpl; [by rewrite sum_nil|].
  rewrite sum_cons. unfold fmap in IH.
  pose proof (interest_points_nonneg name tags x). lia.
Qed.

Lemma calculate_interest_boost_range interests name details :
  0 ≤ calculate_interest_boost interests name details ≤ 10.
Proof.
  rewrite interest_boost_eq. unfold interestBoost_spec.
  destruct interests as [|i interests]; [done|].
  pose proof (sum_points_nonneg name (default [] (industry details)) (i :: interests)).
  lia.
Qed.

(** C2.  [calculate_interest_boost] is 0 for an empty interest list;
    otherwise it adds, for each interest compared in lower case as a
    substring, 5 if it occurs in the career name and 3 for each
    industry tag it occurs in, and caps the total at 10: no input gets
    more than 10. *)
Theorem calculate_interest_boost_spec (interests : list string)
    (name : string) (details : career_details) :
  calculate_interest_boost interests name details
    = interestBoost_spec interests name (default [] (industry details))
  ∧ calculate_interest_boost [] name details = 0
  ∧ 0 ≤ calculate_interest_boost interests name details ≤ 10.
Proof.
  split_and!; [apply interest_boost_eq | done | |];
    apply calculate_interest_boost_range.
Qed.

End InterestBoost.

(** * Facts about dicts and comprehensions *)

Section DictFacts.
Import Py.
Context {V : Type}.
Implicit Types (d : dict V) (k : string) (v : V).

Lemma dict_get_None k d : dict_get k d = None ↔ k ∉ d.*1.
Proof.
  induction d as [|[k' v'] d IH]; csimpl.
  - split; [intros _; apply not_elem_of_nil | done].
  - rewrite not_elem_of_cons. destruct (decide (k = k')) as [->|Hne].
    + split; [done | intros [? _]; done].
    + rewrite IH. tauto.
Qed.

Lemma dict_get_Some_elem k v d : dict_get k d = Some v → (k, v) ∈ d.
Proof.
  induction d as [|[k' v'] d IH]; csimpl; [done|].
  destruct (decide (k = k')) as [->|Hne].
  - intros [= ->]. left.
  - intros Hd. right. by apply IH.
Qed.

Lemma dict_get_is_Some k d : is_Some (dict_get k d) ↔ k ∈ d.*1.
Proof.
  rewrite <- not_eq_None_Some, dict_get_None.
  destruct (decide (k ∈ d.*1)); tauto.
Qed.

Lemma dict_in_true k d : dict_in k d = true ↔ k ∈ d.*1.
Proof. unfold dict_in. apply bool_decide_eq_true. Qed.

(** With distinct keys, an item of the list is what the lookup of its
    key returns. *)
Lemma dict_get_elem k v d : NoDup d.*1 → (k, v) ∈ d → dict_get k d = Some v.
Proof.
  induction d as [|[k' v'] d IH]; csimpl; [intros _ Hin; by apply elem_of_nil in Hin|].
  intros [Hk' Hd]%NoDup_cons [[= -> ->] | Hin]%elem_of_cons.
  - by rewrite decide_True.
  - rewrite decide_False; [by apply IH|].
    intros ->. apply Hk'. apply list_elem_of_fmap. by exists (k', v).
Qed.

Lemma dict_set_keys k v d : (dict_set k v d).*1 = set_add k d.*1.
Proof.
  unfold set_add. induction d as [|[k' v'] d IH]; csimpl; [done|].
  destruct (decide (k = k')) as [->|Hne]; csimpl.
  - rewrite decide_True by left. done.
  - rewrite IH.
    repeat case_decide; try done; exfalso.
    + match goal with Hout : _ ∉ _ :: _ |- _ => apply Hout; by right end.
    + match goal with Hin : _ ∈ _ :: _ |- _ =>
        apply elem_of_cons in Hin as [?|?]; done end.
Qed.

Lemma elem_of_dict_set k v d k0 v0 :
  (k0, v0) ∈ dict_set k v d → (k0 = k ∧ v0 = v) ∨ (k0, v0) ∈ d.
Proof.
  induction d as [|[k' v'] d IH]; csimpl.
  - intros [= -> ->]%list_elem_of_singleton. by left.
  - destruct (decide (k = k')) as [->|Hne].
    + intros [[= -> ->] | Hin]%elem_of_cons; [by left | right; by right].
    + intros [[= -> ->] | Hin]%elem_of_cons; [right; left |].
      destruct (IH Hin) as [?|?]; [by left | right; by right].
Qed.

Lemma dict_set_fresh k v d : k ∉ d.*1 → dict_set k v d = d ++ [(k, v)].
Proof.
  induction d as [|[k' v'] d IH]; csimpl; [done|].
  intros [Hne Hout]%not_elem_of_cons. rewrite decide_False by done.
  by rewrite IH.
Qed.

End DictFacts.

Section ComprehensionFacts.
Import Py.
Implicit Types (l ks : list string) (key : string → string).

Lemma dict_comp_keys_from key l (d : dict string) :
  (foldl (λ d x, dict_set (key x) x d) d l).*1
  = foldl (λ s x, set_add (key x) s) d.*1 l.
Proof.
  revert d. induction l as [|x l IH]; intros d; csimpl; [done|].
  by rewrite IH, dict_set_keys.
Qed.

(** The keys of [{key(x): x for x in l}], in order, are the elements of
    [{key(x) for x in l}] in the order they were added. *)
Lemma dict_comp_keys key l : (dict_comp key l).*1 = set_comp key l.
Proof. apply dict_comp_keys_from. Qed.

Lemma NoDup_dict_comp_keys key l : NoDup (dict_comp key l).*1.
Proof. rewrite dict_comp_keys. apply NoDup_set_comp. Qed.

Lemma elem_of_dict_comp_from key l (d : dict string) k v :
  (k, v) ∈ foldl (λ d x, dict_set (key x) x d) d l →
  (k, v) ∈ d ∨ (v ∈ l ∧ k = key v).
Proof.
  revert d. induction l as [|x l IH]; intros d; csimpl; [by left|].
  intros [Hin | [Hv ->]]%IH.
  - apply elem_of_dict_set in Hin as [[-> ->] | Hin]; [|by left].
    right. split; [left | done].
  - right. split; [by right | done].
Qed.

(** Every item of the dict pairs a skill of the list with its key. *)
Lemma elem_of_dict_comp key l k v :
  (k, v) ∈ dict_comp key l → v ∈ l ∧ k = key v.
Proof.
  intros [Hnil | ?]%elem_of_dict_comp_from; [by apply elem_of_nil in Hnil | done].
Qed.

Lemma dict_comp_NoDup_from key l (d : dict string) :
  NoDup (d.*1 ++ (key <$> l)) →
  foldl (λ d x, dict_set (key x) x d) d l = d ++ ((λ x, (key x, x)) <$> l).
Proof.
  revert d. induction l as [|x l IH]; intros d Hnd; csimpl.
  - by rewrite app_nil_r.
  - assert (Hx : key x ∉ d.*1).
    { apply NoDup_app in Hnd as (_ & Hdisj & _). intros Hin.
      apply (Hdisj _ Hin). left. }
    rewrite dict_set_fresh by done. rewrite IH.
    + by rewrite <- app_assoc.
    + rewrite fmap_app, <- app_assoc. done.
Qed.

(** When no two skills of the list share a key, the dict is the list
    itself, each skill under its key. *)
Lemma dict_comp_NoDup key l :
  NoDup (key <$> l) → dict_comp key l = (λ x, (key x, x)) <$> l.
Proof. intros Hnd. unfold dict_comp. by rewrite dict_comp_NoDup_from. Qed.

Lemma elem_of_select_values {V} (d : dict V) cond ks v :
  v ∈ select_values d cond ks ↔
  ∃ k, k ∈ ks ∧ cond k = true ∧ dict_get k d = Some v.
Proof.
  unfold select_values. rewrite list_elem_of_omap. split.
  - intros (k & Hk & Hv). exists k. destruct (cond k); [done | discriminate].
  - intros (k & Hk & Hc & Hv). exists k. by rewrite Hc.
Qed.

End ComprehensionFacts.

(** * The order of the floats

    [<] on binary64 numbers is a strict order, NaN included (it compares
    as unordered with everything), and it cannot tell apart two numbers
    that [==] the same number. *)

Section FloatOrder.

Ltac compare_cases :=
  repeat match goal with
    | |- context [Pos.compare_cont Eq ?a ?b] =>
        change (Pos.compare_cont Eq a b) with (Pos.compare a b)
    | |- context [Z.compare ?a ?b] => destruct (Z.compare_spec a b); simpl
    | |- context [Pos.compare ?a ?b] => destruct (Pos.compare_spec a b); simpl
    end;
  intros; first [done | exfalso; lia].

Lemma SFltb_asym (x y : spec_float) : SFltb x y = true → SFltb y x = false.
Proof.
  unfold SFltb.
  destruct x as [[]|[]| |[] mx ex], y as [[]|[]| |[] my ey]; simpl; try done;
    compare_cases.
Qed.

Lemma SFltb_trans (x y z : spec_float) :
  SFltb x y = true → SFltb y z = true → SFltb x z = true.
Proof.
  unfold SFltb.
  destruct x as [[]|[]| |[] mx ex], y as [[]|[]| |[] my ey],
    z as [[]|[]| |[] mz ez]; simpl; try done; compare_cases.
Qed.

Lemma SFltb_eqb_r (y x z v : spec_float) :
  SFeqb x v = true → SFeqb z v = true → SFltb y x = true → SFltb y z = true.
Proof.
  unfold SFltb, SFeqb.
  destruct x as [[]|[]| |[] mx ex], v as [[]|[]| |[] mv ev],
    z as [[]|[]| |[] mz ez]; simpl; try done;
    destruct y as [[]|[]| |[] my ey]; simpl; try done; compare_cases.
Qed.

Lemma ltb_asym (x y : float) : (x <? y)%float = true → (y <? x)%float = false.
Proof. rewrite !FloatAxioms.ltb_spec. apply SFltb_asym. Qed.

Lemma ltb_trans (x y z : float) :
  (x <? y)%float = true → (y <? z)%float = true → (x <? z)%float = true.
Proof. rewrite !FloatAxioms.ltb_spec. apply SFltb_trans. Qed.

Lemma ltb_eqb_r (y x z v : float) :
  (x =? v)%float = true → (z =? v)%float = true →
  (y <? x)%float = true → (y <? z)%float = true.
Proof. rewrite !FloatAxioms.ltb_spec, !FloatAxioms.eqb_spec. apply SFltb_eqb_r. Qed.

End FloatOrder.

(** * The sign of the floats

    Rounding keeps the sign: the operations of the engine, applied to
    numbers that are neither NaN nor negative, give such numbers. *)

Section FloatSign.
Import Num.
Variables prec emax : Z.

Lemma shr_1_nonneg mrs : 0 ≤ shr_m mrs → 0 ≤ shr_m (shr_1 mrs).
Proof. destruct mrs as [[|[p|p|]|p] r s]; simpl; lia. Qed.

Lemma iter_shr_1_nonneg p mrs :
  0 ≤ shr_m mrs → 0 ≤ shr_m (SpecFloat.iter_pos shr_1 p mrs).
Proof.
  revert mrs. induction p as [p IH|p IH|]; intros mrs Hm; simpl.
  - apply IH, IH. by apply shr_1_nonneg.
  - by apply IH, IH.
  - by apply shr_1_nonneg.
Qed.

Lemma shr_fexp_nonneg m e l :
  0 ≤ m → 0 ≤ shr_m (fst (shr_fexp prec emax m e l)).
Proof.
  intros Hm. unfold shr_fexp, shr.
  assert (H0 : 0 ≤ shr_m (shr_record_of_loc m l)) by (by destruct l as [|[]]).
  destruct (fexp prec emax (Zdigits2 m + e) - e); simpl; try done.
  by apply iter_shr_1_nonneg.
Qed.

Lemma round_nearest_even_nonneg m l : 0 ≤ m → 0 ≤ round_nearest_even m l.
Proof.
  intros Hm. destruct l as [|[]]; simpl; try done; [destruct (Z.even m)|]; lia.
Qed.

(** The rounding step never produces NaN from a mantissa that is not
    negative. *)
Lemma binary_round_aux_nonneg m e l :
  0 ≤ m → sf_nonneg (binary_round_aux prec emax false m e l) = true.
Proof.
  intros Hm. unfold binary_round_aux.
  pose proof (shr_fexp_nonneg m e l Hm) as H1.
  destruct (shr_fexp prec emax m e l) as [mrs' e']. simpl in H1.
  pose proof (shr_fexp_nonneg _ e' loc_Exact
                (round_nearest_even_nonneg _ (loc_of_shr_record mrs') H1)) as H2.
  destruct (shr_fexp prec emax _ e' loc_Exact) as [mrs'' e'']. simpl in H2.
  destruct (shr_m mrs'') as [|p|p]; [done | by destruct (e'' <=? emax - prec) | lia].
Qed.

Lemma binary_round_nonneg m e : sf_nonneg (binary_round prec emax false m e) = true.
Proof.
  unfold binary_round. destruct (shl_align _ _ _) as [mz ez].
  by apply binary_round_aux_nonneg.
Qed.

Lemma binary_normalize_nonneg m e :
  0 ≤ m → sf_nonneg (binary_normalize prec emax m e false) = true.
Proof.
  intros Hm. destruct m as [|p|p]; simpl; [done | apply binary_round_nonneg | lia].
Qed.

Lemma SFadd_nonneg x y :
  sf_nonneg x = true → sf_nonneg y = true → sf_nonneg (SFadd prec emax x y) = true.
Proof.
  destruct x as [[]|[]| |[] mx ex], y as [[]|[]| |[] my ey]; simpl; try done.
  intros _ _. apply binary_round_nonneg.
Qed.

Lemma SFmul_nonneg x m e :
  sf_nonneg x = true →
  sf_nonneg (SFmul prec emax x (S754_finite false m e)) = true.
Proof.
  destruct x as [[]|[]| |[] mx ex]; simpl; try done.
  intros _. by apply binary_round_aux_nonneg.
Qed.

Lemma SFdiv_nonneg mx ex my ey :
  sf_nonneg (SFdiv prec emax (S754_finite false mx ex) (S754_finite false my ey))
  = true.
Proof.
  simpl. unfold SFdiv_core_binary.
  set (e' := Z.min _ _). set (m' := match _ with Z0 => _ | _ => _ end).
  assert (Hm' : 0 ≤ m').
  { unfold m'. destruct (ex - ey - e'); [lia | | lia]. apply Z.shiftl_nonneg. lia. }
  pose proof (Z.div_pos m' (Z.pos my) Hm' ltac:(lia)) as Hq.
  unfold Z.div in Hq. destruct (Z.div_eucl m' (Z.pos my)) as [q r].
  by apply binary_round_aux_nonneg.
Qed.

Lemma SFldexp_nonneg x e :
  sf_nonneg x = true → sf_nonneg (SFldexp prec emax x e) = true.
Proof.
  destruct x as [[]|[]| |[] mx ex]; simpl; try done.
  intros _. apply binary_round_nonneg.
Qed.

(** Of two numbers that are not NaN, one is at most the other. *)
Lemma SFleb_total (a b : spec_float) :
  sf_nonneg a = true → sf_nonneg b = true → SFltb a b = false → SFleb b a = true.
Proof.
  unfold SFltb, SFleb.
  destruct a as [[]|[]| |[] ma ea], b as [[]|[]| |[] mb eb]; simpl; try done;
    intros _ _;
    repeat match goal with
      | |- context [Pos.compare_cont Eq ?a ?b] =>
          change (Pos.compare_cont Eq a b) with (Pos.compare a b)
      | |- context [Z.compare ?a ?b] => destruct (Z.compare_spec a b); simpl
      | |- context [Pos.compare ?a ?b] => destruct (Pos.compare_spec a b); simpl
      end;
    intros; first [done | exfalso; lia].
Qed.

Lemma SFleb_zero (x : spec_float) :
  sf_nonneg x = true → SFleb (S754_zero false) x = true.
Proof. by destruct x as [[]|[]| |[] m e]. Qed.

End FloatSign.

Section FloatRange.
Import Num.

Lemma is_nonneg_SF2Prim (y : spec_float) : sf_nonneg y = true → is_nonneg (SF2Prim y).
Proof.
  unfold is_nonneg. destruct y as [[]|[]| |[] m e]; try done; intros _.
  simpl. rewrite Z_ldexp_spec, of_uint63_spec.
  apply SFldexp_nonneg, binary_normalize_nonneg, Uint63.to_Z_bounded.
Qed.

Lemma is_nonneg_add x y : is_nonneg x → is_nonneg y → is_nonneg (x + y)%float.
Proof. unfold is_nonneg. rewrite add_spec. apply SFadd_nonneg. Qed.

Lemma is_nonneg_mul x c m e :
  Prim2SF c = S754_finite false m e → is_nonneg x → is_nonneg (x * c)%float.
Proof.
  unfold is_nonneg. intros Hc Hx. rewrite mul_spec, Hc. by apply SFmul_nonneg.
Qed.

Lemma is_nonneg_0 : is_nonneg 0%float.
Proof. by vm_compute. Qed.

Lemma is_nonneg_100 : is_nonneg 100%float.
Proof. by vm_compute. Qed.

Lemma is_nonneg_truediv m n : 0 ≤ m → 0 < n → is_nonneg (truediv m n).
Proof.
  intros Hm Hn. apply is_nonneg_SF2Prim.
  destruct m as [|p|p], n as [|q|q]; try lia; first [done | apply SFdiv_nonneg].
Qed.

Lemma is_nonneg_of_int n : 0 ≤ n → is_nonneg (of_int n).
Proof. intros Hn. by apply is_nonneg_SF2Prim, binary_normalize_nonneg. Qed.

Lemma round_half_even_nonneg n d : 0 ≤ n → 0 < d → 0 ≤ round_half_even n d.
Proof.
  intros Hn Hd. unfold round_half_even.
  pose proof (Z.div_pos n d Hn Hd).
  destruct (2 * (n mod d) ?= d); [destruct (Z.even (n / d))| |]; lia.
Qed.

Lemma is_nonneg_round2 x : is_nonneg x → is_nonneg (round2 x).
Proof.
  unfold round2. intros Hx.
  destruct (Prim2SF x) as [s|s| |s m e] eqn:Hsf; try done.
  assert (Hs : s = false).
  { unfold is_nonneg in Hx. rewrite Hsf in Hx. by destruct s. }
  subst s.
  set (k := match e with Z.neg p => _ | _ => _ end).
  assert (Hk : 0 ≤ k).
  { unfold k. destruct e as [|p|p]; [lia | |].
    - pose proof (Z.pow_pos_nonneg 2 (Z.pos p)). lia.
    - apply round_half_even_nonneg; [lia|]. by apply Z.pow_pos_nonneg. }
  destruct k as [|p|p]; [apply is_nonneg_0 | | lia].
  apply is_nonneg_SF2Prim, SFdiv_nonneg.
Qed.

Lemma leb_0_nonneg x : is_nonneg x → (0 <=? x)%float = true.
Proof. intros Hx. rewrite leb_spec. by apply SFleb_zero. Qed.

Lemma leb_of_not_ltb a b :
  is_nonneg a → is_nonneg b → (a <? b)%float = false → (b <=? a)%float = true.
Proof. rewrite ltb_spec, leb_spec. apply SFleb_total. Qed.

Lemma min_100_range x :
  is_nonneg x → is_nonneg (min_100 x) ∧ in_score_range (min_100 x) = true.
Proof.
  intros Hx. unfold min_100, in_score_range.
  destruct (100 <? x)%float eqn:Hlt; [by vm_compute|].
  split; [done|].
  rewrite leb_0_nonneg, (leb_of_not_ltb 100 x); done || apply is_nonneg_100.
Qed.

End FloatRange.

(** * The stable sort *)

Section SortFacts.
Context {A : Type} (lt : A → A → bool).
Implicit Types (x y : A) (l acc : list A).
Local Abbreviation descending := (descending lt).

Lemma insert_desc_perm x l : insert_desc lt x l ≡ₚ x :: l.
Proof.
  induction l as [|y l IH]; simpl; [done|].
  destruct (lt y x); [done|]. rewrite IH. apply Permutation_swap.
Qed.

Lemma sort_desc_perm_from l acc :
  foldl (λ acc x, insert_desc lt x acc) acc l ≡ₚ acc ++ l.
Proof.
  revert acc. induction l as [|x l IH]; intros acc; simpl.
  - by rewrite app_nil_r.
  - rewrite IH, insert_desc_perm. apply Permutation_middle.
Qed.

Lemma sort_desc_perm l : sort_desc lt l ≡ₚ l.
Proof. apply sort_desc_perm_from. Qed.

Hypothesis lt_asym : ∀ x y, lt x y = true → lt y x = false.
Hypothesis lt_trans : ∀ x y z, lt x y = true → lt y z = true → lt x z = true.

Lemma lt_irrefl x : lt x x = false.
Proof. destruct (lt x x) eqn:Hx; [by rewrite (lt_asym _ _ Hx) in Hx | done]. Qed.

Lemma insert_desc_descending x l :
  descending l → descending (insert_desc lt x l).
Proof.
  induction 1 as [|y l Hl IH Hy]; simpl.
  - repeat constructor.
  - destruct (lt y x) eqn:Hyx.
    + constructor; [by constructor|].
      constructor; [by apply lt_asym|].
      rewrite Forall_forall in Hy |- *. intros b Hb.
      destruct (lt x b) eqn:Hxb; [|done].
      pose proof (Hy b Hb) as Hyb.
      by rewrite (lt_trans _ _ _ Hyx Hxb) in Hyb.
    + constructor; [done|].
      rewrite (insert_desc_perm x l). by constructor.
Qed.

Lemma sort_desc_descending_from l acc :
  descending acc → descending (foldl (λ acc x, insert_desc lt x acc) acc l).
Proof.
  revert acc. induction l as [|x l IH]; intros acc Hacc; simpl; [done|].
  by apply IH, insert_desc_descending.
Qed.

Lemma sort_desc_descending l : descending (sort_desc lt l).
Proof. apply sort_desc_descending_from. constructor. Qed.

Lemma descending_lookup l i j a b :
  descending l → (i < j)%nat → l !! i = Some a → l !! j = Some b →
  lt a b = false.
Proof.
  intros Hl. revert i j. induction Hl as [|y l Hl IH Hy]; intros i j Hij Hi Hj.
  - by rewrite lookup_nil in Hi.
  - destruct j as [|j]; [lia|]. destruct i as [|i]; simpl in *.
    + injection Hi as ->. rewrite Forall_forall in Hy.
      apply Hy. by apply list_elem_of_lookup_2 in Hj.
    + apply (IH i j); [lia | done | done].
Qed.

Lemma descending_take l n : descending l → descending (take n l).
Proof.
  intros Hl. rewrite <- (take_drop n l) in Hl.
  by apply StronglySorted_app_1_l in Hl.
Qed.

(** Stability.  [same] picks the items whose keys compare equal to one
    key; no item can be smaller than one of them and not the other. *)
Context (same : A → Prop) `{∀ x, Decision (same x)}.
Hypothesis lt_same : ∀ y x z, same x → same z → lt y x = true → lt y z = true.

Lemma filter_none l : Forall (λ z, ¬ same z) l → filter same l = [].
Proof.
  induction 1 as [|z l Hz Hl IH]; [done|].
  by rewrite filter_cons, decide_False.
Qed.

Lemma insert_desc_stable x l :
  descending l →
  filter same (insert_desc lt x l) = filter same l ++ filter same [x].
Proof.
  induction 1 as [|y l Hl IH Hy]; simpl; [done|].
  destruct (lt y x) eqn:Hyx.
  - destruct (decide (same x)) as [Hx|Hx].
    + assert (Hnone : filter same (y :: l) = []).
      { apply filter_none, Forall_forall. intros z Hin Hz.
        pose proof (lt_same y x z Hx Hz Hyx) as Hyz.
        apply elem_of_cons in Hin as [-> | Hin].
        - by rewrite lt_irrefl in Hyz.
        - rewrite Forall_forall in Hy. by rewrite (Hy z Hin) in Hyz. }
      rewrite (filter_cons _ x), decide_True by done.
      rewrite Hnone. rewrite (filter_cons _ x), decide_True by done. done.
    + rewrite (filter_cons _ x), decide_False by done.
      rewrite (filter_cons _ x [] ), decide_False by done.
      by rewrite app_nil_r.
  - rewrite !(filter_cons _ y), IH. by destruct (decide (same y)).
Qed.

Lemma sort_desc_stable_from l acc :
  descending acc →
  filter same (foldl (λ acc x, insert_desc lt x acc) acc l)
  = filter same acc ++ filter same l.
Proof.
  revert acc. induction l as [|x l IH]; intros acc Hacc; simpl.
  - by rewrite app_nil_r.
  - rewrite IH by by apply insert_desc_descending.
    rewrite insert_desc_stable by done.
    rewrite <- app_assoc. f_equal. by rewrite <- filter_app.
Qed.

(** Among the items [same] picks, the sort changes nothing. *)
Lemma sort_desc_stable l : filter same (sort_desc lt l) = filter same l.
Proof. unfold sort_desc. rewrite sort_desc_stable_from; [done | constructor]. Qed.

End SortFacts.

(** * Ranking: [recommend_careers] *)

Section Slices.
Import Py.
Context {A : Type}.
Implicit Types (l : list A) (n : Z).

Lemma slice_to_take n l : ∃ k, slice_to n l = take k l.
Proof. unfold slice_to. destruct (0 <=? n); eauto. Qed.

Lemma slice_to_nonneg n l : 0 ≤ n → slice_to n l = take (Z.to_nat n) l.
Proof. intros Hn. unfold slice_to. by rewrite (proj2 (Z.leb_le 0 n)). Qed.

Lemma slice_to_length n l : 0 ≤ n → Z.of_nat (length (slice_to n l)) ≤ n.
Proof. intros Hn. rewrite slice_to_nonneg, length_take by done. lia. Qed.

Lemma slice_to_prefix n l : slice_to n l `prefix_of` l.
Proof. destruct (slice_to_take n l) as [k ->]. apply prefix_take. Qed.

Lemma slice_to_all n l : Z.of_nat (length l) ≤ n → slice_to n l = l.
Proof. intros Hn. rewrite slice_to_nonneg by lia. apply take_ge. lia. Qed.

Lemma filter_prefix (P : A → Prop) `{∀ x, Decision (P x)} l1 l2 :
  l1 `prefix_of` l2 → filter P l1 `prefix_of` filter P l2.
Proof. intros [k ->]. rewrite filter_app. by apply prefix_app_r. Qed.

Lemma NoDup_fmap_inj_elem {B} (f : A → B) l x y :
  NoDup (f <$> l) → x ∈ l → y ∈ l → f x = f y → x = y.
Proof.
  induction l as [|a l IH]; csimpl; [by intros _ ?%elem_of_nil|].
  intros [Ha Hl]%NoDup_cons Hx Hy Heq.
  apply elem_of_cons in Hx as [-> | Hx]; apply elem_of_cons in Hy as [-> | Hy].
  - done.
  - exfalso. apply Ha. rewrite Heq. apply list_elem_of_fmap. by exists y.
  - exfalso. apply Ha. rewrite <- Heq. apply list_elem_of_fmap. by exists x.
  - by apply IH.
Qed.

Lemma filter_ext_elem (P Q : A → Prop)
    `{∀ x, Decision (P x)} `{∀ x, Decision (Q x)} l :
  (∀ x, x ∈ l → P x ↔ Q x) → filter P l = filter Q l.
Proof.
  induction l as [|x l IH]; intros Hext; [done|].
  rewrite !filter_cons, IH by (intros y Hy; apply Hext; by right).
  destruct (decide (P x)) as [Hp|Hp].
  - rewrite decide_True; [done|]. apply Hext; [left | done].
  - rewrite decide_False; [done|]. intros Hq. apply Hp, Hext; [left | done].
Qed.

End Slices.

Section Ranking.
Import Str Num Py.
Context {iteration : SetOrder} (career_db : dict career_details).
Implicit Types (profile : StudentProfile) (top_n : Z).

Lemma score_lt_asym a b : score_lt a b = true → score_lt b a = false.
Proof. apply ltb_asym. Qed.

Lemma score_lt_trans a b c :
  score_lt a b = true → score_lt b c = true → score_lt a c = true.
Proof. apply ltb_trans. Qed.

Lemma score_lt_same v c a b :
  (match_score a =? v)%float = true → (match_score b =? v)%float = true →
  score_lt c a = true → score_lt c b = true.
Proof. apply ltb_eqb_r. Qed.

(** One recommendation per catalog item, in catalog order. *)
Lemma all_recommendations_careers profile :
  career <$> all_recommendations career_db profile = career_db.*1.
Proof.
  unfold all_recommendations. induction career_db as [|[c d] db IH]; [done|].
  csimpl. by rewrite <- IH.
Qed.

Lemma recommend_careers_prefix profile top_n :
  recommend_careers career_db profile top_n
    `prefix_of` sort_desc score_lt (all_recommendations career_db profile).
Proof. apply slice_to_prefix. Qed.

Lemma recommend_careers_submseteq profile top_n :
  recommend_careers career_db profile top_n
    ⊆+ all_recommendations career_db profile.
Proof.
  rewrite <- (sort_desc_perm score_lt (all_recommendations career_db profile)).
  destruct (recommend_careers_prefix profile top_n) as [k ->].
  by apply submseteq_inserts_r.
Qed.

Lemma len_nonneg {A} (l : list A) : 0 ≤ len l.
Proof. unfold len. lia. Qed.

Lemma len_set_comp_cons_pos f a l : 0 < len (set_comp f (a :: l)).
Proof. unfold len. pose proof (set_comp_cons_pos f a l). lia. Qed.

(** The skill score is never NaN and never negative. *)
Lemma skill_score_nonneg user required nice :
  is_nonneg (calculate_skill_match_score user required nice).
Proof.
  unfold calculate_skill_match_score.
  destruct required as [|r required]; [apply is_nonneg_0|].
  apply is_nonneg_round2, is_nonneg_add.
  - eapply is_nonneg_mul; [reflexivity|].
    apply is_nonneg_truediv; [apply len_nonneg | apply len_set_comp_cons_pos].
  - destruct nice as [|n nice]; [apply is_nonneg_0|].
    eapply is_nonneg_mul; [reflexivity|].
    apply is_nonneg_truediv; [apply len_nonneg | apply len_set_comp_cons_pos].
Qed.

Lemma calculate_experience_match_nonneg years details :
  0 ≤ calculate_experience_match years details.
Proof. unfold calculate_experience_match. repeat case_match; lia. Qed.

(** Every score the engine builds is a number from 0 to 100, as the
    result model requires. *)
Lemma match_score_range profile item :
  is_nonneg (match_score (recommendation_for profile item))
  ∧ in_score_range (match_score (recommendation_for profile item)) = true.
Proof.
  destruct item as [name details]. simpl. apply min_100_range.
  repeat apply is_nonneg_add.
  - apply skill_score_nonneg.
  - apply is_nonneg_of_int, calculate_interest_boost_range.
  - apply is_nonneg_of_int, calculate_experience_match_nonneg.
Qed.

Lemma all_recommendations_range profile r :
  r ∈ all_recommendations career_db profile →
  is_nonneg (match_score r) ∧ in_score_range (match_score r) = true.
Proof.
  unfold all_recommendations. intros (item & -> & _)%list_elem_of_fmap.
  apply match_score_range.
Qed.

Lemma recommend_careers_range profile top_n r :
  r ∈ recommend_careers career_db profile top_n →
  is_nonneg (match_score r) ∧ in_score_range (match_score r) = true.
Proof.
  intros Hr. apply (all_recommendations_range profile).
  eapply elem_of_submseteq; [done | apply recommend_careers_submseteq].
Qed.

Lemma slice_to_negative {A} n (l : list A) :
  n < 0 → slice_to n l = take (length l - Z.to_nat (- n)) l.
Proof. intros Hn. unfold slice_to. by rewrite (proj2 (Z.leb_gt 0 n)). Qed.

(** C3.  For every profile and every count [top_n] (a number of
    results, so at least 0; 10 by default) [recommend_careers] returns
    at most [top_n] results.  Their scores are numbers from 0 to 100 and
    no result has a smaller score than a later one; the results that
    share a score are the first of the catalog's careers with that
    score, in the catalog's iteration order: the sort is stable.  (The
    second part records what Python's slice does with a negative
    number, which no caller passes.) *)
Theorem recommend_careers_sorted_stable profile top_n :
  let out := recommend_careers career_db profile top_n in
  (0 ≤ top_n → Z.of_nat (length out) ≤ top_n)
  ∧ (top_n < 0 → length out = (length career_db - Z.to_nat (- top_n))%nat)
  ∧ Z.of_nat (length (recommend_careers career_db profile default_top_n)) ≤ 10
  ∧ Forall (λ r, in_score_range (match_score r) = true) out
  ∧ (∀ i j a b, (i < j)%nat → out !! i = Some a → out !! j = Some b →
       (match_score b <=? match_score a)%float = true
       ∧ (match_score a <? match_score b)%float = false)
  ∧ (∀ v, filter (λ r, (match_score r =? v)%float = true) out
          `prefix_of` filter (λ r, (match_score r =? v)%float = true)
                        (all_recommendations career_db profile))
  ∧ career <$> all_recommendations career_db profile = career_db.*1.
Proof.
  intros out.
  assert (Hsorted : descending score_lt
                      (sort_desc score_lt (all_recommendations career_db profile))).
  { apply sort_desc_descending; [apply score_lt_asym | apply score_lt_trans]. }
  split_and!.
  - intros Hn. by apply slice_to_length.
  - intros Hn. unfold out, recommend_careers.
    rewrite slice_to_negative, length_take, (sort_desc_perm score_lt) by done.
    unfold all_recommendations. rewrite length_fmap. lia.
  - by apply slice_to_length.
  - apply Forall_forall. intros r Hr.
    by apply (recommend_careers_range profile top_n).
  - intros i j a b Hij Hi Hj.
    assert (Hlt : score_lt a b = false).
    { unfold out, recommend_careers in Hi, Hj.
      destruct (slice_to_take top_n
                  (sort_desc score_lt (all_recommendations career_db profile)))
        as [k Hk].
      rewrite Hk in Hi, Hj.
      by apply (descending_lookup score_lt _ i j a b (descending_take _ _ k Hsorted)). }
    split; [|done].
    apply list_elem_of_lookup_2 in Hi, Hj.
    apply leb_of_not_ltb; [| | done].
    + by apply (recommend_careers_range profile top_n).
    + by apply (recommend_careers_range profile top_n).
  - intros v.
    rewrite <- (sort_desc_stable score_lt score_lt_asym score_lt_trans
                  (λ r, (match_score r =? v)%float = true) (score_lt_same v)
                  (all_recommendations career_db profile)).
    apply filter_prefix, recommend_careers_prefix.
  - apply all_recommendations_careers.
Qed.

End Ranking.

(** * A profile without skills *)

Section NoSkills.
Import Str Num Py.
Context {iteration : SetOrder} (career_db : dict career_details).
Implicit Types (profile : StudentProfile) (details : career_details).

Lemma truediv_0 (p : positive) : truediv 0 (Z.pos p) = 0%float.
Proof. reflexivity. Qed.

Lemma len_set_comp_pos f a l : ∃ p, len (set_comp f (a :: l)) = Z.pos p.
Proof.
  unfold len. pose proof (set_comp_cons_pos f a l) as Hpos.
  destruct (length (set_comp f (a :: l))) as [|n]; [lia|].
  exists (Pos.of_succ_nat n). lia.
Qed.

(** Without skills the skill score is 0, whatever the career lists. *)
Lemma skill_score_no_skills required nice :
  calculate_skill_match_score [] required nice = 0%float.
Proof.
  unfold calculate_skill_match_score.
  destruct required as [|r required]; [done|].
  change (set_and (set_comp lower []) ?s) with (@nil string).
  change (len (@nil string)) with 0.
  destruct (len_set_comp_pos lower r required) as [p ->].
  rewrite truediv_0. destruct nice as [|n nice]; [by vm_compute|].
  destruct (len_set_comp_pos lower n nice) as [q ->].
  rewrite truediv_0. by vm_compute.
Qed.

Lemma calculate_experience_match_values years details :
  calculate_experience_match years details ∈ [0; 2; 5; 8].
Proof.
  unfold calculate_experience_match.
  repeat case_match; set_solver.
Qed.

(** The two boosts add up exactly, stay under the cap of 100 and within
    the declared range of a score. *)
Lemma boosts_only_score (ib eb : Z) :
  0 ≤ ib ≤ 10 → eb ∈ [0; 2; 5; 8] →
  min_100 (0 + of_int ib + of_int eb)%float = of_int (ib + eb)
  ∧ in_score_range (of_int (ib + eb)) = true.
Proof.
  intros Hib Heb.
  assert (Hcases : ib ∈ [0; 1; 2; 3; 4; 5; 6; 7; 8; 9; 10]).
  { assert (ib = 0 ∨ ib = 1 ∨ ib = 2 ∨ ib = 3 ∨ ib = 4 ∨ ib = 5 ∨ ib = 6
            ∨ ib = 7 ∨ ib = 8 ∨ ib = 9 ∨ ib = 10) as Hor by lia.
    repeat destruct Hor as [-> | Hor]; try subst ib;
      repeat first [apply list_elem_of_here | apply list_elem_of_further]. }
  repeat (apply elem_of_cons in Hcases as [-> | Hcases]);
    [..| by apply elem_of_nil in Hcases];
    repeat (apply elem_of_cons in Heb as [-> | Heb]);
    try (by apply elem_of_nil in Heb); by vm_compute.
Qed.

Lemma set_iter_nil : set_iter [] = [].
Proof. apply Permutation_nil_r. by rewrite set_iter_perm. Qed.

(** What the loop body builds for one catalog item when the profile
    has no skills. *)
Lemma recommendation_no_skills profile name details :
  skills profile = [] →
  let r := recommendation_for profile (name, details) in
  let boosts :=
    calculate_interest_boost (interests profile) name details
    + calculate_experience_match (default 0 (experience_years profile)) details in
  career r = name
  ∧ match_score r = of_int boosts
  ∧ in_score_range (match_score r) = true
  ∧ matching_skills r = [].
Proof.
  intros Hskills. simpl. rewrite Hskills, skill_score_no_skills.
  destruct (boosts_only_score
              (calculate_interest_boost (interests profile) name details)
              (calculate_experience_match (default 0 (experience_years profile)) details))
    as [Hscore Hrange].
  { apply calculate_interest_boost_range. }
  { apply calculate_experience_match_values. }
  rewrite Hscore. split_and!; [done | done | done |].
  change (set_comp lower []) with (@nil string). by rewrite set_iter_nil.
Qed.

(** C4, as the engine has it.  For a profile without skills the skill
    score is 0 for every career, and [recommend_careers] builds one
    recommendation per catalog career, each with no matching skill and
    with the sum of the interest boost and the experience boost as its
    score (a number from 0 to 18, within the range of a score); the
    results returned are among these, all of them when [top_n] is at
    least the size of the catalog.  The score is 0 for every career when
    the profile has no interest and no experience either. *)
Theorem recommend_careers_no_skills profile :
  skills profile = [] →
  (∀ required nice,
     calculate_skill_match_score (skills profile) required nice = 0%float)
  ∧ Forall2 (λ item r,
               career r = item.1
               ∧ match_score r
                 = of_int (calculate_interest_boost (interests profile) item.1 item.2
                           + calculate_experience_match
                               (default 0 (experience_years profile)) item.2)
               ∧ in_score_range (match_score r) = true
               ∧ matching_skills r = [])
            career_db (all_recommendations career_db profile)
  ∧ (∀ top_n, recommend_careers career_db profile top_n
              ⊆+ all_recommendations career_db profile)
  ∧ (∀ top_n, Z.of_nat (length career_db) ≤ top_n →
              recommend_careers career_db profile top_n
              ≡ₚ all_recommendations career_db profile)
  ∧ (interests profile = [] → default 0 (experience_years profile) = 0 →
     Forall (λ r, match_score r = 0%float)
            (all_recommendations career_db profile)).
Proof.
  intros Hskills. split_and!.
  - intros required nice. rewrite Hskills. apply skill_score_no_skills.
  - unfold all_recommendations. apply Forall2_fmap_r, Forall_Forall2_diag.
    apply Forall_forall. intros [name details] _.
    by apply recommendation_no_skills.
  - intros top_n. apply recommend_careers_submseteq.
  - intros top_n Hn. unfold recommend_careers.
    rewrite slice_to_all; [apply sort_desc_perm|].
    rewrite (sort_desc_perm score_lt). unfold all_recommendations.
    by rewrite length_fmap.
  - intros Hint Hexp. unfold all_recommendations.
    apply Forall_fmap, Forall_forall. intros [name details] _.
    destruct (recommendation_no_skills profile name details Hskills)
      as (_ & Hscore & _).
    unfold compose. rewrite Hscore, Hint, Hexp. by vm_compute.
Qed.

End NoSkills.

Lemma recommend_careers_no_skills_witness :
  skills no_skills_profile = []
  ∧ (∀ required nice,
       calculate_skill_match_score (skills no_skills_profile) required nice
       = 0%float)
  ∧ ∀ top_n, @recommend_careers insertion_order CAREER_DATABASE no_skills_profile top_n
             ⊆+ @all_recommendations insertion_order CAREER_DATABASE no_skills_profile.
Proof.
  split; [reflexivity |].
  pose proof (@recommend_careers_no_skills insertion_order CAREER_DATABASE
                no_skills_profile eq_refl) as (Hzero & _ & Hsub & _).
  exact (conj Hzero Hsub).
Defined.

(** C4 as stated fails: without skills, three years of experience alone
    give every career the score 5, not 0. *)
Lemma recommend_careers_no_skills_counterexample :
  skills no_skills_profile = []
  ∧ match_score <$> @recommend_careers insertion_order CAREER_DATABASE
                      no_skills_profile 10
    = replicate 10 5%float
  ∧ (5 =? 0)%float = false.
Proof. split_and!; by vm_compute. Qed.

(** * Matching and missing skills *)

Section SkillLists.
Import Str Py.
Context {iteration : SetOrder}.
Implicit Types (l user : list string) (key : string → string)
  (cond : string → bool).

Lemma elem_of_set_iter x user : x ∈ set_iter user ↔ x ∈ user.
Proof. by rewrite set_iter_perm. Qed.

Lemma NoDup_set_iter user : NoDup user → NoDup (set_iter user).
Proof. by rewrite set_iter_perm. Qed.

(** The keys of the values a comprehension selects are the keys it
    visits, those that pass the test and are in the dict. *)
Lemma select_values_keys key l cond ks :
  key <$> select_values (dict_comp key l) cond ks
  = filter (λ k, cond k = true ∧ k ∈ (dict_comp key l).*1) ks.
Proof.
  unfold select_values. induction ks as [|k ks IH]; [done|].
  csimpl. rewrite filter_cons, <- IH. clear IH.
  destruct (cond k) eqn:Hc.
  - destruct (dict_get k (dict_comp key l)) as [v|] eqn:Hget.
    + apply dict_get_Some_elem in Hget as Hin.
      apply elem_of_dict_comp in Hin as [_ ->].
      rewrite decide_True; [done|]. split; [done|].
      apply dict_get_is_Some. by rewrite Hget.
    + rewrite decide_False; [done|]. intros [_ Hin].
      by apply dict_get_None in Hget.
  - rewrite decide_False; [done|]. by intros [? _].
Qed.

Lemma elem_of_select_values_comp key l cond ks v :
  v ∈ select_values (dict_comp key l) cond ks →
  v ∈ l ∧ key v ∈ ks ∧ cond (key v) = true.
Proof.
  intros (k & Hk & Hc & Hget)%elem_of_select_values.
  apply dict_get_Some_elem, elem_of_dict_comp in Hget as [Hv ->]. done.
Qed.

(** When no two skills share a key, the lookup of a skill's key gives
    the skill back. *)
Lemma dict_get_comp_NoDup key l x :
  NoDup (key <$> l) → x ∈ l → dict_get (key x) (dict_comp key l) = Some x.
Proof.
  intros Hnd Hx. apply dict_get_elem; [apply NoDup_dict_comp_keys|].
  rewrite dict_comp_NoDup by done. apply list_elem_of_fmap. by exists x.
Qed.

(** Iterating the dict's own keys visits the skills in the order of the
    list. *)
Lemma select_values_own_keys key l cond :
  NoDup (key <$> l) →
  select_values (dict_comp key l) cond (dict_comp key l).*1
  = filter (λ x, cond (key x) = true) l.
Proof.
  intros Hnd. rewrite (dict_comp_NoDup key l Hnd) at 2.
  rewrite <- list_fmap_compose. unfold select_values.
  assert (Hsub : ∀ x, x ∈ l → x ∈ l) by done. revert Hsub.
  generalize l at 1 4 5. intros l' Hsub.
  induction l' as [|x l' IH]; [done|].
  csimpl. rewrite filter_cons, IH by (intros y Hy; apply Hsub; by right).
  rewrite dict_get_comp_NoDup by (done || apply Hsub; left).
  destruct (cond (key x)); [by rewrite decide_True | by rewrite decide_False].
Qed.

(** The two comprehensions of the engine over one list of a career:
    the skills the user has, read off the user's set, and the skills the
    user lacks, read off the dict of the list. *)
Local Abbreviation matching user l :=
  (select_values (dict_comp lower l) (λ skill, dict_in skill (dict_comp lower l))
     (set_iter user)).
Local Abbreviation missing user l :=
  (select_values (dict_comp lower l) (λ skill, negb (set_in skill user))
     (dict_comp lower l).*1).

Lemma elem_of_matching user l s : s ∈ matching user l → s ∈ l ∧ lower s ∈ user.
Proof.
  intros (Hs & Hk & _)%elem_of_select_values_comp.
  split; [done|]. by apply elem_of_set_iter.
Qed.

Lemma elem_of_missing user l s : s ∈ missing user l → s ∈ l ∧ lower s ∉ user.
Proof.
  intros (Hs & _ & Hc)%elem_of_select_values_comp.
  split; [done|]. by apply set_in_false, negb_true_iff.
Qed.

Lemma lower_matching user l :
  lower <$> matching user l = filter (λ k, k ∈ set_comp lower l) (set_iter user).
Proof.
  rewrite select_values_keys. apply list_filter_iff. intros k.
  rewrite dict_in_true, dict_comp_keys. tauto.
Qed.

Lemma lower_missing user l :
  lower <$> missing user l = filter (λ k, k ∉ user) (set_comp lower l).
Proof.
  rewrite select_values_keys, dict_comp_keys.
  apply filter_ext_elem. intros k Hk.
  rewrite negb_true_iff, set_in_false. tauto.
Qed.

(** No two of the skills listed, matching or missing, are the same
    skill up to letter case. *)
Lemma partition_NoDup user l :
  NoDup user → NoDup (lower <$> (matching user l ++ missing user l)).
Proof.
  intros Huser. rewrite fmap_app, lower_matching, lower_missing.
  apply NoDup_app. split_and!.
  - by apply NoDup_filter, NoDup_set_iter.
  - intros k [_ Hk]%list_elem_of_filter [Hout _]%list_elem_of_filter.
    apply Hout. by apply elem_of_set_iter.
  - apply NoDup_filter, NoDup_set_comp.
Qed.

(** Up to letter case, the skills listed are those of the career's
    list. *)
Lemma partition_cover user l k :
  k ∈ lower <$> (matching user l ++ missing user l) ↔ k ∈ lower <$> l.
Proof.
  rewrite fmap_app, lower_matching, lower_missing, elem_of_app.
  rewrite !list_elem_of_filter, elem_of_set_iter, elem_of_set_comp.
  rewrite list_elem_of_fmap. setoid_rewrite (comm and (_ ∈ l)).
  destruct (decide (k ∈ user)); tauto.
Qed.

(** With a list that spells no skill twice, the skills listed are the
    skills of the list, each once. *)
Lemma partition_exact user l :
  NoDup user → NoDup (lower <$> l) → matching user l ++ missing user l ≡ₚ l.
Proof.
  intros Huser Hl. apply NoDup_Permutation.
  - by eapply NoDup_fmap_1, partition_NoDup.
  - by eapply NoDup_fmap_1.
  - intros s. split.
    + intros [[? _]%elem_of_matching | [? _]%elem_of_missing]%elem_of_app; done.
    + intros Hs.
      assert (Hk : lower s ∈ lower <$> (matching user l ++ missing user l)).
      { apply partition_cover, list_elem_of_fmap. by exists s. }
      apply list_elem_of_fmap in Hk as (s' & Heq & Hs').
      assert (Hin : s' ∈ l).
      { apply elem_of_app in Hs' as [[? _]%elem_of_matching | [? _]%elem_of_missing];
          done. }
      by rewrite (NoDup_fmap_inj_elem lower l s s' Hl Hs Hin Heq).
Qed.

(** With a list that spells no skill twice, the missing skills come in
    the order of the list ... *)
Lemma missing_catalog_order user l :
  NoDup (lower <$> l) → missing user l = filter (λ s, lower s ∉ user) l.
Proof.
  intros Hl. rewrite select_values_own_keys by done.
  apply list_filter_iff. intros s. by rewrite negb_true_iff, set_in_false.
Qed.

(** ... and the matching skills are the skills of the list the user
    has, in the order the user's set is iterated. *)
Lemma matching_perm user l :
  NoDup user → NoDup (lower <$> l) →
  matching user l ≡ₚ filter (λ s, lower s ∈ user) l.
Proof.
  intros Huser Hl. apply NoDup_Permutation.
  - pose proof (partition_NoDup user l Huser) as Hnd.
    apply NoDup_fmap_1, NoDup_app in Hnd. tauto.
  - by eapply NoDup_filter, NoDup_fmap_1.
  - intros s. rewrite list_elem_of_filter. split.
    + intros [? ?]%elem_of_matching. done.
    + intros [Hk Hs]. apply elem_of_select_values. exists (lower s). split_and!.
      * by apply elem_of_set_iter.
      * apply dict_in_true. rewrite dict_comp_keys. apply elem_of_set_comp.
        by exists s.
      * by apply dict_get_comp_NoDup.
Qed.

Lemma elem_of_user_set (skills : list string) k :
  k ∈ set_comp lower skills ↔ k ∈ lower <$> skills.
Proof.
  rewrite elem_of_set_comp, list_elem_of_fmap.
  split; intros (x & H1 & H2); exists x; by split.
Qed.

End SkillLists.

(** * Gap analysis: [analyze_skills_gap] *)

Section GapAnalysis.
Import Str Num Py.
Context {iteration : SetOrder} (career_db : dict career_details).
Implicit Types (profile : StudentProfile) (target : string).

Lemma analyze_skills_gap_absent profile target :
  target ∉ career_db.*1 →
  analyze_skills_gap career_db profile target = GapError "Career not found".
Proof.
  intros Hout%dict_get_None. unfold analyze_skills_gap. by rewrite Hout.
Qed.

(** C5.  For a career name that is not in the catalog
    [analyze_skills_gap] answers with the error ["Career not found"].
    For a known career the matching and the missing required skills are
    skills of the career in the catalog's spelling, one list holding
    those the profile has and the other those it lacks (compared in
    lower case); together they hold every required skill, each once up
    to letter case, and are a rearrangement of the required list itself
    when the list spells no skill twice.  The completion percentage is
    [round(len(matching_required) / len(required_skills) * 100, 2)], and
    0 for an empty required list. *)
Theorem analyze_skills_gap_partition profile target :
  (dict_get target career_db = None ↔ target ∉ career_db.*1)
  ∧ match dict_get target career_db with
    | None =>
        analyze_skills_gap career_db profile target
        = GapError "Career not found"
    | Some details =>
        ∃ gap,
          analyze_skills_gap career_db profile target = GapOk gap
          ∧ (∀ s, s ∈ matching_required gap →
               s ∈ required_skills details ∧ lower s ∈ lower <$> skills profile)
          ∧ (∀ s, s ∈ missing_required gap →
               s ∈ required_skills details ∧ lower s ∉ lower <$> skills profile)
          ∧ NoDup (lower <$> (matching_required gap ++ missing_required gap))
          ∧ (∀ k, k ∈ lower <$> (matching_required gap ++ missing_required gap)
                  ↔ k ∈ lower <$> required_skills details)
          ∧ (NoDup (lower <$> required_skills details) →
             matching_required gap ++ missing_required gap
             ≡ₚ required_skills details)
          ∧ completion_percentage gap
            = round2 match required_skills details with
                     | [] => 0%float
                     | _ => (truediv (len (matching_required gap))
                                     (len (required_skills details)) * 100)%float
                     end
    end.
Proof.
  split; [apply dict_get_None|].
  unfold analyze_skills_gap.
  destruct (dict_get target career_db) as [details|]; [|done].
  eexists. split; [reflexivity|]. simpl.
  pose proof (NoDup_set_comp lower (skills profile)) as Huser.
  split_and!.
  - intros s [? ?]%elem_of_matching. by rewrite <- elem_of_user_set.
  - intros s [? ?]%elem_of_missing. by rewrite <- elem_of_user_set.
  - by apply partition_NoDup.
  - apply partition_cover.
  - by apply partition_exact.
  - done.
Qed.

End GapAnalysis.

(** * Unknown careers and the learning path *)

Section LearningPath.
Import Str Num Py.
Context {iteration : SetOrder} (career_db : dict career_details).
Implicit Types (profile : StudentProfile) (target : string).

Lemma get_learning_path_absent profile target :
  target ∉ career_db.*1 → get_learning_path career_db profile target = [].
Proof.
  intros Hout. unfold get_learning_path.
  by rewrite analyze_skills_gap_absent.
Qed.

Lemma analyze_skills_gap_present profile target :
  target ∈ career_db.*1 →
  ∃ gap, analyze_skills_gap career_db profile target = GapOk gap.
Proof.
  intros [details Hd]%dict_get_is_Some. unfold analyze_skills_gap.
  rewrite Hd. eauto.
Qed.

(** C6.  For a career name that is not in the catalog the two
    operations differ: [analyze_skills_gap] returns the error, which its
    endpoint passes on as a 404 with the same message, while
    [get_learning_path] returns the empty list (which its endpoint
    answers with a 404 of its own, as it does for every empty path). *)
Theorem not_found_asymmetry profile target :
  target ∉ career_db.*1 →
  analyze_skills_gap career_db profile target = GapError "Career not found"
  ∧ skills_gap_endpoint career_db profile target
    = HttpError 404 "Career not found"
  ∧ get_learning_path career_db profile target = []
  ∧ learning_path_endpoint career_db profile target
    = HttpError 404 "Career not found or no learning path needed".
Proof.
  intros Hout. unfold skills_gap_endpoint, learning_path_endpoint.
  rewrite analyze_skills_gap_absent, get_learning_path_absent by done. done.
Qed.

Lemma set_comp_fmap (f : string → string) (l : list string) :
  set_comp f l = set_comp id (f <$> l).
Proof.
  unfold set_comp. generalize (@nil string).
  induction l as [|x l IH]; intros s; csimpl; [done|]. apply IH.
Qed.

Lemma set_comp_lower_ext (l l' : list string) :
  lower <$> l = lower <$> l' → set_comp lower l = set_comp lower l'.
Proof. intros Heq. by rewrite (set_comp_fmap _ l), (set_comp_fmap _ l'), Heq. Qed.

(** C10.  A career name that is not, character for character, a key
    of the catalog is not found, even when it differs from a key in
    letter case only: [analyze_skills_gap] returns the error and
    [get_learning_path] the empty list.  Skills, on the other hand, are
    compared without regard to letter case: two profiles whose skills
    agree in lower case get the same skill score and the same gap lists,
    and two careers whose skill lists agree in lower case give the same
    skill score. *)
Theorem career_lookup_exact profile target :
  target ∉ career_db.*1 →
  analyze_skills_gap career_db profile target = GapError "Career not found"
  ∧ get_learning_path career_db profile target = []
  ∧ (∀ profile', lower <$> skills profile' = lower <$> skills profile →
       (∀ required nice,
          calculate_skill_match_score (skills profile') required nice
          = calculate_skill_match_score (skills profile) required nice)
       ∧ ∀ name,
           match analyze_skills_gap career_db profile' name,
                 analyze_skills_gap career_db profile name with
           | GapOk g', GapOk g =>
               matching_required g' = matching_required g
               ∧ missing_required g' = missing_required g
               ∧ matching_nice g' = matching_nice g
               ∧ missing_nice g' = missing_nice g
               ∧ completion_percentage g' = completion_percentage g
               ∧ priority_skills g' = priority_skills g
           | GapError e', GapError e => e' = e
           | _, _ => False
           end)
  ∧ (∀ required required' nice nice',
       lower <$> required' = lower <$> required →
       lower <$> nice' = lower <$> nice →
       calculate_skill_match_score (skills profile) required' nice'
       = calculate_skill_match_score (skills profile) required nice).
Proof.
  intros Hout. split_and!.
  - by apply analyze_skills_gap_absent.
  - by apply get_learning_path_absent.
  - intros profile' Heq%set_comp_lower_ext. split.
    + intros required nice. unfold calculate_skill_match_score. by rewrite Heq.
    + intros name. unfold analyze_skills_gap.
      destruct (dict_get name career_db) as [details|]; [|done].
      simpl. by rewrite Heq.
  - intros required required' nice nice' Hreq Hnice.
    unfold calculate_skill_match_score.
    rewrite (set_comp_lower_ext _ _ Hreq), (set_comp_lower_ext _ _ Hnice).
    destruct required as [|r required], required' as [|r' required'];
      try done.
    by destruct nice as [|n nice], nice' as [|n' nice'].
Qed.

Lemma length_slice_to_le {A} (n : Z) (l : list A) :
  0 ≤ n → (length (slice_to n l) ≤ Z.to_nat n)%nat.
Proof. intros Hn. pose proof (slice_to_length n l Hn). lia. Qed.

Lemma sum_foldr (xs : list Z) : sum xs = foldr Z.add 0 xs.
Proof.
  induction xs as [|x xs IH]; [done|]. rewrite sum_cons, IH. done.
Qed.

Ltac in_list :=
  repeat first [apply list_elem_of_here | apply list_elem_of_further].
Ltac cases_of H :=
  repeat (apply elem_of_cons in H as [-> | H]); [..| by apply elem_of_nil in H].
Ltac not_in_list H :=
  repeat (apply elem_of_cons in H as [H | H]; [discriminate H|]);
  by apply elem_of_nil in H.

Lemma estimate_difficulty_table s :
  (estimate_difficulty s = beginner
     ↔ s ∈ ["Python"; "JavaScript"; "HTML"; "CSS"; "Git"])
  ∧ (estimate_difficulty s = advanced
     ↔ s ∈ ["Machine Learning"; "Deep Learning"; "System Design"])
  ∧ (estimate_difficulty s = intermediate
     ↔ s ∉ ["Python"; "JavaScript"; "HTML"; "CSS"; "Git"; "Machine Learning";
            "Deep Learning"; "System Design"]).
Proof.
  unfold estimate_difficulty.
  destruct (decide (s ∈ ["Python"; "JavaScript"; "HTML"; "CSS"; "Git"])) as [Hb|Hb].
  - rewrite bool_decide_eq_true_2 by done.
    split_and!; split; intros Hs; try done; exfalso.
    + cases_of Hb; not_in_list Hs.
    + apply Hs. cases_of Hb; in_list.
  - rewrite bool_decide_eq_false_2 by done.
    destruct (decide (s ∈ ["Machine Learning"; "Deep Learning"; "System Design"]))
      as [Ha|Ha].
    + rewrite bool_decide_eq_true_2 by done.
      split_and!; split; intros Hs; try done; exfalso.
      apply Hs. cases_of Ha; in_list.
    + rewrite bool_decide_eq_false_2 by done.
      split_and!; split; intros Hs; try done.
      intros Hin. do 5 (apply elem_of_cons in Hin as [-> | Hin]; [apply Hb; in_list|]).
      done.
Qed.

Lemma priority_skills_length profile target gap :
  analyze_skills_gap career_db profile target = GapOk gap →
  (length (priority_skills gap) ≤ 5)%nat
  ∧ priority_skills gap
    = slice_to 3 (missing_required gap) ++ slice_to 2 (missing_nice gap).
Proof.
  unfold analyze_skills_gap.
  destruct (dict_get target career_db) as [details|]; [|done].
  intros [= <-]. simpl. split; [|done]. rewrite length_app.
  pose proof (length_slice_to_le 3
    (select_values (dict_comp lower (required_skills details))
       (λ skill, negb (set_in skill (set_comp lower (skills profile))))
       (dict_comp lower (required_skills details)).*1)).
  pose proof (length_slice_to_le 2
    (select_values (dict_comp lower (nice_to_have details))
       (λ skill, negb (set_in skill (set_comp lower (skills profile))))
       (dict_comp lower (nice_to_have details)).*1)).
  lia.
Qed.

Lemma module_skills (l : list string) : skill <$> imap module_for l = l.
Proof.
  apply list_eq. intros i. rewrite list_lookup_fmap, list_lookup_imap.
  by destruct (l !! i).
Qed.

(** C7.  [get_learning_path] returns at most 5 modules; the module at
    position [i] (counted from 1) has [order = i]; its difficulty is the
    fixed lookup (Python, JavaScript, HTML, CSS, Git are beginner;
    Machine Learning, Deep Learning, System Design are advanced; every
    other skill is intermediate) and its weeks are 8, 12 or 16
    accordingly; the endpoint reports, with a non-empty path, the sum of
    the modules' weeks as [total_weeks] and their number as
    [total_skills], and answers 404 for an empty path. *)
Theorem learning_path_modules profile target :
  let path := get_learning_path career_db profile target in
  (length path ≤ 5)%nat
  ∧ (∀ i m, path !! i = Some m →
       order m = Z.of_nat i + 1
       ∧ module_difficulty m = estimate_difficulty (skill m)
       ∧ estimated_weeks m = match module_difficulty m with
                             | beginner => 8
                             | intermediate => 12
                             | advanced => 16
                             end)
  ∧ (∀ gap, analyze_skills_gap career_db profile target = GapOk gap →
       skill <$> path = priority_skills gap)
  ∧ (∀ s, (estimate_difficulty s = beginner
             ↔ s ∈ ["Python"; "JavaScript"; "HTML"; "CSS"; "Git"])
          ∧ (estimate_difficulty s = advanced
             ↔ s ∈ ["Machine Learning"; "Deep Learning"; "System Design"])
          ∧ (estimate_difficulty s = intermediate
             ↔ s ∉ ["Python"; "JavaScript"; "HTML"; "CSS"; "Git";
                    "Machine Learning"; "Deep Learning"; "System Design"]))
  ∧ match learning_path_endpoint career_db profile target with
    | Http200 body =>
        path ≠ []
        ∧ learning_path body = path
        ∧ total_weeks body = foldr Z.add 0 (estimated_weeks <$> path)
        ∧ total_skills body = Z.of_nat (length path)
    | HttpError status_code _ => status_code = 404 ∧ path = []
    end.
Proof.
  intros path. split_and!.
  - unfold path, get_learning_path.
    destruct (analyze_skills_gap career_db profile target) as [e|gap] eqn:Hgap;
      [simpl; lia|].
    rewrite length_imap. by apply (priority_skills_length profile target).
  - intros i m. unfold path, get_learning_path.
    destruct (analyze_skills_gap career_db profile target) as [e|gap];
      [by rewrite lookup_nil|].
    rewrite list_lookup_imap.
    destruct (priority_skills gap !! i) as [s|]; [|done].
    intros [= <-]. simpl. split_and!; [done | done |].
    by destruct (estimate_difficulty s).
  - intros gap Hgap. unfold path, get_learning_path. rewrite Hgap.
    apply module_skills.
  - apply estimate_difficulty_table.
  - unfold learning_path_endpoint. fold path.
    destruct path as [|m path']; [done|]. simpl.
    split_and!; [done | done | | done].
    by rewrite sum_foldr.
Qed.

End LearningPath.

Lemma not_found_asymmetry_witness :
("Astronaut" ∉ CAREER_DATABASE.*1)
  ∧ @analyze_skills_gap insertion_order CAREER_DATABASE example_profile "Astronaut"
    = GapError "Career not found"
  ∧ @skills_gap_endpoint insertion_order CAREER_DATABASE example_profile "Astronaut"
    = HttpError 404 "Career not found"
  ∧ @get_learning_path insertion_order CAREER_DATABASE example_profile "Astronaut" = []
  ∧ @learning_path_endpoint insertion_order CAREER_DATABASE example_profile
      "Astronaut"
    = HttpError 404 "Career not found or no learning path needed".
Proof.
  assert (Hout : "Astronaut" ∉ CAREER_DATABASE.*1)
    by (apply dict_get_None; reflexivity).
  split; [exact Hout |].
  exact (@not_found_asymmetry insertion_order CAREER_DATABASE example_profile
           "Astronaut" Hout).
Defined.

Lemma career_lookup_exact_witness :
  ("data scientist" ∉ CAREER_DATABASE.*1)
  ∧ Str.lower "Data Scientist" = "data scientist"
  ∧ ("Data Scientist" ∈ CAREER_DATABASE.*1)
  ∧ @analyze_skills_gap insertion_order CAREER_DATABASE example_profile
      "data scientist"
    = GapError "Career not found"
  ∧ @get_learning_path insertion_order CAREER_DATABASE example_profile
      "data scientist" = [].
Proof.
  assert (Hout : "data scientist" ∉ CAREER_DATABASE.*1)
    by (apply dict_get_None; reflexivity).
  split_and!; [exact Hout | reflexivity | apply list_elem_of_here | |];
    apply (@career_lookup_exact insertion_order CAREER_DATABASE example_profile
             "data scientist" Hout).
Defined.

(** * The order of the skill lists *)

Section SkillListOrder.
Import Str Num Py.
Context {iteration : SetOrder} (career_db : dict career_details).
Implicit Types (profile : StudentProfile) (details : career_details).

Lemma matching_skills_eq profile name details :
  matching_skills (recommendation_for profile (name, details))
  = select_values (dict_comp lower (required_skills details))
      (λ skill, dict_in skill (dict_comp lower (required_skills details)))
      (set_iter (set_comp lower (skills profile))).
Proof. reflexivity. Qed.

Lemma skills_to_learn_eq profile name details :
  skills_to_learn (recommendation_for profile (name, details))
  = take 5 (filter (λ s, lower s ∉ lower <$> skills profile)
                   (required_skills details)).
Proof.
  simpl. rewrite slice_to_nonneg by lia. f_equal.
  apply list_filter_iff. intros s. by rewrite elem_of_user_set.
Qed.

Lemma filter_has_ext (skills l : list string) :
  filter (λ s, lower s ∈ set_comp lower skills) l
  = filter (λ s, lower s ∈ lower <$> skills) l.
Proof. apply list_filter_iff. intros s. by rewrite elem_of_user_set. Qed.

Lemma filter_lacks_ext (skills l : list string) :
  filter (λ s, lower s ∉ set_comp lower skills) l
  = filter (λ s, lower s ∉ lower <$> skills) l.
Proof. apply list_filter_iff. intros s. by rewrite elem_of_user_set. Qed.

(** For a career whose two lists spell no skill twice, the lists of
    skills the profile lacks follow the career's lists, and the lists of
    skills the profile has are rearrangements of what the career's lists
    give. *)
Lemma skill_lists_order_spelled_once profile name details :
  dict_get name career_db = Some details →
  NoDup (lower <$> required_skills details) →
  NoDup (lower <$> nice_to_have details) →
  let r := recommendation_for profile (name, details) in
  skills_to_learn r
    = take 5 (filter (λ s, lower s ∉ lower <$> skills profile)
                     (required_skills details))
  ∧ matching_skills r
    ≡ₚ filter (λ s, lower s ∈ lower <$> skills profile) (required_skills details)
  ∧ ∃ gap,
      analyze_skills_gap career_db profile name = GapOk gap
      ∧ missing_required gap
        = filter (λ s, lower s ∉ lower <$> skills profile) (required_skills details)
      ∧ missing_nice gap
        = filter (λ s, lower s ∉ lower <$> skills profile) (nice_to_have details)
      ∧ matching_required gap
        ≡ₚ filter (λ s, lower s ∈ lower <$> skills profile) (required_skills details)
      ∧ matching_nice gap
        ≡ₚ filter (λ s, lower s ∈ lower <$> skills profile) (nice_to_have details)
      ∧ priority_skills gap
        = take 3 (missing_required gap) ++ take 2 (missing_nice gap).
Proof.
  intros Hget Hreq Hnice r.
  pose proof (NoDup_set_comp lower (skills profile)) as Huser.
  split_and!.
  - apply skills_to_learn_eq.
  - unfold r. rewrite matching_skills_eq, matching_perm by done.
    by rewrite filter_has_ext.
  - unfold analyze_skills_gap. rewrite Hget. eexists. split; [reflexivity|].
    simpl. rewrite !missing_catalog_order, !filter_lacks_ext by done.
    rewrite !matching_perm, !filter_has_ext by done.
    rewrite !slice_to_nonneg by lia. done.
Qed.

(** The matching skills come in the order in which the set of the
    profile's skills is iterated: in lower case they are that iteration,
    cut down to the skills of the career's list. *)
Lemma matching_lists_set_order profile name details :
  dict_get name career_db = Some details →
  let user := set_iter (set_comp lower (skills profile)) in
  lower <$> matching_skills (recommendation_for profile (name, details))
  = filter (λ k, k ∈ lower <$> required_skills details) user
  ∧ ∀ gap,
      analyze_skills_gap career_db profile name = GapOk gap →
      lower <$> matching_required gap
      = filter (λ k, k ∈ lower <$> required_skills details) user
      ∧ lower <$> matching_nice gap
        = filter (λ k, k ∈ lower <$> nice_to_have details) user.
Proof.
  intros Hget user.
  assert (Hm : ∀ l,
            lower <$> select_values (dict_comp lower l)
                        (λ skill, dict_in skill (dict_comp lower l)) user
            = filter (λ k, k ∈ lower <$> l) user).
  { intros l. unfold user. rewrite lower_matching.
    apply list_filter_iff. intros k. apply elem_of_user_set. }
  split.
  - rewrite matching_skills_eq. apply Hm.
  - intros gap. unfold analyze_skills_gap. rewrite Hget.
    intros [= <-]. simpl. split; apply Hm.
Qed.

End SkillListOrder.

(** Every career of the catalog spells each of its skills once. *)
Lemma catalog_spells_once :
  Forall (λ item, NoDup (Str.lower <$> required_skills item.2)
                  ∧ NoDup (Str.lower <$> nice_to_have item.2))
         CAREER_DATABASE.
Proof. apply (bool_decide_unpack _). by vm_compute. Qed.

(** C8, as the engine has it.  For every profile and every career of
    the catalog, [skills_to_learn], [missing_required] and [missing_nice]
    are the skills of the career's list the profile lacks, in the order
    of the list ([skills_to_learn] cut to 5), and [priority_skills] is
    the first 3 missing required skills followed by the first 2 missing
    nice-to-have ones.  [matching_skills], [matching_required] and
    [matching_nice] hold the skills of the career's list the profile has,
    each once, but in the order Python iterates the set of the profile's
    lower-cased skills, which need not be the order of the list: read in
    lower case, each of the three lists is that iteration of the set,
    cut down to the skills of the career's list. *)
Theorem skill_lists_order (iteration : Py.SetOrder) profile name details :
  get_career_details name = Some details →
  let r := recommendation_for profile (name, details) in
  let user := Py.set_iter (Py.set_comp Str.lower (skills profile)) in
  skills_to_learn r
    = take 5 (filter (λ s, Str.lower s ∉ Str.lower <$> skills profile)
                     (required_skills details))
  ∧ matching_skills r
    ≡ₚ filter (λ s, Str.lower s ∈ Str.lower <$> skills profile)
              (required_skills details)
  ∧ Str.lower <$> matching_skills r
    = filter (λ k, k ∈ Str.lower <$> required_skills details) user
  ∧ ∃ gap,
      analyze_skills_gap CAREER_DATABASE profile name = GapOk gap
      ∧ missing_required gap
        = filter (λ s, Str.lower s ∉ Str.lower <$> skills profile)
                 (required_skills details)
      ∧ missing_nice gap
        = filter (λ s, Str.lower s ∉ Str.lower <$> skills profile)
                 (nice_to_have details)
      ∧ matching_required gap
        ≡ₚ filter (λ s, Str.lower s ∈ Str.lower <$> skills profile)
                  (required_skills details)
      ∧ matching_nice gap
        ≡ₚ filter (λ s, Str.lower s ∈ Str.lower <$> skills profile)
                  (nice_to_have details)
      ∧ priority_skills gap
        = take 3 (missing_required gap) ++ take 2 (missing_nice gap)
      ∧ Str.lower <$> matching_required gap
        = filter (λ k, k ∈ Str.lower <$> required_skills details) user
      ∧ Str.lower <$> matching_nice gap
        = filter (λ k, k ∈ Str.lower <$> nice_to_have details) user.
Proof.
  intros Hget r user.
  pose proof catalog_spells_once as Hall. rewrite Forall_forall in Hall.
  destruct (Hall (name, details) (dict_get_Some_elem _ _ _ Hget)) as [Hreq Hnice].
  destruct (skill_lists_order_spelled_once CAREER_DATABASE profile name details
              Hget Hreq Hnice)
    as (Hlearn & Hmatch & gap & Hgap & Hmr & Hmn & Hpr & Hpn & Hprio).
  destruct (matching_lists_set_order CAREER_DATABASE profile name details Hget)
    as [Horder Hgap_order].
  destruct (Hgap_order gap Hgap) as [Horder_required Horder_nice].
  split_and!; [exact Hlearn | exact Hmatch | exact Horder |].
  exists gap. split_and!; done.
Qed.

Lemma skill_lists_order_witness :
  ∃ details,
    get_career_details "Data Scientist" = Some details
    ∧ skills_to_learn
        (@recommendation_for insertion_order example_profile
           ("Data Scientist", details))
      = take 5 (filter (λ s, Str.lower s ∉ Str.lower <$> skills example_profile)
                       (required_skills details))
    ∧ matching_skills
        (@recommendation_for insertion_order example_profile
           ("Data Scientist", details))
      ≡ₚ filter (λ s, Str.lower s ∈ Str.lower <$> skills example_profile)
                (required_skills details)
    ∧ Str.lower <$> matching_skills
                      (@recommendation_for insertion_order example_profile
                         ("Data Scientist", details))
      = filter (λ k, k ∈ Str.lower <$> required_skills details)
               (@Py.set_iter insertion_order
                  (Py.set_comp Str.lower (skills example_profile))).
Proof.
  eexists. split; [reflexivity |].
  pose proof (skill_lists_order insertion_order example_profile
                "Data Scientist" _ eq_refl) as (Hlearn & Hmatch & Horder & _).
  exact (conj Hlearn (conj Hmatch Horder)).
Defined.

(** C8 as stated fails for the matching skills.  The catalog lists AWS
    before Docker for the Cloud Architect and Docker before AWS for the
    DevOps Engineer; the engine reads the matching skills off the set of
    the profile's skills, so whichever way Python iterates the set
    [{"aws", "docker"}], one of the two careers gets its matching skills
    in the reverse of the catalog's order. *)
Lemma matching_skills_order_counterexample :
  ∃ architect devops,
    get_career_details "Cloud Architect" = Some architect
    ∧ get_career_details "DevOps Engineer" = Some devops
    ∧ filter (λ s, s ∈ skills cloud_profile) (required_skills architect)
      = ["AWS"; "Docker"]
    ∧ filter (λ s, s ∈ skills cloud_profile) (required_skills devops)
      = ["Docker"; "AWS"]
    ∧ ∀ iteration : Py.SetOrder,
        matching_skills
          (@recommendation_for iteration cloud_profile ("Cloud Architect", architect))
        = ["Docker"; "AWS"]
        ∨ matching_skills
            (@recommendation_for iteration cloud_profile ("DevOps Engineer", devops))
          = ["AWS"; "Docker"].
Proof.
  eexists _, _. split_and!; [reflexivity | reflexivity | by vm_compute | by vm_compute |].
  intros iteration. rewrite !matching_skills_eq.
  change (Py.set_comp Str.lower (skills cloud_profile)) with ["aws"; "docker"].
  pose proof (Py.set_iter_perm ["aws"; "docker"]) as Hperm.
  symmetry in Hperm. apply Permutation_length_2_inv in Hperm as [-> | ->].
  - right. by vm_compute.
  - left. by vm_compute.
Qed.

(** * The end-to-end example of the specification *)

(** C9.  For the profile with the skills Python, SQL, Machine Learning,
    Statistics and Pandas, no interest and 3 years of experience, scored
    against the Data Scientist career (10 required skills): 5 of the
    required skills match, so the required part of the skill score is
    [(5/10)*70 = 35]; no nice-to-have skill matches, so that part is 0;
    the experience boost is 5; the match score is exactly 40; and the
    skills to learn are Data Visualization, NumPy, Scikit-learn, Deep
    Learning and Data Analysis, in this order.  The recommendation comes
    first in the ranking. *)
Theorem data_scientist_example (iteration : Py.SetOrder) :
  ∃ details,
    get_career_details "Data Scientist" = Some details
    ∧ length (required_skills details) = 10%nat
    ∧ overlap (skills example_profile) (required_skills details) = 5
    ∧ requiredScore_spec (skills example_profile) (required_skills details)
      = 35%float
    ∧ overlap (skills example_profile) (nice_to_have details) = 0
    ∧ niceScore_spec (skills example_profile) (nice_to_have details) = 0%float
    ∧ calculate_skill_match_score (skills example_profile)
        (required_skills details) (nice_to_have details) = 35%float
    ∧ calculate_interest_boost (interests example_profile) "Data Scientist" details
      = 0
    ∧ calculate_experience_match (default 0 (experience_years example_profile))
        details = 5
    ∧ match_score (recommendation_for example_profile ("Data Scientist", details))
      = 40%float
    ∧ skills_to_learn (recommendation_for example_profile ("Data Scientist", details))
      = ["Data Visualization"; "NumPy"; "Scikit-learn"; "Deep Learning";
         "Data Analysis"]
    ∧ (λ r, (career r, match_score r, skills_to_learn r))
        <$> head (recommend_careers CAREER_DATABASE example_profile default_top_n)
      = Some ("Data Scientist", 40%float,
              ["Data Visualization"; "NumPy"; "Scikit-learn"; "Deep Learning";
               "Data Analysis"]).
Proof.
  eexists. split; [reflexivity |].
  split_and!; by vm_compute.
Qed.

(** * Two runs of the gap analysis and of the learning path *)

(** The example profile against the Data Scientist career: half of the
    required skills are there; the path has the five priority skills, of
    twelve weeks each. *)
Example data_scientist_gap_and_path :
  (λ gap, (completion_percentage gap, priority_skills gap))
    <$> (match @analyze_skills_gap insertion_order CAREER_DATABASE example_profile
                 "Data Scientist" with
         | GapOk gap => Some gap
         | GapError _ => None
         end)
  = Some (50%float,
          ["Data Visualization"; "NumPy"; "Scikit-learn"; "TensorFlow"; "PyTorch"])
  ∧ (λ m, (order m, skill m, module_difficulty m, estimated_weeks m))
      <$> @get_learning_path insertion_order CAREER_DATABASE example_profile
            "Data Scientist"
    = [(1, "Data Visualization", intermediate, 12);
       (2, "NumPy", intermediate, 12);
       (3, "Scikit-learn", intermediate, 12);
       (4, "TensorFlow", intermediate, 12);
       (5, "PyTorch", intermediate, 12)]
  ∧ (λ body, (total_weeks body, total_skills body))
      <$> (match @learning_path_endpoint insertion_order CAREER_DATABASE
                   example_profile "Data Scientist" with
           | Http200 body => Some body
           | HttpError _ _ => None
           end)
    = Some (60, 5).
Proof. split_and!; by vm_compute. Qed.

(** A profile that lacks Python, Git and Deep Learning among others gets
    modules of all three difficulties. *)
Example machine_learning_path :
  (λ m, (order m, skill m, module_difficulty m, estimated_weeks m))
    <$> @get_learning_path insertion_order CAREER_DATABASE no_skills_profile
          "Machine Learning Engineer"
  = [(1, "Python", beginner, 8);
     (2, "Machine Learning", advanced, 16);
     (3, "Deep Learning", advanced, 16);
     (4, "Spark", intermediate, 12);
     (5, "AWS", intermediate, 12)].
Proof. by vm_compute. Qed.

(** * Further properties of the engine *)

Section EngineFacts.
Import Str Num Py.
Context {iteration : SetOrder} (career_db : dict career_details).
Implicit Types (profile : StudentProfile) (details : career_details).

(** X1.  The experience boost does not look at the career.  It is 0 for
    no experience and for nothing else, and from 0 years on more
    experience never lowers it; a negative number of years, which the
    function accepts, gets the boost of a first year, 2. *)
Theorem calculate_experience_match_steps years years' details details' :
  (calculate_experience_match years details = 0 ↔ years = 0)
  ∧ (years < 0 → calculate_experience_match years details = 2)
  ∧ (0 ≤ years ≤ years' →
     calculate_experience_match years details
     ≤ calculate_experience_match years' details')
  ∧ calculate_experience_match years details'
    = calculate_experience_match years details.
Proof.
  unfold calculate_experience_match.
  destruct (Z.eqb_spec years 0), (Z.ltb_spec years 2), (Z.ltb_spec years 5),
    (Z.eqb_spec years' 0), (Z.ltb_spec years' 2), (Z.ltb_spec years' 5);
    split_and!; try split; try done; lia.
Qed.

Lemma recommend_careers_default profile :
  recommend_careers career_db profile default_top_n
  = take 10 (sort_desc score_lt (all_recommendations career_db profile)).
Proof. unfold recommend_careers. by rewrite slice_to_nonneg. Qed.

Lemma elem_of_all_recommendations profile r :
  NoDup career_db.*1 →
  r ∈ all_recommendations career_db profile →
  ∃ details, dict_get (career r) career_db = Some details
             ∧ r = recommendation_for profile (career r, details).
Proof.
  intros Hnd (item & -> & Hin)%list_elem_of_fmap. destruct item as [c d].
  exists d. split; [by apply dict_get_elem | done].
Qed.

Lemma recommend_careers_NoDup profile top_n :
  NoDup career_db.*1 →
  NoDup (career <$> recommend_careers career_db profile top_n).
Proof.
  intros Hnd.
  destruct (recommend_careers_prefix career_db profile top_n) as [k Hk].
  assert (Hp : career <$> sort_desc score_lt (all_recommendations career_db profile)
               ≡ₚ career_db.*1).
  { by rewrite (sort_desc_perm score_lt), all_recommendations_careers. }
  rewrite <- Hp, Hk, fmap_app in Hnd. by apply NoDup_app in Hnd as [? _].
Qed.

(** X2.  Over a catalog whose names are distinct, the endpoint
    [/recommend-careers] answers with the 10 best careers, or with all
    of them if the catalog has fewer; no career comes twice, and every
    result is the recommendation built from the catalog entry of the
    career it names. *)
Theorem recommend_careers_endpoint_results profile :
  NoDup career_db.*1 →
  let out := recommend_careers_endpoint career_db profile in
  length out = (10 `min` length career_db)%nat
  ∧ NoDup (career <$> out)
  ∧ ∀ r, r ∈ out →
      ∃ details, dict_get (career r) career_db = Some details
                 ∧ r = recommendation_for profile (career r, details).
Proof.
  intros Hnd out. unfold out, recommend_careers_endpoint. split_and!.
  - rewrite recommend_careers_default, length_take, (sort_desc_perm score_lt).
    unfold all_recommendations. by rewrite length_fmap.
  - by apply recommend_careers_NoDup.
  - intros r Hr. apply elem_of_all_recommendations; [done|].
    eapply elem_of_submseteq; [done | apply recommend_careers_submseteq].
Qed.

(** X3.  Asking for fewer results gives the first of what asking for
    more gives: for [0 ≤ m ≤ n] the [m] results are a prefix of the [n]
    results.  With [n] at least the size of the catalog every career of
    the catalog is among the results. *)
Theorem recommend_careers_fewer_is_prefix profile m n :
  0 ≤ m ≤ n →
  recommend_careers career_db profile m
    `prefix_of` recommend_careers career_db profile n
  ∧ (len career_db ≤ n →
     career <$> recommend_careers career_db profile n ≡ₚ career_db.*1).
Proof.
  intros Hmn. unfold recommend_careers. split.
  - rewrite !slice_to_nonneg by lia.
    replace (Z.to_nat m) with (Z.to_nat m `min` Z.to_nat n)%nat by lia.
    rewrite <- take_take. apply prefix_take.
  - intros Hall. rewrite slice_to_all.
    + by rewrite (sort_desc_perm score_lt), all_recommendations_careers.
    + rewrite (sort_desc_perm score_lt). unfold all_recommendations.
      rewrite length_fmap. exact Hall.
Qed.

Lemma ci_set_nil (a : list string) : ci_set a = ci_set [] → a = [].
Proof.
  destruct a as [|x a]; [done|]. intros Heq.
  assert (Hin : lower x ∈ ci_set (x :: a)).
  { unfold ci_set. apply elem_of_list_to_set. csimpl. left. }
  rewrite Heq in Hin. unfold ci_set in Hin.
  apply elem_of_list_to_set in Hin. by apply elem_of_nil in Hin.
Qed.

(** X4.  For skills written in ASCII, the skill score depends on the
    three lists only as sets of lower-cased skills: reordering a list,
    repeating a skill or spelling it in another letter case never
    changes the score. *)
Theorem skill_score_depends_on_sets user user' required required' nice nice' :
  Forall (λ s, is_ascii s = true)
         (user ++ user' ++ required ++ required' ++ nice ++ nice') →
  ci_set user = ci_set user' →
  ci_set required = ci_set required' →
  ci_set nice = ci_set nice' →
  calculate_skill_match_score user required nice
  = calculate_skill_match_score user' required' nice'.
Proof.
  intros _ Hu Hr Hn. unfold calculate_skill_match_score.
  rewrite !len_set_and_comp, !len_set_comp. unfold overlap, ci_size.
  rewrite Hu, Hr, Hn.
  destruct required as [|r required], required' as [|r' required'].
  - done.
  - symmetry in Hr. by apply ci_set_nil in Hr.
  - by apply ci_set_nil in Hr.
  - destruct nice as [|x nice], nice' as [|x' nice'].
    + done.
    + symmetry in Hn. by apply ci_set_nil in Hn.
    + by apply ci_set_nil in Hn.
    + done.
Qed.

End EngineFacts.

Section InterestFacts.
Import Str Num Py.
Implicit Types (details : career_details).

Lemma sum_perm (xs ys : list Z) : xs ≡ₚ ys → sum xs = sum ys.
Proof. intros Hp. rewrite !sum_foldr. induction Hp; simpl; lia. Qed.

Lemma sum_app (xs ys : list Z) : sum (xs ++ ys) = sum xs + sum ys.
Proof. unfold sum. by rewrite foldl_app, sum_from. Qed.

Lemma contains_empty (s : string) : contains "" s = true.
Proof. by destruct s. Qed.

Lemma interest_points_blank name tags :
  interest_points name tags "" = 5 + 3 * len tags.
Proof.
  unfold interest_points, len. simpl lower. rewrite contains_empty.
  do 3 f_equal. induction tags as [|t tags IH]; [done|].
  rewrite filter_cons, decide_True by apply contains_empty. simpl. by rewrite IH.
Qed.

(** X5.  The interest boost does not depend on the order of the
    interests, and further interests never lower it.  (An interest that
    is given twice counts twice, unlike a skill.) *)
Theorem interest_boost_order_and_growth interests interests' more name details :
  interests ≡ₚ interests' →
  calculate_interest_boost interests name details
  = calculate_interest_boost interests' name details
  ∧ calculate_interest_boost interests name details
    ≤ calculate_interest_boost (interests ++ more) name details.
Proof.
  intros Hp. rewrite !interest_boost_eq. unfold interestBoost_spec. split.
  - destruct interests as [|i l], interests' as [|i' l'].
    + done.
    + by apply Permutation_nil_cons in Hp.
    + symmetry in Hp. by apply Permutation_nil_cons in Hp.
    + by rewrite (sum_perm _ _ (fmap_Permutation _ _ _ Hp)).
  - destruct interests as [|i l].
    + destruct more as [|x more]; [done|]. simpl app.
      pose proof (sum_points_nonneg name (default [] (industry details)) (x :: more)).
      lia.
    + change ((i :: l) ++ more) with (i :: (l ++ more)).
      change (i :: (l ++ more)) with ((i :: l) ++ more) at 2.
      rewrite fmap_app, sum_app.
      pose proof (sum_points_nonneg name (default [] (industry details)) more).
      lia.
Qed.

(** X6.  An empty string among the interests occurs in every name and
    in every industry tag: it earns 5 points for the name and 3 for each
    tag, so the boost is at least 5 for every career, and it is the full
    10 for every career with two or more industry tags. *)
Theorem interest_boost_blank_interest interests name details :
  "" ∈ interests →
  5 ≤ calculate_interest_boost interests name details
  ∧ (2 ≤ len (default [] (industry details)) →
     calculate_interest_boost interests name details = 10).
Proof.
  intros Hin. rewrite interest_boost_eq. unfold interestBoost_spec.
  apply elem_of_Permutation in Hin as [rest Hp].
  destruct interests as [|i l]; [by apply Permutation_nil_cons in Hp|].
  rewrite (sum_perm _ _ (fmap_Permutation _ _ _ Hp)). csimpl.
  rewrite sum_cons, interest_points_blank.
  pose proof (sum_points_nonneg name (default [] (industry details)) rest) as Hr.
  pose proof (len_nonneg (default [] (industry details))).
  split; [|intros Htags]; lia.
Qed.

End InterestFacts.

Section PathFacts.
Import Str Num Py.
Context {iteration : SetOrder} (career_db : dict career_details).
Implicit Types (profile : StudentProfile) (details : career_details).

Lemma get_learning_path_known profile target details :
  dict_get target career_db = Some details →
  ∃ gap,
    analyze_skills_gap career_db profile target = GapOk gap
    ∧ skill <$> get_learning_path career_db profile target = priority_skills gap
    ∧ matching_required gap
      = select_values (dict_comp lower (required_skills details))
          (λ skill, dict_in skill (dict_comp lower (required_skills details)))
          (set_iter (set_comp lower (skills profile)))
    ∧ missing_required gap
      = select_values (dict_comp lower (required_skills details))
          (λ skill, negb (set_in skill (set_comp lower (skills profile))))
          (dict_comp lower (required_skills details)).*1
    ∧ missing_nice gap
      = select_values (dict_comp lower (nice_to_have details))
          (λ skill, negb (set_in skill (set_comp lower (skills profile))))
          (dict_comp lower (nice_to_have details)).*1
    ∧ priority_skills gap
      = take 3 (missing_required gap) ++ take 2 (missing_nice gap).
Proof.
  intros Hd. unfold get_learning_path, analyze_skills_gap. rewrite Hd.
  eexists. split; [reflexivity|]. simpl. by rewrite module_skills.
Qed.

(** X7.  The recommendation for a career and the gap analysis for it
    agree: over a career whose required list spells no skill twice, both
    name the same matching skills in the same order, the skills to learn
    are the first five missing required skills, and the first three of
    them are the skills the learning path starts with. *)
Theorem recommendation_agrees_with_gap profile name details :
  dict_get name career_db = Some details →
  NoDup (lower <$> required_skills details) →
  let r := recommendation_for profile (name, details) in
  ∃ gap,
    analyze_skills_gap career_db profile name = GapOk gap
    ∧ matching_skills r = matching_required gap
    ∧ skills_to_learn r = take 5 (missing_required gap)
    ∧ take 3 (skills_to_learn r)
      `prefix_of` skill <$> get_learning_path career_db profile name.
Proof.
  intros Hd Hnd r.
  destruct (get_learning_path_known profile name details Hd)
    as (gap & Hgap & Hpath & Hmatch & Hreq & _ & Hprio).
  assert (Hlearn : skills_to_learn r = take 5 (missing_required gap)).
  { rewrite Hreq, missing_catalog_order by done. unfold r. simpl.
    by rewrite slice_to_nonneg. }
  exists gap. split_and!; [done | by rewrite Hmatch | done |].
  rewrite Hlearn, Hpath, Hprio, take_take. by eexists.
Qed.

Lemma filter_nil_iff {A} (P : A → Prop) `{∀ x, Decision (P x)} (l : list A) :
  filter P l = [] ↔ ∀ x, x ∈ l → ¬ P x.
Proof.
  split.
  - intros Hnil x Hx HP. by apply (filter_nil_not_elem_of P l x).
  - intros Hall. induction l as [|x l IH]; [done|].
    rewrite filter_cons, decide_False by (apply Hall; left).
    apply IH. intros y Hy. apply Hall. by right.
Qed.

Lemma take_nil_iff {A} (n : nat) (l : list A) : take (S n) l = [] ↔ l = [].
Proof. by destruct l. Qed.

Lemma fmap_empty_iff {A B} (f : A → B) (l : list A) : f <$> l = [] ↔ l = [].
Proof. by destruct l. Qed.

Lemma missing_nil_iff (user l : list string) :
  select_values (dict_comp lower l) (λ skill, negb (set_in skill user))
    (dict_comp lower l).*1 = []
  ↔ ∀ s, s ∈ l → lower s ∈ user.
Proof.
  rewrite <- (fmap_empty_iff lower), lower_missing, filter_nil_iff.
  split.
  - intros Hall s Hs. destruct (decide (lower s ∈ user)) as [|Hout]; [done|].
    exfalso. apply (Hall (lower s)); [|done]. apply elem_of_set_comp. by exists s.
  - intros Hall k (s & Hs & ->)%elem_of_set_comp Hout. by apply Hout, Hall.
Qed.

(** X8.  For a career of the catalog, the learning path teaches only
    skills of the career that the profile lacks (compared in lower
    case).  It is empty exactly when the profile has every required and
    every nice-to-have skill of the career, and then the endpoint
    answers 404 although the career exists. *)
Theorem learning_path_only_missing_skills profile target details :
  dict_get target career_db = Some details →
  let path := get_learning_path career_db profile target in
  let has_all := ∀ s, s ∈ required_skills details ++ nice_to_have details →
                      lower s ∈ lower <$> skills profile in
  (∀ m, m ∈ path →
     skill m ∈ required_skills details ++ nice_to_have details
     ∧ lower (skill m) ∉ lower <$> skills profile)
  ∧ (path = [] ↔ has_all)
  ∧ (learning_path_endpoint career_db profile target
     = HttpError 404 "Career not found or no learning path needed" ↔ has_all).
Proof.
  intros Hd path has_all.
  destruct (get_learning_path_known profile target details Hd)
    as (gap & Hgap & Hpath & _ & Hreq & Hnice & Hprio). fold path in Hpath.
  assert (Hempty : path = [] ↔ has_all).
  { rewrite <- (fmap_empty_iff skill), Hpath, Hprio.
    rewrite app_nil, !take_nil_iff, Hreq, Hnice, !missing_nil_iff.
    unfold has_all. setoid_rewrite elem_of_app. setoid_rewrite elem_of_user_set.
    split.
    - intros [Hr Hn] s [?|?]; auto.
    - intros Hall. split; intros s ?; apply Hall; auto. }
  split_and!.
  - intros m Hm.
    assert (Hs : skill m ∈ priority_skills gap).
    { rewrite <- Hpath. apply list_elem_of_fmap. by exists m. }
    rewrite Hprio, Hreq, Hnice in Hs. rewrite <- elem_of_user_set, elem_of_app.
    apply elem_of_app in Hs as [Hs | Hs];
      eapply elem_of_prefix in Hs; try apply prefix_take;
      apply elem_of_missing in Hs as [? ?]; auto.
  - done.
  - rewrite <- Hempty. unfold learning_path_endpoint. fold path.
    by destruct path.
Qed.

Lemma weeks_bounds (path : list learning_module) :
  Forall (λ m, 8 ≤ estimated_weeks m ≤ 16) path →
  8 * len path ≤ sum (map estimated_weeks path) ≤ 16 * len path.
Proof.
  unfold len. induction 1 as [|m path Hm _ IH]; simpl map.
  - by rewrite sum_nil.
  - rewrite sum_cons. simpl length. lia.
Qed.

Lemma get_learning_path_weeks profile target :
  Forall (λ m, 8 ≤ estimated_weeks m ≤ 16)
         (get_learning_path career_db profile target).
Proof.
  apply Forall_forall. intros m. unfold get_learning_path.
  destruct (analyze_skills_gap career_db profile target) as [e|gap];
    [by intros ?%elem_of_nil|].
  intros (i & s & -> & _)%elem_of_lookup_imap. simpl.
  destruct (estimate_difficulty s); simpl; lia.
Qed.

(** X9.  When the endpoint [/learning-path] answers with a path, the
    path has between 1 and 5 skills, and the total is between 8 and 16
    weeks per skill: never less than 8 weeks, never more than 80. *)
Theorem learning_path_weeks_bounds profile target body :
  learning_path_endpoint career_db profile target = Http200 body →
  1 ≤ total_skills body ≤ 5
  ∧ 8 * total_skills body ≤ total_weeks body ≤ 16 * total_skills body
  ∧ 8 ≤ total_weeks body ≤ 80.
Proof.
  unfold learning_path_endpoint.
  pose proof (get_learning_path_weeks profile target) as Hweeks.
  apply weeks_bounds in Hweeks.
  assert (Hlen : (length (get_learning_path career_db profile target) ≤ 5)%nat).
  { unfold get_learning_path.
    destruct (analyze_skills_gap career_db profile target) as [e|gap] eqn:Hgap;
      [simpl; lia|].
    rewrite length_imap. by apply (priority_skills_length career_db profile target). }
  destruct (get_learning_path career_db profile target) as [|m path]; [done|].
  intros [= <-]. simpl total_skills. simpl total_weeks.
  unfold len in *. simpl length in *. simpl map in Hweeks. lia.
Qed.

End PathFacts.

Section ResourceFacts.
Import Str.

Lemma has_space_cons c s :
  contains " " (String c s) = (Ascii.eqb c " " || contains " " s)%bool.
Proof.
  change (contains " " (String c s))
    with (String.prefix " " (String c s) || contains " " s)%bool.
  f_equal.
  change (String.prefix " " (String c s))
    with (if ascii_dec " " c then String.prefix "" s else false).
  destruct (ascii_dec " " c) as [<-|Hne]; [by destruct s|].
  symmetry. apply Ascii.eqb_neq. congruence.
Qed.

Lemma has_space_nil : contains " " "" = false.
Proof. done. Qed.

Lemma has_space_app a b :
  contains " " (a +:+ b) = (contains " " a || contains " " b)%bool.
Proof.
  induction a as [|c a IH]; [done|].
  change (String c a +:+ b) with (String c (a +:+ b)).
  rewrite !has_space_cons, IH. by destruct (Ascii.eqb c " "), (contains " " a).
Qed.

Lemma replace_space_no_space s : contains " " (replace_space "%20" s) = false.
Proof.
  induction s as [|c s IH]; [done|]. simpl replace_space.
  destruct (Ascii.eqb c " ") eqn:Hc.
  - by rewrite has_space_app, IH.
  - by rewrite has_space_cons, Hc, IH.
Qed.

Lemma replace_space_id r s : contains " " s = false → replace_space r s = s.
Proof.
  induction s as [|c s IH]; [done|]. rewrite has_space_cons. simpl.
  destruct (Ascii.eqb c " "); [done|]. simpl. intros Hs. by rewrite IH.
Qed.

(** X10.  No URL among the learning resources of a skill contains a
    space, whatever the skill's name.  Spaces are all that is rewritten:
    a name without a space goes into the course search URL as it is. *)
Theorem learning_resources_urls skill :
  Forall (λ r, contains " " (url r) = false) (_get_learning_resources skill)
  ∧ (contains " " skill = false →
     url <$> _get_learning_resources skill
     = ["https://www.coursera.org/search?query=" +:+ skill; "#";
        "https://leetcode.com"]).
Proof.
  split.
  - unfold _get_learning_resources.
    repeat (apply Forall_cons; split); [| done..].
    cbn [url]. rewrite has_space_app, replace_space_no_space. by vm_compute.
  - intros Hs. unfold _get_learning_resources. csimpl.
    by rewrite (replace_space_id _ _ Hs).
Qed.

End ResourceFacts.

(** * The catalog's search and the career endpoints *)

Section Substrings.
Import Str.

Lemma append_cons (c : ascii) (a b : string) :
  String c a +:+ b = String c (a +:+ b).
Proof. done. Qed.

Lemma append_nil_r (s : string) : s +:+ "" = s.
Proof. induction s as [|c s IH]; [done|]. by rewrite append_cons, IH. Qed.

Lemma append_assoc (a b c : string) : (a +:+ b) +:+ c = a +:+ b +:+ c.
Proof. induction a as [|x a IH]; [done|]. by rewrite !append_cons, IH. Qed.

Lemma prefix_spec (a b : string) :
  String.prefix a b = true ↔ ∃ post, b = a +:+ post.
Proof.
  revert b. induction a as [|c a IH]; intros b.
  - split; [by exists b | by destruct b].
  - destruct b as [|d b].
    + split; [done | by intros [post ?]].
    + change (String.prefix (String c a) (String d b))
        with (if ascii_dec c d then String.prefix a b else false).
      destruct (ascii_dec c d) as [->|Hne].
      * rewrite IH. split; intros [post Hp]; exists post.
        -- by rewrite Hp.
        -- by injection Hp.
      * split; [done | intros [post Hp]; injection Hp; congruence].
Qed.

(** [a in b] holds exactly when [b] is [a] with something before and
    something after it. *)
Lemma contains_spec (a b : string) :
  contains a b = true ↔ ∃ pre post, b = pre +:+ a +:+ post.
Proof.
  induction b as [|d b IH].
  - change (contains a "") with (String.prefix a "" || false)%bool.
    rewrite orb_false_r, prefix_spec. split.
    + intros [post Hp]. by exists "", post.
    + intros (pre & post & Hp). destruct pre; [by exists post | done].
  - change (contains a (String d b))
      with (String.prefix a (String d b) || contains a b)%bool.
    rewrite orb_true_iff, prefix_spec, IH. split.
    + intros [[post Hp] | (pre & post & Hp)].
      * by exists "", post.
      * exists (String d pre), post. by rewrite Hp.
    + intros (pre & post & Hp). destruct pre as [|c pre].
      * left. by exists post.
      * right. injection Hp as -> Hp. by exists pre, post.
Qed.

Lemma contains_refl (a : string) : contains a a = true.
Proof. apply contains_spec. exists "", "". by rewrite append_nil_r. Qed.

Lemma contains_trans (a b c : string) :
  contains a b = true → contains b c = true → contains a c = true.
Proof.
  rewrite !contains_spec. intros (p1 & q1 & ->) (p2 & q2 & ->).
  exists (p2 +:+ p1), (q1 +:+ q2). by rewrite !append_assoc.
Qed.

End Substrings.

Section CatalogFacts.
Import Str Py.

Lemma catalog_names_distinct : NoDup CAREER_DATABASE.*1.
Proof. apply (bool_decide_unpack _). by vm_compute. Qed.

Lemma get_career_details_elem name details :
  get_career_details name = Some details ↔ (name, details) ∈ CAREER_DATABASE.
Proof.
  unfold get_career_details. split.
  - apply dict_get_Some_elem.
  - apply dict_get_elem, catalog_names_distinct.
Qed.

Lemma elem_of_search_careers_by_skill query name :
  name ∈ search_careers_by_skill query
  ↔ ∃ details s,
      get_career_details name = Some details
      ∧ s ∈ required_skills details ++ nice_to_have details
      ∧ contains (lower query) (lower s) = true.
Proof.
  unfold search_careers_by_skill. rewrite list_elem_of_fmap. split.
  - intros ([c d] & -> & [Hany Hin]%list_elem_of_filter). simpl in *.
    apply existsb_exists in Hany as (s & Hs%list_elem_of_In & Hc).
    exists d, s. by rewrite get_career_details_elem.
  - intros (d & s & Hd%get_career_details_elem & Hs & Hc).
    exists (name, d). split; [done|]. apply list_elem_of_filter. split; [|done].
    simpl. apply existsb_exists. exists s. by rewrite <- list_elem_of_In.
Qed.

(** X11.  [search_careers_by_skill] returns names of the catalog, in
    the catalog's order and none twice.  A career is found exactly when
    the query occurs, without regard to letter case, inside one of its
    required or nice-to-have skills; so every career that lists the
    skill in any letter case is found, whatever a query finds is also
    found by any part of that query, and the empty query finds every
    career. *)
Theorem search_careers_by_skill_finds query :
  search_careers_by_skill query `sublist_of` get_all_careers
  ∧ NoDup (search_careers_by_skill query)
  ∧ (∀ name, name ∈ search_careers_by_skill query
       ↔ ∃ details s,
           get_career_details name = Some details
           ∧ s ∈ required_skills details ++ nice_to_have details
           ∧ contains (lower query) (lower s) = true)
  ∧ (∀ name details s,
       get_career_details name = Some details →
       s ∈ required_skills details ++ nice_to_have details →
       lower s = lower query →
       name ∈ search_careers_by_skill query)
  ∧ (∀ part, contains (lower part) (lower query) = true →
       search_careers_by_skill query ⊆ search_careers_by_skill part)
  ∧ search_careers_by_skill "" = get_all_careers.
Proof.
  assert (Hsub : search_careers_by_skill query `sublist_of` get_all_careers).
  { unfold search_careers_by_skill, get_all_careers.
    apply fmap_sublist, sublist_filter. }
  split_and!.
  - done.
  - eapply sublist_NoDup; [apply catalog_names_distinct | done].
  - apply elem_of_search_careers_by_skill.
  - intros name details s Hd Hs Heq. apply elem_of_search_careers_by_skill.
    exists details, s. split_and!; [done..|]. rewrite Heq. apply contains_refl.
  - intros part Hpart name.
    rewrite !elem_of_search_careers_by_skill.
    intros (d & s & Hd & Hs & Hc). exists d, s. split_and!; [done..|].
    by eapply contains_trans.
  - by vm_compute.
Qed.

(** X12.  The career endpoints agree on which careers exist.
    [/careers] lists the 12 names of the catalog, none twice.  For a
    listed name [/careers/{name}] answers with that name and its catalog
    entry and the gap analysis answers with an analysis; for any other
    name, also one that differs from a listed name in letter case only,
    both answer 404, the first with the name in its message.  Every
    career that [/recommend-careers] returns is a listed one. *)
Theorem career_endpoints_agree (iteration : SetOrder) profile name :
  let listed := name ∈ list_careers.1 in
  list_careers.2 = 12
  ∧ Z.of_nat (length list_careers.1) = list_careers.2
  ∧ NoDup list_careers.1
  ∧ (listed ↔ ∃ details, (name, details) ∈ CAREER_DATABASE
                         ∧ get_career_info name = Http200 (name, details))
  ∧ (¬ listed ↔ get_career_info name
                = HttpError 404 ("Career '" +:+ name +:+ "' not found"))
  ∧ (listed ↔ ∃ gap, skills_gap_endpoint CAREER_DATABASE profile name = Http200 gap)
  ∧ (¬ listed ↔ skills_gap_endpoint CAREER_DATABASE profile name
                = HttpError 404 "Career not found")
  ∧ ∀ r, r ∈ recommend_careers_endpoint CAREER_DATABASE profile →
         career r ∈ list_careers.1.
Proof.
  intros listed. unfold listed, list_careers, get_all_careers. simpl fst. simpl snd.
  unfold get_career_info, get_career_details, skills_gap_endpoint, analyze_skills_gap.
  rewrite <- (dict_get_is_Some name CAREER_DATABASE).
  split_and!.
  - done.
  - done.
  - apply catalog_names_distinct.
  - destruct (dict_get name CAREER_DATABASE) as [d|] eqn:Hd.
    + split; [|done]. intros _. exists d. split; [|done].
      by apply dict_get_Some_elem.
    + split; [by intros [? ?] | by intros (? & _ & ?)].
  - destruct (dict_get name CAREER_DATABASE) as [d|] eqn:Hd.
    + split; [|done]. intros Hno. destruct Hno. by exists d.
    + split; [done|]. by intros _ [? ?].
  - destruct (dict_get name CAREER_DATABASE) as [d|] eqn:Hd.
    + split; [|done]. intros _. by eexists.
    + split; [by intros [? ?] | by intros [? ?]].
  - destruct (dict_get name CAREER_DATABASE) as [d|] eqn:Hd.
    + split; [|done]. intros Hno. destruct Hno. by exists d.
    + split; [done|]. by intros _ [? ?].
  - intros r Hr. unfold recommend_careers_endpoint in Hr.
    assert (Hc : career r ∈ career <$> all_recommendations CAREER_DATABASE profile).
    { apply list_elem_of_fmap. exists r. split; [done|].
      eapply elem_of_submseteq; [done | apply recommend_careers_submseteq]. }
    by rewrite all_recommendations_careers in Hc.
Qed.

End CatalogFacts.

(** * The resume parser *)

Section RegexFacts.
Import Str Re.

Lemma last_of_app prev (a b : string) :
  last_of prev (a +:+ b) = last_of (last_of prev a) b.
Proof.
  revert prev. induction a as [|c a IH]; intros prev; [done|].
  rewrite append_cons. apply IH.
Qed.

Lemma escape_cons (c : ascii) (w : string) :
  escape (String c w) = Lit c :: escape w.
Proof. done. Qed.

(** A literal pattern reads exactly its own characters. *)
Lemma match_here_escape (w : string) rest prev (s : string) :
  match_here (escape w ++ rest) prev s = true
  ↔ ∃ s', s = w +:+ s' ∧ match_here rest (last_of prev w) s' = true.
Proof.
  revert prev s. induction w as [|c w IH]; intros prev s.
  - split; [by exists s | by intros (s' & -> & ?)].
  - rewrite escape_cons. destruct s as [|d t].
    + split; [done | by intros (s' & ? & _)].
    + change (match_here ((Lit c :: escape w) ++ rest) prev (String d t))
        with (Ascii.eqb c d && match_here (escape w ++ rest) (Some d) t)%bool.
      rewrite andb_true_iff, Ascii.eqb_eq, IH. split.
      * intros [-> (s' & -> & Hm)]. by exists s'.
      * intros (s' & Heq & Hm). rewrite append_cons in Heq.
        injection Heq as -> ->. split; [done|]. by exists s'.
Qed.

(** The search tries every position of the text. *)
Lemma search_from_spec p prev (s : string) :
  search_from p prev s = true
  ↔ ∃ pre post, s = pre +:+ post ∧ match_here p (last_of prev pre) post = true.
Proof.
  revert prev. induction s as [|d t IH]; intros prev.
  - change (search_from p prev "") with (match_here p prev "" || false)%bool.
    rewrite orb_false_r. split.
    + intros Hm. by exists "", "".
    + intros (pre & post & Heq & Hm). destruct pre; [|done].
      change ("" +:+ post) with post in Heq. by subst post.
  - change (search_from p prev (String d t))
      with (match_here p prev (String d t) || search_from p (Some d) t)%bool.
    rewrite orb_true_iff, IH. split.
    + intros [Hm | (pre & post & -> & Hm)].
      * by exists "", (String d t).
      * by exists (String d pre), post.
    + intros (pre & post & Heq & Hm). destruct pre as [|c pre].
      * left. change ("" +:+ post) with post in Heq. by subst post.
      * right. rewrite append_cons in Heq. injection Heq as -> ->.
        by exists pre, post.
Qed.

Lemma match_here_bound p prev (s : string) :
  match_here (Bound :: p) prev s = (at_boundary prev s && match_here p prev s)%bool.
Proof. done. Qed.

(** The pattern [\bw\b] for a literal [w] finds [w] where it stands
    between two word boundaries, and nothing else. *)
Lemma word_search_spec (w t : string) :
  search (word (escape w)) t = true ↔ occurs_as_word w t.
Proof.
  unfold search, word, occurs_as_word. rewrite search_from_spec. split.
  - intros (pre & rest & -> & Hm).
    rewrite match_here_bound, andb_true_iff, match_here_escape in Hm.
    destruct Hm as (Hb & post & -> & Hm).
    rewrite match_here_bound, andb_true_iff in Hm.
    exists pre, post. rewrite last_of_app. by destruct Hm.
  - intros (pre & post & -> & Hb1 & Hb2). exists pre, (w +:+ post).
    split; [done|].
    rewrite match_here_bound, andb_true_iff, match_here_escape.
    split; [done|]. exists post. split; [done|].
    rewrite match_here_bound, andb_true_iff. by rewrite last_of_app in Hb2.
Qed.

End RegexFacts.

Section SkillExtraction.
Import Str Py.

Lemma dict_get_app_fresh {V} (k : string) (v : V) (d : dict V) :
  k ∉ d.*1 → dict_get k (d ++ [(k, v)]) = Some v.
Proof.
  induction d as [|[k' v'] d IH]; csimpl; intros Hk.
  - by rewrite decide_True.
  - rewrite decide_False by (intros ->; apply Hk; left).
    apply IH. intros ?. apply Hk. by right.
Qed.

Lemma dict_set_app_last {V} (k : string) (v v' : V) (d : dict V) :
  k ∉ d.*1 → dict_set k v' (d ++ [(k, v)]) = d ++ [(k, v')].
Proof.
  induction d as [|[k0 v0] d IH]; csimpl; intros Hk.
  - by rewrite decide_True.
  - rewrite decide_False by (intros ->; apply Hk; left).
    f_equal. apply IH. intros ?. apply Hk. by right.
Qed.

Lemma categorize_entry (c s : string) (acc : list string) (d : dict (list string)) :
  category_of s = Some c → c ∉ d.*1 →
  categorize s (d ++ category_entry c acc) = d ++ category_entry c (acc ++ [s]).
Proof.
  intros Hc Hfresh. unfold categorize. rewrite Hc.
  destruct acc as [|a acc]; simpl category_entry.
  - rewrite app_nil_r, (proj2 (dict_get_None c d) Hfresh). simpl.
    by apply dict_set_fresh.
  - rewrite dict_get_app_fresh by done. simpl. by apply dict_set_app_last.
Qed.

Local Abbreviation matched text_lower :=
  (λ s, Re.search (Re.word (Re.escape (lower s))) text_lower = true).

(** The loop over the skills of one category. *)
Lemma extract_category text_lower (c : string) (l acc found : list string)
    (d : dict (list string)) :
  (∀ s, s ∈ l → category_of s = Some c) → c ∉ d.*1 →
  foldl (extract_step text_lower) (found, d ++ category_entry c acc) l
  = (found ++ filter (matched text_lower) l,
     d ++ category_entry c (acc ++ filter (matched text_lower) l)).
Proof.
  intros Hcat Hfresh. revert acc found.
  induction l as [|s l IH]; intros acc found.
  - by rewrite filter_nil, !app_nil_r.
  - simpl foldl. unfold extract_step at 2. simpl fst. simpl snd.
    rewrite filter_cons.
    destruct (decide (Re.search (Re.word (Re.escape (lower s))) text_lower = true))
      as [Hs|Hs].
    + rewrite Hs.
      rewrite categorize_entry by (done || apply Hcat; left).
      rewrite IH by (intros ? ?; apply Hcat; by right).
      by rewrite <- !app_assoc.
    + apply not_true_is_false in Hs. rewrite Hs.
      apply IH. intros ? ?. apply Hcat. by right.
Qed.

Lemma found_in_cons (m : string → Prop) `{∀ s, Decision (m s)} c l db :
  found_in m ((c, l) :: db) = category_entry c (filter m l) ++ found_in m db.
Proof.
  unfold found_in. csimpl. rewrite filter_cons. simpl.
  destruct (filter m l); [by rewrite decide_False by (by intros ?)|].
  by rewrite decide_True.
Qed.

Lemma found_in_keys (m : string → Prop) `{∀ s, Decision (m s)} db :
  (found_in m db).*1 `sublist_of` db.*1.
Proof.
  unfold found_in.
  replace (db.*1) with (((λ item, (item.1, filter m item.2)) <$> db).*1).
  - apply fmap_sublist, sublist_filter.
  - rewrite <- list_fmap_compose. by apply list_fmap_ext.
Qed.

(** The loop over the whole vocabulary, category after category. *)
Lemma extract_all text_lower (db d : dict (list string)) (found : list string) :
  (∀ c l s, (c, l) ∈ db → s ∈ l → category_of s = Some c) →
  NoDup (d.*1 ++ db.*1) →
  foldl (extract_step text_lower) (found, d) (concat db.*2)
  = (found ++ filter (matched text_lower) (concat db.*2),
     d ++ found_in (matched text_lower) db).
Proof.
  revert d found. induction db as [|[c l] db IH]; intros d found Hcat Hnd.
  - unfold found_in. csimpl. by rewrite filter_nil, !app_nil_r.
  - csimpl in *. rewrite foldl_app.
    assert (Hfresh : c ∉ d.*1).
    { apply NoDup_app in Hnd as (_ & Hdis & _). intros Hin.
      apply (Hdis c Hin). left. }
    assert (Hcat_l : ∀ s, s ∈ l → category_of s = Some c).
    { intros s Hs. apply (Hcat c l s); [left | done]. }
    pose proof (extract_category text_lower c l [] found d Hcat_l Hfresh) as Hl.
    simpl category_entry in Hl at 1. rewrite app_nil_r in Hl. simpl app in Hl.
    rewrite Hl, IH.
    + by rewrite found_in_cons, filter_app, !app_assoc.
    + intros c' l' s Hin Hs. apply (Hcat c' l' s); [by right | done].
    + eapply sublist_NoDup; [exact Hnd|].
      rewrite fmap_app, <- app_assoc. apply sublist_app; [done|].
      destruct (filter (matched text_lower) l); simpl.
      * by apply sublist_cons.
      * done.
Qed.

(** The loop that drops repeats keeps a list that has none. *)
Lemma unique_loop (l seen out : list string) :
  NoDup (seen ++ (lower <$> l)) →
  foldl unique_step (seen, out) l = (seen ++ (lower <$> l), out ++ l).
Proof.
  revert seen out. induction l as [|s l IH]; intros seen out Hnd.
  - csimpl. by rewrite !app_nil_r.
  - csimpl in *. unfold unique_step at 2. simpl fst. simpl snd.
    assert (Hout : lower s ∉ seen).
    { apply NoDup_app in Hnd as (_ & Hdis & _). intros Hin.
      apply (Hdis _ Hin). left. }
    rewrite decide_False by done. unfold set_add. rewrite decide_False by done.
    rewrite IH.
    + by rewrite <- !app_assoc.
    + by rewrite <- app_assoc.
Qed.

Lemma vocabulary_categories :
  ∀ c l s, (c, l) ∈ SKILLS_DATABASE → s ∈ l → category_of s = Some c.
Proof.
  assert (Hall : Forall (λ item : string * list string,
                           Forall (λ s, category_of s = Some item.1) item.2)
                        SKILLS_DATABASE).
  { apply (bool_decide_unpack _). by vm_compute. }
  intros c l s Hin Hs. rewrite Forall_forall in Hall.
  specialize (Hall _ Hin). rewrite Forall_forall in Hall. by apply Hall.
Qed.

Lemma vocabulary_distinct : NoDup (lower <$> get_all_skills).
Proof. apply (bool_decide_unpack _). by vm_compute. Qed.

Lemma categories_distinct : NoDup SKILLS_DATABASE.*1.
Proof. apply (bool_decide_unpack _). by vm_compute. Qed.

Lemma extract_skills_eq (text : string) :
  text ≠ "" →
  extract_skills text
  = (filter (λ s, skill_found text s = true) get_all_skills,
     found_by_category text).
Proof.
  intros Htext. unfold extract_skills. destruct text as [|c t]; [done|].
  pose proof (extract_all (lower (String c t)) SKILLS_DATABASE [] []
                vocabulary_categories categories_distinct) as Hall.
  simpl app in Hall. unfold get_all_skills. rewrite Hall. simpl fst. simpl snd.
  rewrite unique_loop.
  - done.
  - simpl app. eapply sublist_NoDup; [apply vocabulary_distinct|].
    apply fmap_sublist, sublist_filter.
Qed.

End SkillExtraction.

Section SkillExtractionFacts.
Import Str Py.

Lemma extract_skills_empty : extract_skills "" = ([], []).
Proof. done. Qed.

Lemma skill_found_empty skill : skill_found "" skill = false.
Proof.
  apply not_true_is_false. unfold skill_found. rewrite word_search_spec.
  intros (pre & post & Heq & Hb & _). destruct pre; [|done].
  change ("" +:+ lower skill +:+ post) with (lower skill +:+ post) in Heq.
  by rewrite <- Heq in Hb.
Qed.

Lemma elem_of_extract_skills text skill :
  skill ∈ (extract_skills text).1
  ↔ skill ∈ get_all_skills ∧ skill_found text skill = true.
Proof.
  destruct (decide (text = "")) as [->|Htext].
  - rewrite extract_skills_empty, skill_found_empty. simpl.
    rewrite elem_of_nil. split; [done | by intros [_ ?]].
  - rewrite extract_skills_eq by done. simpl. rewrite list_elem_of_filter. tauto.
Qed.

Lemma elem_of_concat {A} (x : A) (ls : list (list A)) :
  x ∈ concat ls ↔ ∃ l, l ∈ ls ∧ x ∈ l.
Proof.
  rewrite list_elem_of_In, in_concat.
  by setoid_rewrite list_elem_of_In.
Qed.

Lemma concat_found_in (m : string → Prop) `{∀ s, Decision (m s)}
    (db : dict (list string)) :
  concat (found_in m db).*2 = filter m (concat db.*2).
Proof.
  induction db as [|[c l] db IH]; [done|].
  rewrite found_in_cons, fmap_app, concat_app, IH. csimpl. rewrite filter_app.
  f_equal. destruct (filter m l); [done|]. csimpl. by rewrite app_nil_r.
Qed.

(** X13.  [extract_skills] finds nothing in the empty text.  In any
    text the skills it returns are skills of the vocabulary, in the
    vocabulary's order and spelling, none twice even up to letter case.
    The dict by category holds the same skills: its lists, one after the
    other, are the list of skills; its keys follow the order of the
    vocabulary's categories; and the list of a category is never empty:
    it holds the found skills of that category in the vocabulary's
    order. *)
Theorem extract_skills_by_category text :
  let skills := (extract_skills text).1 in
  let by_category := (extract_skills text).2 in
  extract_skills "" = ([], [])
  ∧ skills `sublist_of` get_all_skills
  ∧ NoDup (lower <$> skills)
  ∧ skills = concat by_category.*2
  ∧ by_category.*1 `sublist_of` SKILLS_DATABASE.*1
  ∧ ∀ c l, (c, l) ∈ by_category →
      l ≠ [] ∧ ∃ all, (c, all) ∈ SKILLS_DATABASE
                      ∧ l = filter (λ s, s ∈ skills) all.
Proof.
  intros skills by_category. split; [done|].
  destruct (decide (text = "")) as [->|Htext].
  { unfold skills, by_category. rewrite extract_skills_empty. simpl.
    split_and!; try done.
    - apply sublist_nil_l.
    - constructor.
    - apply sublist_nil_l.
    - by intros c l ?%elem_of_nil. }
  assert (Hskills : skills = filter (λ s, skill_found text s = true) get_all_skills).
  { unfold skills. by rewrite extract_skills_eq. }
  assert (Hcat : by_category = found_by_category text).
  { unfold by_category. by rewrite extract_skills_eq. }
  assert (Hsub : skills `sublist_of` get_all_skills).
  { rewrite Hskills. apply sublist_filter. }
  split_and!.
  - done.
  - eapply sublist_NoDup; [apply vocabulary_distinct | by apply fmap_sublist].
  - rewrite Hskills, Hcat. unfold found_by_category.
    by rewrite concat_found_in.
  - rewrite Hcat. apply found_in_keys.
  - intros c l. rewrite Hcat. unfold found_by_category, found_in.
    intros [Hne ([c' all] & [= -> ->] & Hin)%list_elem_of_fmap]%list_elem_of_filter.
    simpl in *. split; [done|]. exists all. split; [done|].
    apply filter_ext_elem. intros s Hs.
    rewrite Hskills, list_elem_of_filter. split; [|tauto]. intros Hf. split; [done|].
    unfold get_all_skills. apply elem_of_concat. exists all. split; [|done].
    apply list_elem_of_fmap. by exists (c', all).
Qed.

(** X14.  In an ASCII text, a skill is among the skills
    [extract_skills] returns exactly when it is a skill of the
    vocabulary and its name, in lower case, stands in the lower-cased
    text between two word boundaries: letter case does not matter, and a
    name inside a longer word is not found. *)
Theorem extract_skills_finds_words text skill :
  is_ascii text = true →
  (skill ∈ (extract_skills text).1
   ↔ skill ∈ get_all_skills ∧ Re.occurs_as_word (lower skill) (lower text)).
Proof.
  intros _. rewrite elem_of_extract_skills. unfold skill_found.
  by rewrite word_search_spec.
Qed.

Lemma last_of_snoc prev (w : string) (c : ascii) :
  Re.last_of prev (w +:+ String c "") = Some c.
Proof. by rewrite last_of_app. Qed.

(** X15.  In an ASCII text, the two skills whose names end in a sign,
    C++ and C#, are found only where a letter, a digit or an underscore
    follows the name directly: the boundary [\b] after the sign asks for
    it.  At the end of the text, or before a space or a comma, they are
    not found. *)
Theorem extract_skills_names_ending_in_sign text skill :
  is_ascii text = true →
  skill ∈ ["C++"; "C#"] →
  skill ∈ (extract_skills text).1 →
  ∃ pre d post,
    lower text = pre +:+ lower skill +:+ String d post ∧ Re.is_word d = true.
Proof.
  intros _ Hskill [_ Hfound]%elem_of_extract_skills.
  unfold skill_found in Hfound. apply word_search_spec in Hfound.
  destruct Hfound as (pre & post & Heq & _ & Hb).
  assert (Hlast : ∃ c, Re.last_of None (pre +:+ lower skill) = Some c
                       ∧ Re.is_word c = false).
  { rewrite last_of_app.
    apply elem_of_cons in Hskill as [-> | Hskill];
      [|apply list_elem_of_singleton in Hskill as ->]; by eexists. }
  destruct Hlast as (c & Hc & Hw). rewrite Hc in Hb.
  unfold Re.at_boundary in Hb. simpl in Hb. rewrite Hw in Hb.
  destruct post as [|d post]; [done|]. by exists pre, d, post.
Qed.

End SkillExtractionFacts.

Lemma extract_skills_names_ending_in_sign_witness :
  is_ascii "Wrote C++11 and Rust" = true
  ∧ "C++" ∈ (extract_skills "Wrote C++11 and Rust").1
  ∧ ∃ pre d post,
      Str.lower "Wrote C++11 and Rust" = pre +:+ Str.lower "C++" +:+ String d post
      ∧ Re.is_word d = true.
Proof.
  assert (Hin : "C++" ∈ (extract_skills "Wrote C++11 and Rust").1).
  { apply (bool_decide_unpack _). by vm_compute. }
  split; [reflexivity|]. split; [exact Hin|].
  apply extract_skills_names_ending_in_sign; [reflexivity| |exact Hin].
  apply (bool_decide_unpack _). by vm_compute.
Defined.

Section StringOrder.

Lemma string_ltb_asym (a b : string) :
  String.ltb a b = true → String.ltb b a = false.
Proof.
  unfold String.ltb. rewrite (String.compare_antisym b a).
  by destruct (String.compare a b).
Qed.

Lemma string_ltb_lt (a b : string) :
  String.ltb a b = true ↔ OrderedTypeEx.String_as_OT.lt a b.
Proof.
  rewrite <- OrderedTypeEx.String_as_OT.cmp_lt.
  unfold String.ltb, OrderedTypeEx.String_as_OT.cmp.
  by destruct (String.compare a b).
Qed.

Lemma string_ltb_trans (a b c : string) :
  String.ltb a b = true → String.ltb b c = true → String.ltb a c = true.
Proof.
  rewrite !string_ltb_lt. apply OrderedTypeEx.String_as_OT.lt_trans.
Qed.

Lemma string_ltb_total (a b : string) :
  String.ltb a b = false → String.ltb b a = false → a = b.
Proof.
  unfold String.ltb. rewrite (String.compare_antisym b a).
  destruct (String.compare a b) eqn:Hc; try done.
  intros _ _. by apply String.compare_eq_iff.
Qed.

Lemma StronglySorted_filter_keeps {A} (R : relation A) (P : A → Prop)
    `{∀ x, Decision (P x)} (l : list A) :
  StronglySorted R l → StronglySorted R (filter P l).
Proof.
  induction 1 as [|x l Hl IH Hx]; [constructor|].
  rewrite filter_cons. destruct (decide (P x)); [|done].
  constructor; [done|]. rewrite Forall_forall in Hx. apply Forall_forall.
  intros y [_ Hy]%list_elem_of_filter. by apply Hx.
Qed.

(** [sorted] returns the one ascending arrangement of a list. *)
Lemma sorted_strings_unique (l l' : list string) :
  l ≡ₚ l' → StronglySorted (λ a b, String.ltb b a = false) l' →
  sorted_strings l = l'.
Proof.
  intros Hp Hs.
  apply (StronglySorted_unique_strong (λ a b, String.ltb b a = false)).
  - intros x1 x2 _ _ H1 H2. by apply string_ltb_total.
  - apply (sort_desc_descending (λ a b, String.ltb b a)).
    + intros x y. apply string_ltb_asym.
    + intros x y z Hxy Hyz. by apply (string_ltb_trans z y x).
  - done.
  - unfold sorted_strings. by rewrite sort_desc_perm.
Qed.

End StringOrder.

Section EducationFacts.
Import Str Py.

Lemma education_set (t : list Re.atom * string → bool)
    (pats : list (list Re.atom * string)) (acc : list string) :
  let ed := foldl (λ ed item, if t item then set_add item.2 ed else ed) acc pats in
  (NoDup acc → NoDup ed)
  ∧ ∀ x, x ∈ ed ↔ x ∈ acc ∨ ∃ item, item ∈ pats ∧ t item = true ∧ item.2 = x.
Proof.
  revert acc. induction pats as [|item pats IH]; intros acc; simpl.
  - split; [done|]. intros x. split; [by left|].
    by intros [? | (? & ?%elem_of_nil & _)].
  - destruct (IH (if t item then set_add item.2 acc else acc)) as [Hnd Hin].
    split.
    + intros Hacc. apply Hnd. destruct (t item); [by apply NoDup_set_add | done].
    + intros x. rewrite Hin. destruct (t item) eqn:Ht.
      * rewrite elem_of_set_add. split.
        -- intros [[-> | ?] | (i & Hi & Hti & Hx)].
           ++ right. exists item. split_and!; [left | done..].
           ++ by left.
           ++ right. exists i. split_and!; [by right | done..].
        -- intros [? | (i & [-> | Hi]%elem_of_cons & Hti & Hx)].
           ++ left. by right.
           ++ left. by left.
           ++ right. by exists i.
      * split.
        -- intros [? | (i & Hi & Hti & Hx)]; [by left|].
           right. exists i. split_and!; [by right | done..].
        -- intros [? | (i & [-> | Hi]%elem_of_cons & Hti & Hx)].
           ++ by left.
           ++ congruence.
           ++ right. by exists i.
Qed.

Lemma education_degrees :
  Forall (λ item : list Re.atom * string,
            item.2 ∈ ["Bachelor's"; "MBA"; "Master's"; "PhD"])
         education_patterns.
Proof. apply (bool_decide_unpack _). by vm_compute. Qed.

Lemma degree_found_spec text degree :
  degree_found text degree = true
  ↔ ∃ item, item ∈ education_patterns
            ∧ Re.search item.1 (lower text) = true ∧ item.2 = degree.
Proof.
  unfold degree_found. rewrite existsb_exists. split.
  - intros (item & Hin%list_elem_of_In & [Heq%String.eqb_eq Hs]%andb_true_iff).
    by exists item.
  - intros (item & Hin%list_elem_of_In & Hs & Heq). exists item.
    split; [done|]. apply andb_true_iff. by rewrite String.eqb_eq.
Qed.

Lemma extract_education_filter {iteration : SetOrder} text :
  extract_education text
  = filter (λ degree, degree_found text degree = true)
           ["Bachelor's"; "MBA"; "Master's"; "PhD"].
Proof.
  unfold extract_education.
  destruct (education_set (λ item, Re.search item.1 (lower text))
              education_patterns []) as [Hnd Hin].
  apply sorted_strings_unique.
  - rewrite set_iter_perm. apply NoDup_Permutation.
    + apply Hnd. constructor.
    + apply NoDup_filter. apply (bool_decide_unpack _). by vm_compute.
    + intros x. rewrite Hin, list_elem_of_filter, degree_found_spec. split.
      * intros [?%elem_of_nil | (item & Hi & Hs & Hx)]; [done|]. split.
        -- by exists item.
        -- pose proof education_degrees as Hall. rewrite Forall_forall in Hall.
           rewrite <- Hx. by apply Hall.
      * intros [? _]. by right.
  - apply StronglySorted_filter_keeps.
    apply (bool_decide_unpack _). by vm_compute.
Qed.

(** X16.  [extract_education] returns the degrees for which one of the
    patterns matches the lower-cased text, each once, in the order
    Bachelor's, MBA, Master's, PhD.  The degrees are collected in a set,
    but the result does not depend on the order in which Python iterates
    that set. *)
Theorem extract_education_sorted (iteration : SetOrder) text :
  extract_education text
  = filter (λ degree, degree_found text degree = true)
           ["Bachelor's"; "MBA"; "Master's"; "PhD"]
  ∧ NoDup (extract_education text)
  ∧ ∀ other : SetOrder,
      @extract_education other text = @extract_education iteration text.
Proof.
  split_and!.
  - apply extract_education_filter.
  - rewrite extract_education_filter. apply NoDup_filter.
    apply (bool_decide_unpack _). by vm_compute.
  - intros other. by rewrite !extract_education_filter.
Qed.

Lemma search_at p (pre post : string) :
  Re.match_here p (Re.last_of None pre) post = true →
  Re.search p (pre +:+ post) = true.
Proof. intros Hm. apply search_from_spec. by exists pre, post. Qed.

(** X17.  The abbreviation patterns make the dots optional, so they
    also match plain words: an ASCII text in which the word "be" stands
    gets the degree Bachelor's (the pattern for B.E.), and one in which
    the word "ms" stands gets Master's (the pattern for M.S.). *)
Theorem extract_education_plain_words (iteration : SetOrder) text :
  is_ascii text = true →
  (Re.occurs_as_word "be" (lower text) → "Bachelor's" ∈ extract_education text)
  ∧ (Re.occurs_as_word "ms" (lower text) → "Master's" ∈ extract_education text).
Proof.
  intros _. rewrite extract_education_filter. split.
  - intros (pre & post & Heq & Hb1 & Hb2). rewrite last_of_app in Hb2.
    apply list_elem_of_filter. split; [|set_solver].
    apply degree_found_spec. eexists (_, _). split_and!; [| |reflexivity].
    { do 11 right. left. }
    rewrite Heq. apply search_at.
    cbn [fst]. unfold Re.word. simpl app. rewrite match_here_bound, Hb1.
    change ("be" +:+ post) with (String "b" (String "e" post)).
    cbn. cbn in Hb2. by rewrite Hb2, orb_true_r.
  - intros (pre & post & Heq & Hb1 & Hb2). rewrite last_of_app in Hb2.
    apply list_elem_of_filter. split; [|set_solver].
    apply degree_found_spec. eexists (_, _). split_and!; [| |reflexivity].
    { do 3 right. left. }
    rewrite Heq. apply search_at.
    cbn [fst]. unfold Re.word. simpl app. rewrite match_here_bound, Hb1.
    change ("ms" +:+ post) with (String "m" (String "s" post)).
    cbn. cbn in Hb2. by rewrite Hb2, orb_true_r.
Qed.

End EducationFacts.

(** * The dashboard *)

Section TextFacts.
Import Str Text.

Lemma contains_char_cons (x c : ascii) (s : string) :
  contains (String x "") (String c s)
  = (Ascii.eqb c x || contains (String x "") s)%bool.
Proof.
  change (contains (String x "") (String c s))
    with (String.prefix (String x "") (String c s) || contains (String x "") s)%bool.
  f_equal.
  change (String.prefix (String x "") (String c s))
    with (if ascii_dec x c then String.prefix "" s else false).
  destruct (ascii_dec x c) as [<-|Hne].
  - rewrite Ascii.eqb_refl. by destruct s.
  - symmetry. apply Ascii.eqb_neq. congruence.
Qed.

Lemma contains_char_nil (x : ascii) : contains (String x "") "" = false.
Proof. done. Qed.

Lemma lstrip_head (s : string) :
  lstrip s = "" ∨ ∃ c t, lstrip s = String c t ∧ is_space c = false.
Proof.
  induction s as [|c s IH]; [by left|]. simpl.
  destruct (is_space c) eqn:Hc; [done|]. right. by exists c, s.
Qed.

Lemma lstrip_id (c : ascii) (t : string) :
  is_space c = false → lstrip (String c t) = String c t.
Proof. intros Hc. simpl. by rewrite Hc. Qed.

Lemma rstrip_head (c : ascii) (t : string) :
  is_space c = false → ∃ t', rstrip (String c t) = String c t'.
Proof.
  intros Hc. simpl. destruct (rstrip t); [|by eexists].
  rewrite Hc. by eexists.
Qed.

Lemma rstrip_idemp (s : string) : rstrip (rstrip s) = rstrip s.
Proof.
  induction s as [|c s IH]; [done|]. simpl.
  destruct (rstrip s) as [|d t] eqn:Hs.
  - destruct (is_space c) eqn:Hc; [done|]. simpl. by rewrite Hc.
  - change (rstrip (String c (String d t)))
      with (match rstrip (String d t) with
            | "" => if is_space c then "" else String c ""
            | t' => String c t'
            end).
    by rewrite IH.
Qed.

(** [strip] leaves a stripped string alone. *)
Lemma strip_idemp (s : string) : strip (strip s) = strip s.
Proof.
  unfold strip. destruct (lstrip_head s) as [-> | (c & t & -> & Hc)]; [done|].
  destruct (rstrip_head c t Hc) as [t' Ht]. rewrite Ht, (lstrip_id _ _ Hc), <- Ht.
  apply rstrip_idemp.
Qed.

Lemma lstrip_blank (s : string) :
  lstrip s = "" ↔ Forall (λ c, is_space c = true) (list_ascii_of_string s).
Proof.
  induction s as [|c s IH]; simpl.
  - split; [constructor | done].
  - rewrite Forall_cons. destruct (is_space c); [|by split; [|intros [? _]]].
    rewrite IH. tauto.
Qed.

(** A string strips to nothing exactly when it is all white space. *)
Lemma strip_blank (s : string) :
  strip s = "" ↔ Forall (λ c, is_space c = true) (list_ascii_of_string s).
Proof.
  rewrite <- lstrip_blank. unfold strip.
  destruct (lstrip_head s) as [-> | (c & t & -> & Hc)]; [done|].
  destruct (rstrip_head c t Hc) as [t' ->]. done.
Qed.

Lemma contains_char_lstrip (x : ascii) (s : string) :
  contains (String x "") s = false → contains (String x "") (lstrip s) = false.
Proof.
  induction s as [|c s IH]; [done|]. rewrite contains_char_cons. simpl lstrip.
  intros [Hc Hs]%orb_false_iff. destruct (is_space c); [by apply IH|].
  by rewrite contains_char_cons, Hc, Hs.
Qed.

Lemma contains_char_rstrip (x : ascii) (s : string) :
  contains (String x "") s = false → contains (String x "") (rstrip s) = false.
Proof.
  induction s as [|c s IH]; [done|]. rewrite contains_char_cons. simpl rstrip.
  intros [Hc Hs]%orb_false_iff. specialize (IH Hs).
  destruct (rstrip s) as [|d t].
  - destruct (is_space c); [done|]. by rewrite contains_char_cons, Hc.
  - by rewrite contains_char_cons, Hc, IH.
Qed.

Lemma contains_char_strip (x : ascii) (s : string) :
  contains (String x "") s = false → contains (String x "") (strip s) = false.
Proof. intros Hs. by apply contains_char_rstrip, contains_char_lstrip. Qed.

Lemma split_on_pieces (sep : ascii) (s : string) :
  split_on sep s ≠ []
  ∧ Forall (λ piece, contains (String sep "") piece = false) (split_on sep s).
Proof.
  induction s as [|c s [Hne IH]]; simpl.
  - split; [done|]. by repeat constructor.
  - destruct (Ascii.eqb c sep) eqn:Hc.
    + split; [done|]. by constructor.
    + destruct (split_on sep s) as [|piece pieces]; [done|]. split; [done|].
      apply Forall_cons in IH as [Hp Hps]. constructor; [|done].
      by rewrite contains_char_cons, Hc, Hp.
Qed.

(** Splitting at a separator undoes joining with it. *)
Lemma split_on_append (sep : ascii) (a b : string) :
  contains (String sep "") a = false →
  split_on sep (a +:+ String sep b) = a :: split_on sep b.
Proof.
  induction a as [|c a IH].
  - intros _. change ("" +:+ String sep b) with (String sep b). simpl.
    by rewrite Ascii.eqb_refl.
  - rewrite contains_char_cons, append_cons. intros [Hc Ha]%orb_false_iff.
    simpl. by rewrite Hc, (IH Ha).
Qed.

Lemma split_on_whole (sep : ascii) (a : string) :
  contains (String sep "") a = false → split_on sep a = [a].
Proof.
  induction a as [|c a IH]; [done|].
  rewrite contains_char_cons. intros [Hc Ha]%orb_false_iff.
  simpl. by rewrite Hc, (IH Ha).
Qed.

Lemma split_on_blanks (sep : ascii) (s : string) :
  Forall (λ c, is_space c = true ∨ c = sep) (list_ascii_of_string s) →
  Forall (λ piece, strip piece = "") (split_on sep s).
Proof.
  setoid_rewrite strip_blank.
  induction s as [|c s IH]; simpl.
  - intros _. by repeat constructor.
  - intros [Hc Hs]%Forall_cons. specialize (IH Hs).
    destruct (Ascii.eqb_spec c sep) as [->|Hne].
    + constructor; [constructor | done].
    + destruct Hc as [Hc|Hc]; [|done].
      destruct (split_on sep s) as [|piece pieces]; [by repeat constructor|].
      apply Forall_cons in IH as [Hp Hps]. constructor; [|done].
      simpl. by constructor.
Qed.

End TextFacts.

Section SidebarFacts.
Import Str Text.

(** What the items of a comma-separated field are like. *)
Local Abbreviation tidy :=
  (λ s : string, s ≠ "" ∧ strip s = s ∧ contains "," s = false).

Lemma comma_separated_tidy text : Forall tidy (comma_separated text).
Proof.
  unfold comma_separated. apply Forall_forall.
  intros s [Hne (piece & -> & Hin)%list_elem_of_fmap]%list_elem_of_filter.
  split_and!; [done | apply strip_idemp |].
  apply contains_char_strip.
  destruct (split_on_pieces "," text) as [_ Hall].
  rewrite Forall_forall in Hall. by apply Hall.
Qed.

Lemma split_default_skills (x : string) (l : list string) :
  Forall (λ s, contains "," s = false) (x :: l) →
  split_on "," (join ", " (x :: l)) = x :: (String " " <$> l).
Proof.
  revert x. induction l as [|y l IH]; intros x [Hx Hl]%Forall_cons.
  - by apply split_on_whole.
  - change (join ", " (x :: y :: l)) with (x +:+ ", " +:+ join ", " (y :: l)).
    change (", " +:+ join ", " (y :: l))
      with (String "," (String " " (join ", " (y :: l)))).
    rewrite split_on_append by done.
    change (split_on "," (String " " (join ", " (y :: l))))
      with (match split_on "," (join ", " (y :: l)) with
            | piece :: pieces => String " " piece :: pieces
            | [] => [String " " ""]
            end).
    by rewrite (IH y Hl).
Qed.

Lemma comma_separated_join (l : list string) :
  Forall tidy l → comma_separated (default_skills l) = l.
Proof.
  intros Hl. unfold comma_separated, default_skills.
  destruct l as [|x l]; [done|].
  rewrite split_default_skills
    by (eapply Forall_impl; [exact Hl | by intros s (_ & _ & ?)]).
  apply Forall_cons in Hl as [(Hx & Hsx & _) Hl]. csimpl.
  rewrite Hsx, filter_cons, decide_True by done. f_equal.
  induction Hl as [|y l (Hy & Hsy & _) _ IH]; [done|]. csimpl.
  change (strip (String " " y)) with (strip y).
  by rewrite Hsy, filter_cons, decide_True, IH by done.
Qed.

Lemma vocabulary_tidy : Forall tidy get_all_skills.
Proof. apply (bool_decide_unpack _). by vm_compute. Qed.

(** X18.  The items the sidebar reads from a comma-separated field are
    never empty, have no white space at either end and contain no
    comma; reading the field again from its own items, joined the way
    the sidebar fills the field in, gives the same items. *)
Theorem comma_separated_items text :
  Forall (λ s, s ≠ "" ∧ strip s = s ∧ contains "," s = false)
         (comma_separated text)
  ∧ comma_separated (default_skills (comma_separated text))
    = comma_separated text.
Proof.
  split; [apply comma_separated_tidy|].
  apply comma_separated_join, comma_separated_tidy.
Qed.

(** X19.  For a skills field in ASCII, the sidebar prepares no profile
    exactly when the field is empty or all white space.  A field of
    nothing but commas and white space, with at least one comma, still
    gives a profile, and that profile has an empty skill list. *)
Theorem prepare_profile_blank skills_input interests_input education gpa years :
  is_ascii skills_input = true →
  let chars := list_ascii_of_string skills_input in
  (prepare_profile skills_input interests_input education gpa years = None
   ↔ Forall (λ c, is_space c = true) chars)
  ∧ (Forall (λ c, is_space c = true ∨ c = ","%char) chars →
     ","%char ∈ chars →
     ∃ profile,
       prepare_profile skills_input interests_input education gpa years
       = Some profile
       ∧ skills profile = []).
Proof.
  intros _ chars. unfold chars. rewrite <- strip_blank. unfold prepare_profile.
  split.
  - by destruct (strip skills_input).
  - intros Hall Hcomma.
    assert (Hne : strip skills_input ≠ "").
    { rewrite strip_blank, Forall_forall. intros Hsp.
      by specialize (Hsp _ Hcomma). }
    destruct (strip skills_input) as [|c0 t0]; [done|].
    eexists. split; [done|]. simpl.
    unfold comma_separated. apply filter_nil_iff.
    intros item (piece & -> & Hin)%list_elem_of_fmap Hs. apply Hs.
    pose proof (split_on_blanks "," skills_input Hall) as Hb.
    rewrite Forall_forall in Hb. by apply Hb.
Qed.

(** X20.  The skills a resume yields survive the skills field: the
    sidebar joins them with [", "], and reading the field gives the same
    list back.  This holds for any list of items that are not empty,
    have no white space at either end and contain no comma, as the
    skills of the vocabulary are. *)
Theorem extracted_skills_round_trip text l :
  (Forall (λ s, s ≠ "" ∧ strip s = s ∧ contains "," s = false) l →
   comma_separated (default_skills l) = l)
  ∧ comma_separated (default_skills (extract_skills text).1)
    = (extract_skills text).1.
Proof.
  split; [apply comma_separated_join|].
  apply comma_separated_join.
  pose proof vocabulary_tidy as Hall. rewrite Forall_forall in Hall.
  apply Forall_forall. intros s [Hs _]%elem_of_extract_skills. by apply Hall.
Qed.

End SidebarFacts.

Section TimelineFacts.
Import Py.
Context {iteration : SetOrder} (career_db : dict career_details).

Lemma timeline_weeks (path : list learning_module) (week : Z)
    (bars : list timeline_bar) :
  (foldl timeline_step (week, bars) path).1
  = week + sum (estimated_weeks <$> path).
Proof.
  revert week bars. induction path as [|m path IH]; intros week bars; csimpl.
  - rewrite sum_nil. lia.
  - unfold timeline_step at 2. simpl fst. simpl snd.
    rewrite IH, sum_cons. lia.
Qed.

Lemma timeline_data_snoc (path : list learning_module) (m : learning_module) :
  timeline_data (path ++ [m])
  = timeline_data path
    ++ [ {| bar_skill := skill m;
            bar_start := sum (estimated_weeks <$> path);
            bar_finish := sum (estimated_weeks <$> path) + estimated_weeks m;
            bar_duration := estimated_weeks m;
            bar_difficulty := module_difficulty m |} ].
Proof.
  unfold timeline_data. rewrite foldl_snoc. unfold timeline_step at 1.
  simpl snd. by rewrite timeline_weeks, Z.add_0_l.
Qed.

Lemma timeline_data_length (path : list learning_module) :
  length (timeline_data path) = length path.
Proof.
  induction path as [|m path IH] using rev_ind; [done|].
  rewrite timeline_data_snoc, !length_app, IH. done.
Qed.

Lemma timeline_data_lookup (path : list learning_module) (i : nat)
    (bar : timeline_bar) :
  timeline_data path !! i = Some bar →
  ∃ m, path !! i = Some m
       ∧ bar = {| bar_skill := skill m;
                  bar_start := sum (estimated_weeks <$> take i path);
                  bar_finish := sum (estimated_weeks <$> take i path)
                                + estimated_weeks m;
                  bar_duration := estimated_weeks m;
                  bar_difficulty := module_difficulty m |}.
Proof.
  revert i bar. induction path as [|m path IH] using rev_ind; intros i bar.
  - by rewrite lookup_nil.
  - rewrite timeline_data_snoc.
    destruct (decide (i < length path)%nat) as [Hlt|Hge].
    + rewrite lookup_app_l by (by rewrite timeline_data_length).
      intros (m' & Hm' & ->)%IH. exists m'.
      rewrite lookup_app_l by done. split; [done|].
      by rewrite take_app_le by lia.
    + rewrite lookup_app_r by (rewrite timeline_data_length; lia).
      rewrite timeline_data_length.
      destruct (i - length path)%nat as [|k] eqn:Hk; [|by destruct k].
      intros [= <-]. assert (i = length path) as -> by lia.
      exists m. rewrite lookup_app_r, Nat.sub_diag by done. split; [done|].
      by rewrite take_app_length.
Qed.

Lemma timeline_data_last (path : list learning_module) :
  path ≠ [] →
  bar_finish <$> last (timeline_data path)
  = Some (sum (map estimated_weeks path)).
Proof.
  intros Hne. destruct (exists_last Hne) as (init & final & ->).
  rewrite timeline_data_snoc, last_snoc, map_app, sum_app.
  change (map estimated_weeks [final]) with [estimated_weeks final].
  by rewrite sum_cons, sum_nil, Z.add_0_r.
Qed.

Lemma take_S_lookup {A} (l : list A) (i : nat) (x : A) :
  l !! i = Some x → take (S i) l = take i l ++ [x].
Proof. apply take_S_r. Qed.

(** X21.  The timeline has one bar per module of the learning path, in
    the path's order.  The first bar starts at week 0, every bar ends
    its module's weeks after it starts, and every other bar starts in
    the week the bar before it ends; so the last bar ends in the week
    the endpoint reports as [total_weeks]. *)
Theorem timeline_data_contiguous profile target :
  (∀ path : list learning_module,
     length (timeline_data path) = length path
     ∧ (∀ i bar, timeline_data path !! i = Some bar →
          ∃ m, path !! i = Some m
               ∧ bar_skill bar = skill m
               ∧ bar_difficulty bar = module_difficulty m
               ∧ bar_duration bar = estimated_weeks m
               ∧ bar_finish bar = bar_start bar + bar_duration bar)
     ∧ (∀ bar, timeline_data path !! 0%nat = Some bar → bar_start bar = 0)
     ∧ (∀ i a b, timeline_data path !! i = Some a →
                 timeline_data path !! S i = Some b →
                 bar_start b = bar_finish a))
  ∧ ∀ body,
      learning_path_endpoint career_db profile target = Http200 body →
      bar_finish <$> last (timeline_data (learning_path body))
      = Some (total_weeks body).
Proof.
  split.
  - intros path. split_and!.
    + apply timeline_data_length.
    + intros i bar (m & Hm & ->)%timeline_data_lookup. by exists m.
    + by intros bar (m & Hm & ->)%timeline_data_lookup.
    + intros i a b (m & Hm & ->)%timeline_data_lookup
        (m' & Hm' & ->)%timeline_data_lookup. cbn [bar_start bar_finish].
      rewrite (take_S_lookup _ _ _ Hm), fmap_app, sum_app.
      change (estimated_weeks <$> [m]) with [estimated_weeks m].
      by rewrite sum_cons, sum_nil, Z.add_0_r.
  - intros body. unfold learning_path_endpoint.
    destruct (get_learning_path career_db profile target) as [|m path] eqn:Hpath;
      [done|].
    intros [= <-]. by apply (timeline_data_last (m :: path)).
Qed.

End TimelineFacts.

Section SetOrderFacts.
Import Str Num Py.
Context (career_db : dict career_details).

(** Two recommendations that differ at most in the order of their
    matching skills. *)
Local Abbreviation alike :=
  (λ r1 r2 : CareerRecommendation,
     career r1 = career r2
     ∧ match_score r1 = match_score r2
     ∧ skills_to_learn r1 = skills_to_learn r2
     ∧ matching_skills r1 ≡ₚ matching_skills r2
     ∧ rec_description r1 = rec_description r2
     ∧ salary_info r1 = salary_info r2
     ∧ rec_growth_outlook r1 = rec_growth_outlook r2).

Lemma recommendation_for_alike (it1 it2 : SetOrder) profile item :
  alike (@recommendation_for it1 profile item)
        (@recommendation_for it2 profile item).
Proof.
  destruct item as [name details]. simpl. split_and!; try done.
  unfold select_values. apply omap_Permutation.
  by rewrite !set_iter_perm.
Qed.

Lemma insert_desc_alike (x x' : CareerRecommendation) l l' :
  alike x x' → Forall2 alike l l' →
  Forall2 alike (insert_desc score_lt x l) (insert_desc score_lt x' l').
Proof.
  intros Hx Hl. induction Hl as [|y y' l l' Hy Hl IH]; simpl.
  - constructor; [exact Hx | constructor].
  - unfold score_lt.
    rewrite <- (proj1 (proj2 Hx)), <- (proj1 (proj2 Hy)).
    destruct (match_score y <? match_score x)%float.
    + constructor; [exact Hx|]. constructor; [exact Hy | exact Hl].
    + constructor; [exact Hy | exact IH].
Qed.

Lemma sort_desc_alike l l' :
  Forall2 alike l l' →
  Forall2 alike (sort_desc score_lt l) (sort_desc score_lt l').
Proof.
  unfold sort_desc. intros Hl.
  assert (Hacc : Forall2 alike (@nil CareerRecommendation) []) by constructor.
  revert Hacc. generalize (@nil CareerRecommendation) at 1 3.
  generalize (@nil CareerRecommendation).
  induction Hl as [|x x' l l' Hx Hl IH]; intros acc' acc Hacc; simpl; [done|].
  apply IH. by apply insert_desc_alike.
Qed.

(** X22.  The order in which Python iterates a set has no influence on
    which careers are recommended, in which order, with which scores and
    with which skills to learn: under any two iteration orders the
    results agree one by one in everything but the order of the matching
    skills, which are the same skills. *)
Theorem recommend_careers_any_set_order (it1 it2 : SetOrder) profile top_n :
  Forall2 (λ r1 r2,
             career r1 = career r2
             ∧ match_score r1 = match_score r2
             ∧ skills_to_learn r1 = skills_to_learn r2
             ∧ matching_skills r1 ≡ₚ matching_skills r2
             ∧ rec_description r1 = rec_description r2
             ∧ salary_info r1 = salary_info r2
             ∧ rec_growth_outlook r1 = rec_growth_outlook r2)
          (@recommend_careers it1 career_db profile top_n)
          (@recommend_careers it2 career_db profile top_n).
Proof.
  unfold recommend_careers.
  assert (Hall : Forall2 alike (@all_recommendations it1 career_db profile)
                               (@all_recommendations it2 career_db profile)).
  { unfold all_recommendations. apply Forall2_fmap, Forall_Forall2_diag.
    apply Forall_forall. intros item _. apply recommendation_for_alike. }
  apply sort_desc_alike in Hall.
  unfold slice_to. rewrite (Forall2_length _ _ _ Hall).
  destruct (0 <=? top_n); by apply Forall2_take.
Qed.

End SetOrderFacts.

(** * The properties above at concrete inputs *)

Lemma recommend_careers_endpoint_results_witness :
  NoDup CAREER_DATABASE.*1
  ∧ length (@recommend_careers_endpoint insertion_order CAREER_DATABASE
              example_profile) = 10%nat
  ∧ NoDup (career <$> @recommend_careers_endpoint insertion_order CAREER_DATABASE
                        example_profile).
Proof.
  split; [exact catalog_names_distinct |].
  pose proof (@recommend_careers_endpoint_results insertion_order CAREER_DATABASE
                example_profile catalog_names_distinct) as (Hlen & Hnd & _).
  exact (conj Hlen Hnd).
Defined.

Lemma recommend_careers_fewer_is_prefix_witness :
  0 ≤ 3 ≤ 5
  ∧ @recommend_careers insertion_order CAREER_DATABASE example_profile 3
      `prefix_of` @recommend_careers insertion_order CAREER_DATABASE
                    example_profile 5.
Proof.
  assert (Hmn : 0 ≤ 3 ≤ 5) by lia.
  split; [exact Hmn |].
  exact (proj1 (@recommend_careers_fewer_is_prefix insertion_order CAREER_DATABASE
                  example_profile 3 5 Hmn)).
Defined.

Lemma skill_score_depends_on_sets_witness :
  Forall (λ s, is_ascii s = true)
         (["python"; "SQL"] ++ ["SQL"; "Python"; "sql"]
          ++ ["Python"; "SQL"; "Git"] ++ ["Python"; "SQL"; "Git"]
          ++ ["AWS"] ++ ["AWS"])
  ∧ ci_set ["python"; "SQL"] = ci_set ["SQL"; "Python"; "sql"]
  ∧ calculate_skill_match_score ["python"; "SQL"] ["Python"; "SQL"; "Git"] ["AWS"]
    = calculate_skill_match_score ["SQL"; "Python"; "sql"]
        ["Python"; "SQL"; "Git"] ["AWS"].
Proof.
  assert (Hu : ci_set ["python"; "SQL"] = ci_set ["SQL"; "Python"; "sql"])
    by (vm_compute; reflexivity).
  assert (Hascii : Forall (λ s, is_ascii s = true)
                     (["python"; "SQL"] ++ ["SQL"; "Python"; "sql"]
                      ++ ["Python"; "SQL"; "Git"] ++ ["Python"; "SQL"; "Git"]
                      ++ ["AWS"] ++ ["AWS"]))
    by (apply (bool_decide_unpack _); vm_compute; exact I).
  split; [exact Hascii |]. split; [exact Hu |].
  exact (skill_score_depends_on_sets _ _ _ _ _ _ Hascii Hu eq_refl eq_refl).
Defined.

Lemma interest_boost_order_and_growth_witness :
  ["finance"; "tech"] ≡ₚ ["tech"; "finance"]
  ∧ ∀ name details,
      calculate_interest_boost ["finance"; "tech"] name details
      = calculate_interest_boost ["tech"; "finance"] name details.
Proof.
  assert (Hp : ["finance"; "tech"] ≡ₚ ["tech"; "finance"]) by apply perm_swap.
  split; [exact Hp |].
  intros name details.
  exact (proj1 (interest_boost_order_and_growth _ _ [] name details Hp)).
Defined.

Lemma interest_boost_blank_interest_witness :
  "" ∈ ["robots"; ""]
  ∧ ∀ name details, 5 ≤ calculate_interest_boost ["robots"; ""] name details.
Proof.
  assert (Hin : "" ∈ ["robots"; ""]) by (right; left).
  split; [exact Hin |].
  intros name details.
  exact (proj1 (interest_boost_blank_interest _ name details Hin)).
Defined.

Lemma recommendation_agrees_with_gap_witness :
  ∃ details,
    Py.dict_get "Data Scientist" CAREER_DATABASE = Some details
    ∧ NoDup (Str.lower <$> required_skills details)
    ∧ ∃ gap,
        @analyze_skills_gap insertion_order CAREER_DATABASE example_profile
          "Data Scientist" = GapOk gap
        ∧ matching_skills (@recommendation_for insertion_order example_profile
                             ("Data Scientist", details))
          = matching_required gap.
Proof.
  eexists. split; [reflexivity |].
  match goal with |- ?P ∧ _ => assert (Hnd : P) end.
  { apply (bool_decide_unpack _). by vm_compute. }
  split; [exact Hnd |].
  destruct (@recommendation_agrees_with_gap insertion_order CAREER_DATABASE
              example_profile "Data Scientist" _ eq_refl Hnd)
    as (gap & Hgap & Hmatch & _).
  exists gap. exact (conj Hgap Hmatch).
Defined.

Lemma learning_path_only_missing_skills_witness :
  ∃ details,
    Py.dict_get "Data Scientist" CAREER_DATABASE = Some details
    ∧ ∀ m, m ∈ @get_learning_path insertion_order CAREER_DATABASE example_profile
                 "Data Scientist" →
           Str.lower (skill m) ∉ Str.lower <$> skills example_profile.
Proof.
  eexists. split; [reflexivity |].
  intros m Hm.
  exact (proj2 (proj1 (@learning_path_only_missing_skills insertion_order
                         CAREER_DATABASE example_profile "Data Scientist" _ eq_refl)
                  m Hm)).
Defined.

Lemma learning_path_weeks_bounds_witness :
  ∃ body,
    @learning_path_endpoint insertion_order CAREER_DATABASE example_profile
      "Data Scientist" = Http200 body
    ∧ 8 ≤ total_weeks body ≤ 80.
Proof.
  assert (Hbody : ∃ body,
            @learning_path_endpoint insertion_order CAREER_DATABASE example_profile
              "Data Scientist" = Http200 body)
    by (vm_compute; eexists; reflexivity).
  destruct Hbody as [body Hbody]. exists body. split; [exact Hbody |].
  exact (proj2 (proj2 (@learning_path_weeks_bounds insertion_order CAREER_DATABASE
                         example_profile "Data Scientist" body Hbody))).
Defined.

Lemma extract_skills_finds_words_witness :
  is_ascii "Python and Java, not JavaScript." = true
  ∧ ("Java" ∈ (extract_skills "Python and Java, not JavaScript.").1
     ↔ "Java" ∈ get_all_skills
       ∧ Re.occurs_as_word (Str.lower "Java")
           (Str.lower "Python and Java, not JavaScript.")).
Proof.
  split; [reflexivity |].
  exact (extract_skills_finds_words "Python and Java, not JavaScript." "Java"
           eq_refl).
Defined.

Lemma extract_education_plain_words_witness :
  is_ascii "To be or not to be" = true
  ∧ Re.occurs_as_word "be" (Str.lower "To be or not to be")
  ∧ "Bachelor's" ∈ @extract_education insertion_order "To be or not to be".
Proof.
  assert (Hword : Re.occurs_as_word "be" (Str.lower "To be or not to be")).
  { exists "to ", " or not to be". split_and!; reflexivity. }
  split; [reflexivity |]. split; [exact Hword |].
  exact (proj1 (extract_education_plain_words insertion_order
                  "To be or not to be" eq_refl) Hword).
Defined.

Lemma prepare_profile_blank_witness :
  is_ascii " , " = true
  ∧ ∃ profile,
      prepare_profile " , " "" "Bachelor's" 3.5%float 0 = Some profile
      ∧ skills profile = [].
Proof.
  split; [reflexivity |].
  assert (Hall : Forall (λ c, Text.is_space c = true ∨ c = ","%char)
                        (list_ascii_of_string " , "))
    by (apply (bool_decide_unpack _); vm_compute; exact I).
  assert (Hcomma : ","%char ∈ list_ascii_of_string " , ")
    by (apply (bool_decide_unpack _); vm_compute; exact I).
  exact (proj2 (prepare_profile_blank " , " "" "Bachelor's" 3.5%float 0 eq_refl)
           Hall Hcomma).
Defined.
